(** * neural_sp: corpus index and hierarchical batch builder

    A shallow embedding of

    - [examples/swbd/data/load_dataset.py] ([Dataset.__init__]: filtering
      and sorting of the utterance table), in [Module LoadDataset];
    - [utils/dataset/loader_hierarchical.py] ([DatasetBase.make_batch]:
      padding of features and of two label sequences into a mini-batch),
      in [Module LoaderHierarchical].

    Python integers are [Z]; values that Python uses as lengths or
    positions are [nat] where they come from [len] or [range].  A string
    holds the UTF-8 encoding of a Python [str]; splitting at an ASCII
    character, searching and comparing give on the encoding what they
    give on the [str].  Exceptions are an explicit error
    type, and the one attribute [make_batch] assigns ([self.input_size])
    is threaded through as explicit state.  Library behaviour follows
    CPython 3.11, numpy 2 and pandas 2 on a 64-bit platform; memory is
    taken to be unbounded. *)

From stdpp Require Import base list strings gmap.
From Stdlib Require Import ZArith Lia String Ascii Sorting.Sorted.


(** ** Exceptions *)

Inductive exn : Set :=
  | TypeError | ValueError | KeyError | IndexError | ZeroDivisionError
  | AttributeError | IOError | OverflowError.

Inductive result (A : Type) : Type :=
  | Ok (a : A)
  | Err (e : exn).
Arguments Ok {A} a.
Arguments Err {A} e.

Definition bind {A B : Type} (m : result A) (k : A -> result B) : result B :=
  match m with
  | Ok a => k a
  | Err e => Err e
  end.

Declare Scope py_scope.
Delimit Scope py_scope with py.
Notation "'do' x <- m ; k" := (bind m (fun x => k))
  (at level 10, x name, m at level 100, k at level 200) : py_scope.
Notation "'do' ' p <- m ; k" := (bind m (fun x => match x with p => k end))
  (at level 10, p pattern, m at level 100, k at level 200) : py_scope.
Local Open Scope py_scope.

Definition of_option {A : Type} (e : exn) (o : option A) : result A :=
  match o with Some a => Ok a | None => Err e end.

(** [for x in xs: s = body(x, s)], stopping at the first exception. *)
Fixpoint for_each {S X : Type} (body : X -> S -> result S) (xs : list X) (s : S)
  : result S :=
  match xs with
  | [] => Ok s
  | x :: xs' => do s' <- body x s; for_each body xs' s'
  end.

(** [list(map(f, xs))] for an [f] that may raise. *)
Fixpoint map_result {X Y : Type} (f : X -> result Y) (xs : list X)
  : result (list Y) :=
  match xs with
  | [] => Ok []
  | x :: xs' => do y <- f x; do ys <- map_result f xs'; Ok (y :: ys)
  end.

(** ** Python string primitives used by the two files *)

Module PyStr.

Local Open Scope string_scope.

(** [s.split(sep)] for a one-character separator: never empty, and one
    more piece than there are separators. *)
Fixpoint split (sep : ascii) (s : string) : list string :=
  match s with
  | EmptyString => [EmptyString]
  | String c s' =>
      if Ascii.eqb c sep then EmptyString :: split sep s'
      else match split sep s' with
           | [] => [String c EmptyString]
           | w :: ws => String c w :: ws
           end
  end.

(** [p in s] *)
Fixpoint contains (p s : string) : bool :=
  String.prefix p s ||
  match s with
  | EmptyString => false
  | String _ s' => contains p s'
  end.

(** A string holds the UTF-8 encoding of a Python [str].  [decode] gives
    the code points; bytes that encode no [str] give [None]. *)
Definition tail_byte (c : ascii) : option N :=
  let n := N_of_ascii c in
  if ((128 <=? n) && (n <? 192))%N then Some (n - 128)%N else None.

Fixpoint decode (s : string) : option (list N) :=
  match s with
  | EmptyString => Some []
  | String c s1 =>
      let n := N_of_ascii c in
      if (n <? 128)%N then cons n <$> decode s1
      else if (n <? 192)%N then None
      else if (n <? 224)%N then
        match s1 with
        | String c1 s2 =>
            match tail_byte c1 with
            | Some x1 =>
                let p := ((n - 192) * 64 + x1)%N in
                if (p <? 128)%N then None else cons p <$> decode s2
            | None => None
            end
        | _ => None
        end
      else if (n <? 240)%N then
        match s1 with
        | String c1 (String c2 s3) =>
            match tail_byte c1, tail_byte c2 with
            | Some x1, Some x2 =>
                let p := ((n - 224) * 4096 + x1 * 64 + x2)%N in
                if ((p <? 2048) || ((55296 <=? p) && (p <? 57344)))%N
                then None else cons p <$> decode s3
            | _, _ => None
            end
        | _ => None
        end
      else if (n <? 248)%N then
        match s1 with
        | String c1 (String c2 (String c3 s4)) =>
            match tail_byte c1, tail_byte c2, tail_byte c3 with
            | Some x1, Some x2, Some x3 =>
                let p := ((n - 240) * 262144 + x1 * 4096 + x2 * 64 + x3)%N in
                if ((p <? 65536) || (1114111 <? p))%N
                then None else cons p <$> decode s4
            | _, _, _ => None
            end
        | _ => None
        end
      else None
  end.

(** The code points that [int] takes for whitespace: of those below 128,
    tab to carriage return and the space; of the others, all that
    [str.isspace] accepts. *)
Definition is_space (c : N) : bool :=
  (((9 <=? c) && (c <=? 13)) || (c =? 32) || (c =? 133) || (c =? 160)
   || (c =? 5760) || ((8192 <=? c) && (c <=? 8202)) || (c =? 8232)
   || (c =? 8233) || (c =? 8239) || (c =? 8287) || (c =? 12288))%N.

(** The digit zero of each script of Unicode 14; the other nine digits
    follow it. *)
Definition digit_zeros : list N :=
  [ 48; 1632; 1776; 1984; 2406; 2534; 2662; 2790; 2918; 3046; 3174; 3302;
    3430; 3558; 3664; 3792; 3872; 4160; 4240; 6112; 6160; 6470; 6608; 6784;
    6800; 6992; 7088; 7232; 7248; 42528; 43216; 43264; 43472; 43504; 43600;
    44016; 65296; 66720; 68912; 69734; 69872; 69942; 70096; 70384; 70736;
    70864; 71248; 71360; 71472; 71904; 72016; 72784; 73040; 73120; 92768;
    92864; 93008; 120782; 120792; 120802; 120812; 120822; 123200; 123632;
    125264; 130032 ]%N.

Definition digit_of (c : N) : option Z :=
  (fun z => Z.of_N (c - z)) <$>
  List.find (fun z => ((z <=? c) && (c <? z + 10))%N) digit_zeros.

Fixpoint lstrip (s : list N) : list N :=
  match s with
  | c :: s' => if is_space c then lstrip s' else s
  | [] => []
  end.

Fixpoint rstrip (s : list N) : list N :=
  match s with
  | [] => []
  | c :: s' =>
      match rstrip s' with
      | [] => if is_space c then [] else [c]
      | t => c :: t
      end
  end.

(** Where the digit scanner stands: nothing read, after a digit, after
    an underscore. *)
Inductive scan := AtStart | AfterDigit | AfterUnderscore.

Fixpoint digits (st : scan) (acc : Z) (s : list N) : option Z :=
  match s with
  | [] =>
      match st with AfterDigit => Some acc | _ => None end
  | c :: s' =>
      match digit_of c with
      | Some d => digits AfterDigit (10 * acc + d)%Z s'
      | None =>
          match st with
          | AfterDigit =>
              if (c =? 95)%N then digits AfterUnderscore acc s' else None
          | _ => None
          end
      end
  end.

(** The number of decimal digits in [s]. *)
Fixpoint digit_count (s : list N) : Z :=
  match s with
  | [] => 0%Z
  | c :: s' =>
      match digit_of c with
      | Some _ => (1 + digit_count s')%Z
      | None => digit_count s'
      end
  end.

(** [int(s)]: surrounding whitespace, an optional sign ([+] is 43, [-] is
    45), then decimal digits of any script, single underscores (95)
    allowed between digits.  A literal of more than 4300 digits is
    refused ([sys.get_int_max_str_digits()]).  [None] stands for
    [ValueError]. *)
Definition int (s : string) : option Z :=
  match decode s with
  | None => None
  | Some cs =>
      let t := rstrip (lstrip cs) in
      if (4300 <? digit_count t)%Z then None
      else match t with
           | 45%N :: u => Z.opp <$> digits AtStart 0 u
           | 43%N :: u => digits AtStart 0 u
           | _ => digits AtStart 0 t
           end
  end.

(** [os.path.basename(p)]: what follows the last slash. *)
Definition basename (p : string) : string :=
  List.last (split "/" p) EmptyString.

(** [s.split('.')[0]] *)
Definition stem (s : string) : string :=
  List.hd EmptyString (split "." s).

End PyStr.

(** ** [examples/swbd/data/load_dataset.py] *)

Module LoadDataset.

Local Open Scope string_scope.
Local Open Scope Z_scope.

(** One line of the manifest, restricted to the three columns that
    [df.loc[:, ['frame_num', 'input_path', 'transcript']]] keeps. *)
Record Row : Type := {
  frame_num : Z;
  input_path : string;
  transcript : string
}.

(** A DataFrame is its rows in order, each with its index label.  Filtering
    and sorting move rows around but never relabel them. *)
Abbreviation DataFrame := (list (Z * Row)).

(** [pd.read_csv]: the rows of the file, labelled 0, 1, 2, ... *)
Definition read_csv (rows : list Row) : DataFrame :=
  imap (fun i r => (Z.of_nat i, r)) rows.

(** [len(x['transcript'].split(' '))] *)
Definition token_count (t : string) : Z :=
  Z.of_nat (List.length (PyStr.split " " t)).

(** The lambda of lines 88-89 and 91-92, with the token limit as argument:
    [not(len(...) <= limit and x['frame_num'] >= 1000)]. *)
Definition keep_joint (limit : Z) (x : Z * Row) : bool :=
  negb ((token_count (transcript x.2) <=? limit) && (frame_num x.2 >=? 1000)).

(** The lambda of line 93: [x['frame_num'] <= 1580]. *)
Definition keep_ceiling (x : Z * Row) : bool :=
  frame_num x.2 <=? 1580.

Inductive column : Set := by_frame_num | by_input_path.

(** [df.sort_values(by=c, ascending=a)].  The call passes no [kind], so
    pandas runs its default algorithm; the sorting routine is library code
    and enters the model as a parameter. *)
Definition sorter : Type := column -> bool -> DataFrame -> DataFrame.

Definition key_leb (c : column) (ascending : bool) (x y : Z * Row) : bool :=
  match c, ascending with
  | by_frame_num, true => frame_num x.2 <=? frame_num y.2
  | by_frame_num, false => frame_num y.2 <=? frame_num x.2
  | by_input_path, true => String.leb (input_path x.2) (input_path y.2)
  | by_input_path, false => String.leb (input_path y.2) (input_path x.2)
  end.

(** What [sort_values] promises whatever the algorithm: the same labelled
    rows, in the order of the key. *)
Definition sort_values_spec (sort_values : sorter) : Prop :=
  forall c a (d : DataFrame),
    sort_values c a d ≡ₚ d /\
    Sorted (fun x y => key_leb c a x y = true) (sort_values c a d).

(** The arguments of [Dataset.__init__]. *)
Record Args : Type := {
  arg_model_type : string;
  arg_data_type : string;
  arg_data_size : string;
  arg_label_type : string;
  arg_batch_size : Z;
  arg_vocab_file_path : string;
  arg_max_epoch : option Z;
  arg_splice : Z;
  arg_num_stack : Z;
  arg_num_skip : Z;
  arg_shuffle : bool;
  arg_sort_utt : bool;
  arg_reverse : bool;
  arg_sort_stop_epoch : option Z;
  arg_num_gpus : Z;
  arg_save_format : string;
  arg_num_enque : Z
}.

(** The attributes [__init__] sets on [self]. *)
Record Dataset : Type := {
  is_test : bool;
  model_type : string;
  data_type : string;
  data_size : string;
  label_type : string;
  batch_size : Z;
  max_epoch : option Z;
  splice : Z;
  num_stack : Z;
  num_skip : Z;
  shuffle : bool;
  sort_utt : bool;
  sort_stop_epoch : option Z;
  num_gpus : Z;
  save_format : string;
  num_enque : Z;
  df : DataFrame;
  rest : gset Z
}.

(** The file [read_csv] is pointed at: [dev] reads the [train] manifest. *)
Definition dataset_path (a : Args) : string :=
  let split_dir := if String.eqb (arg_data_type a) "dev" then "train"
                   else arg_data_type a in
  "/n/sd8/inaguma/corpus/swbd/dataset/" +:+ arg_save_format a +:+ "/" +:+
  arg_data_size a +:+ "/" +:+ split_dir +:+ "/" +:+ arg_label_type a +:+ ".csv".

(** Lines 84-96, for a training or development table. *)
Definition remove_inappropriate (a : Args) (d : DataFrame) : DataFrame :=
  let d1 := if PyStr.contains "word" (arg_label_type a)
            then List.filter (keep_joint 3) d
            else List.filter (keep_joint 24) d in
  let d2 := List.filter keep_ceiling d1 in
  if String.eqb (arg_data_type a) "dev" then take 4000 d2 else d2.

(** Lines 56 and 81-96: the rows that go into the sort.  [csv] is the
    content of the file at [dataset_path a]. *)
Definition select_rows (a : Args) (csv : list Row) : DataFrame :=
  let test := PyStr.contains "eval" (arg_data_type a) in
  let d := read_csv csv in
  if negb test then remove_inappropriate a d else d.

(** Lines 98-104: the table the instance ends up with. *)
Definition build_df (sort_values : sorter) (a : Args) (csv : list Row)
  : DataFrame :=
  let d := select_rows a csv in
  if arg_sort_utt a
  then sort_values by_frame_num (negb (arg_reverse a)) d
  else sort_values by_input_path true d.

Definition __init__ (sort_values : sorter) (a : Args) (csv : list Row)
  : Dataset :=
  let d := build_df sort_values a csv in
  {| is_test := PyStr.contains "eval" (arg_data_type a);
     model_type := arg_model_type a;
     data_type := arg_data_type a;
     data_size := arg_data_size a;
     label_type := arg_label_type a;
     batch_size := arg_batch_size a * arg_num_gpus a;
     max_epoch := arg_max_epoch a;
     splice := arg_splice a;
     num_stack := arg_num_stack a;
     num_skip := arg_num_skip a;
     shuffle := arg_shuffle a;
     sort_utt := arg_sort_utt a;
     sort_stop_epoch := arg_sort_stop_epoch a;
     num_gpus := arg_num_gpus a;
     save_format := arg_save_format a;
     num_enque := arg_num_enque a;
     df := d;
     rest := list_to_set (d.*1) |}.

(** *** The drop condition as the specification words it *)

Definition short_limit (lbl : string) : Z :=
  if PyStr.contains "word" lbl then 3 else 24.

Definition drop_condition (lbl : string) (r : Row) : bool :=
  ((token_count (transcript r) <=? short_limit lbl) && (frame_num r >=? 1000))
  || (1580 <? frame_num r).

(** *** Two sorting routines that meet [sort_values_spec] *)

Fixpoint insert_sorted (leb : Z * Row -> Z * Row -> bool) (x : Z * Row)
  (l : DataFrame) : DataFrame :=
  match l with
  | [] => [x]
  | y :: l' => if leb x y then x :: l else y :: insert_sorted leb x l'
  end.

Definition insertion_sort (leb : Z * Row -> Z * Row -> bool) (d : DataFrame)
  : DataFrame :=
  foldr (insert_sorted leb) [] d.

(** Keeps rows with equal keys in the order it received them. *)
Definition stable_sort : sorter :=
  fun c a d => insertion_sort (key_leb c a) d.

(** Sorts just as well, but leaves rows with equal keys in the opposite
    order.  Neither routine is the one pandas runs; they are the two ends
    of what [sort_values_spec] admits. *)
Definition tie_reversing_sort : sorter :=
  fun c a d => insertion_sort (key_leb c a) (reverse d).

(** The order [sort_values(by='frame_num', ascending=not reverse)] asks
    for. *)
Definition frame_order (reverse : bool) (x y : Z * Row) : Prop :=
  if reverse then frame_num y.2 <= frame_num x.2
  else frame_num x.2 <= frame_num y.2.

(** Rows with the same frame count come in the order of their labels, that
    is, of their manifest lines. *)
Definition ties_keep_manifest_order (d : DataFrame) : Prop :=
  forall (i j : nat) (x y : Z * Row),
    d !! i = Some x -> d !! j = Some y -> (i < j)%nat ->
    frame_num x.2 = frame_num y.2 -> x.1 < y.1.

(** *** Sample data *)

Definition default_args (dt lbl : string) (by_length rev : bool) : Args :=
  {| arg_model_type := "attention"; arg_data_type := dt;
     arg_data_size := "300h"; arg_label_type := lbl; arg_batch_size := 32;
     arg_vocab_file_path := "vocab.txt"; arg_max_epoch := None;
     arg_splice := 1; arg_num_stack := 1; arg_num_skip := 1;
     arg_shuffle := false; arg_sort_utt := by_length; arg_reverse := rev;
     arg_sort_stop_epoch := None; arg_num_gpus := 1;
     arg_save_format := "numpy"; arg_num_enque := 100 |}.

Definition utt (n : Z) (path text : string) : Row :=
  {| frame_num := n; input_path := path; transcript := text |}.

Definition small_csv : list Row :=
  [ utt 1200 "a.npy" "7 8";
    utt 1200 "b.npy" "7 8 9 10";
    utt 1600 "c.npy" "1 2 3 4 5 6 7 8 9";
    utt 300 "d.npy" "4" ].

Definition tied_csv : list Row :=
  [ utt 500 "a.npy" "1 2 3 4"; utt 500 "b.npy" "5 6 7 8" ].

Definition long_csv : list Row :=
  replicate 4001 (utt 100 "x.npy" "1 2 3 4 5").

End LoadDataset.

(** ** [utils/dataset/loader_hierarchical.py] *)

Module LoaderHierarchical.

Local Open Scope string_scope.
Local Open Scope Z_scope.

(** *** numpy integer rows: item and slice assignment *)

(** [row[j] = v]; numpy raises [IndexError] past the end. *)
Definition set_item {X : Type} (row : list X) (j : nat) (v : X)
  : result (list X) :=
  if (j <? List.length row)%nat then Ok (<[j := v]> row) else Err IndexError.

(** How an assigned value of extent [src] fits a destination of extent
    [dst]: it has that extent, or extent one and is repeated. *)
Definition fits (src dst : nat) : bool :=
  (src =? dst)%nat || (src =? 1)%nat.

(** [row[lo:hi] = vs] for [0 <= lo <= hi].  The slice is clipped to the
    row; a value list of another length is a [ValueError] unless it has
    one element, which numpy repeats. *)
Definition set_slice {X : Type} (row : list X) (lo hi : nat) (vs : list X)
  : result (list X) :=
  let lo' := Nat.min lo (List.length row) in
  let hi' := Nat.min hi (List.length row) in
  let n := (hi' - lo')%nat in
  if (List.length vs =? n)%nat
  then Ok (take lo' row ++ vs ++ drop (lo' + n) row)%list
  else match vs with
       | [v] => Ok (take lo' row ++ replicate n v ++ drop (lo' + n) row)%list
       | _ => Err ValueError
       end.

(** [m[i, j] = v] and [m[i, lo:hi] = vs] on a two-dimensional array. *)
Definition set_item2 {X : Type} (m : list (list X)) (i j : nat) (v : X)
  : result (list (list X)) :=
  do row <- of_option IndexError (m !! i);
  do row' <- set_item row j v;
  Ok (<[i := row']> m).

Definition set_slice2 {X : Type} (m : list (list X)) (i lo hi : nat)
  (vs : list X) : result (list (list X)) :=
  do row <- of_option IndexError (m !! i);
  do row' <- set_slice row lo hi vs;
  Ok (<[i := row']> m).

(** *** numpy integer types *)

Definition in_int32 (z : Z) : bool := (- 2 ^ 31 <=? z) && (z <? 2 ^ 31).
Definition in_int64 (z : Z) : bool := (- 2 ^ 63 <=? z) && (z <? 2 ^ 63).

(** [a[j] = v] for a Python int [v], on a vector made by
    [np.zeros((B,), dtype=np.int32)]: numpy raises [OverflowError] for a
    [v] that is not an [int32]. *)
Definition set_item_int32 (a : list Z) (j : nat) (v : Z) : result (list Z) :=
  do _ <- of_option IndexError (a !! j);
  if in_int32 v then set_item a j v else Err OverflowError.

(** *** The label arrays

    [labels] and [labels_sub] are built by [np.array([[pad] * L] * B)]
    (lines 88-91) from [self.pad_value] and [self.pad_value_sub].  These
    are set by [Base.__init__], and [utils/dataset/base.py] is not among
    the sources.  numpy picks the element type of the array from the pad
    value, and the element type decides what an assignment stores: an
    integer array converts what it is given to an integer, an array of
    Python objects keeps it as it is.  The pad values, and what the array
    built from one does, are therefore parameters of the model: [pad] is
    the type of the pad values and [cell] what a cell of the array
    holds. *)
Record LabelArray (pad cell : Type) : Type := {
  (* a cell of [np.array([[p] * L] * B)], for [L] and [B] at least 1 *)
  np_fill : pad -> cell;
  (* [a[i, j] = v] for a Python int [v], and every element of
     [a[i, lo:hi] = vs] for a list [vs] of Python ints: what the cell
     holds afterwards, or the exception of the conversion *)
  store_int : pad -> Z -> result cell;
  (* [a[i, j] = s] for a Python str [s] *)
  store_str : pad -> string -> result cell
}.
Arguments np_fill {pad cell} _ _.
Arguments store_int {pad cell} _ _ _.
Arguments store_str {pad cell} _ _ _.

(** Modelled from the spec: the pad value of a task is its pad index, a
    reserved entry of the vocabulary.  An integer within the [int64]
    range. *)
Record int64 : Set := {
  int64_val :> Z;
  int64_range : in_int64 int64_val = true
}.

(** From an integer pad numpy builds an [int64] array.  A Python int is
    stored if it is an [int64] and is an [OverflowError] if not; a Python
    str is converted as [int] does, a [ValueError] when it is not an
    integer literal. *)
Definition int64_array : LabelArray int64 Z :=
  {| np_fill := int64_val;
     store_int := fun _ v => if in_int64 v then Ok v else Err OverflowError;
     store_str := fun _ s =>
       do v <- of_option ValueError (PyStr.int s);
       if in_int64 v then Ok v else Err OverflowError |}.

(** From a pad that is neither a number nor a string nor a sequence
    ([None], for one) numpy builds an array of Python objects, which
    stores a reference to whatever is assigned. *)
Inductive pyobj (pad : Type) : Type :=
  | ObjPad (p : pad)
  | ObjInt (z : Z)
  | ObjStr (s : string).
Arguments ObjPad {pad} p.
Arguments ObjInt {pad} z.
Arguments ObjStr {pad} s.

Definition object_array {pad : Type} : LabelArray pad (pyobj pad) :=
  {| np_fill := ObjPad;
     store_int := fun _ v => Ok (ObjInt v);
     store_str := fun _ s => Ok (ObjStr s) |}.

(** *** pandas lookups *)

Record Row : Type := {
  frame_num : Z;
  input_path : string;
  transcript : string
}.

Abbreviation DataFrame := (list (Z * Row)).

(** [df[col][k]] for an index label [k]: the first row carrying the label,
    [KeyError] when there is none. *)
Fixpoint loc (d : DataFrame) (k : Z) : result Row :=
  match d with
  | [] => Err KeyError
  | (k', r) :: d' => if k' =? k then Ok r else loc d' k
  end.

(** [df[col][data_indices]], all columns at once. *)
Definition loc_all (d : DataFrame) (data_indices : list Z) : result (list Row) :=
  map_result (loc d) data_indices.

(** *** Python arithmetic *)

(** [max(xs)]: [ValueError] on an empty sequence. *)
Definition py_max (xs : list Z) : result Z :=
  match xs with
  | [] => Err ValueError
  | x :: xs' => Ok (foldl Z.max x xs')
  end.

(** The ceiling of the exact quotient. *)
Definition ceil_div (a b : Z) : Z := - ((- a) / b).

(** A finite double, [(-1) ^ negative * mantissa * 2 ^ exponent]. *)
Record float : Set := {
  negative : bool;
  mantissa : Z;
  exponent : Z
}.

(** [n / d] rounded to the nearest integer, a half to the even
    neighbour, for [0 <= n] and [0 < d]. *)
Definition round_half_even (n d : Z) : Z :=
  let q := n / d in
  let r := n mod d in
  if 2 * r <? d then q
  else if d <? 2 * r then q + 1
  else if Z.even q then q else q + 1.

(** The [k] with [2 ^ k <= n / d < 2 ^ (k + 1)], for positive [n] and
    [d]. *)
Definition log2_quotient (n d : Z) : Z :=
  let k := Z.log2 n - Z.log2 d in
  if (if 0 <=? k then d * 2 ^ k <=? n else d <=? n * 2 ^ (- k))
  then k else k - 1.

(** [a / b] for two Python ints under [from __future__ import division]:
    the double nearest to the exact quotient, with 53 bits of mantissa
    and exponents from -1074 on; [ZeroDivisionError] for [b = 0],
    [OverflowError] when the rounded quotient reaches [2 ^ 1024]. *)
Definition int_true_divide (a b : Z) : result float :=
  if b =? 0 then Err ZeroDivisionError
  else if a =? 0
  then Ok {| negative := b <? 0; mantissa := 0; exponent := 0 |}
  else
    let n := Z.abs a in
    let d := Z.abs b in
    let e := Z.max (log2_quotient n d - 52) (-1074) in
    let m := if 0 <=? e then round_half_even n (d * 2 ^ e)
             else round_half_even (n * 2 ^ (- e)) d in
    if (0 <=? e) && (2 ^ 1024 <=? m * 2 ^ e) then Err OverflowError
    else Ok {| negative := negb (Bool.eqb (a <? 0) (b <? 0));
               mantissa := m; exponent := e |}.

(** [math.ceil(x)] *)
Definition math_ceil (x : float) : Z :=
  if 0 <=? exponent x then
    (if negative x then - (mantissa x * 2 ^ exponent x)
     else mantissa x * 2 ^ exponent x)
  else
    (if negative x then - (mantissa x / 2 ^ (- exponent x))
     else ceil_div (mantissa x) (2 ^ (- exponent x))).

(** [math.ceil(a / b)] (line 75). *)
Definition py_ceil_div (a b : Z) : result Z :=
  do x <- int_true_divide a b; Ok (math_ceil x).

(** [len(x.split(' '))] *)
Definition token_count (t : string) : nat :=
  List.length (PyStr.split " " t).

(** [list(map(int, s.split(' ')))] *)
Definition parse_indices (s : string) : result (list Z) :=
  map_result (fun w => of_option ValueError (PyStr.int w)) (PyStr.split " " s).

(** *** What the label branches leave in a row

    The row of one example after lines 130-132 (sequence-generation
    family) or line 141 (frame-synchronous family), in terms of the row
    before: the written prefix, then the old cells. *)
Definition written_row {X : Type} (attention : bool) (sos eos : X)
  (toks row : list X) : list X :=
  if attention
  then (sos :: toks ++ eos :: drop (List.length toks + 2) row)%list
  else (toks ++ drop (List.length toks) row)%list.

(** The length recorded next to it (lines 133 and 142). *)
Definition written_len {X : Type} (attention : bool) (toks : list X) : Z :=
  if attention then Z.of_nat (List.length toks) + 2
  else Z.of_nat (List.length toks).

(** [m] is the largest element of [xs]. *)
Definition is_max (m : Z) (xs : list Z) : Prop :=
  m ∈ xs /\ Forall (fun x => x <= m) xs.

Section Features.

(** Feature samples are only copied and padded, never computed with; their
    type stays abstract, with the value [np.zeros] fills in. *)
Context {sample : Type} (zero : sample).

(** A two-dimensional feature array of shape [(length frames, ncols)]. *)
Record ndarray : Type := {
  ncols : nat;
  frames : list (list sample)
}.

Definition well_shaped (a : ndarray) : Prop :=
  Forall (fun f => List.length f = ncols a) (frames a).

(** The inputs tensor of shape [(length cells, dim1, dim2)]. *)
Record tensor3 : Type := {
  dim1 : nat;
  dim2 : nat;
  cells : list (list (list sample))
}.

(** The feature files, as [Base.load_npy] and [Base.load_htk] read them;
    [None] is a missing or unreadable file. *)
Record Storage : Type := {
  load_npy : string -> option ndarray;
  load_htk : string -> option ndarray
}.

(** Modelled from the spec: [utils/io/inputs/frame_stacking.py] is not
    among the sources.  Group [g] holds the [num_stack] frames starting at
    [g * num_skip], side by side; frames past the end are zero; there are
    [ceil(T / num_skip)] groups. *)
Definition stack_frame (a : ndarray) (num_stack num_skip : Z) : ndarray :=
  let T := List.length (frames a) in
  let stack := Z.to_nat num_stack in
  let skip := Z.to_nat num_skip in
  let groups := Z.to_nat (ceil_div (Z.of_nat T) num_skip) in
  {| ncols := (ncols a * stack)%nat;
     frames :=
       List.map
         (fun g => List.concat (List.map
                             (fun j => nth (g * skip + j)%nat (frames a)
                                         (replicate (ncols a) zero))
                             (seq 0 stack)))
         (seq 0 groups) |}.

(** Modelled from the spec: [utils/io/inputs/splicing.py] is not among the
    sources.  Output frame [t] holds the [splice] frames of the window
    centred on [t], side by side, with positions outside the sequence
    clamped to its first and last frame.  The time length is unchanged and
    the width is multiplied by [splice]. *)
Definition do_splice (a : ndarray) (splice num_stack : Z) : ndarray :=
  let T := List.length (frames a) in
  let w := Z.to_nat splice in
  let half := (w / 2)%nat in
  {| ncols := (ncols a * w)%nat;
     frames :=
       List.map
         (fun t => List.concat (List.map
                             (fun k => nth (Nat.min (T - 1) (t + k - half))
                                         (frames a) [])
                             (seq 0 w)))
         (seq 0 T) |}.

(** [np.zeros((B, T, W), dtype=np.float32)]: a negative extent is a
    [ValueError], and so is an array of [2 ^ 63] bytes or more, counted
    over the extents that are not zero, four bytes to the sample. *)
Definition np_zeros3 (B : nat) (T W : Z) : result tensor3 :=
  let extent x := if x =? 0 then 1 else x in
  if (T <? 0) || (W <? 0)
     || (2 ^ 63 <=? 4 * extent (Z.of_nat B) * extent T * extent W)
  then Err ValueError
  else Ok {| dim1 := Z.to_nat T; dim2 := Z.to_nat W;
             cells := replicate B (replicate (Z.to_nat T)
                                     (replicate (Z.to_nat W) zero)) |}.

(** One frame stretched to the destination width. *)
Definition widen (src dst : nat) (f : list sample) : list sample :=
  if (src =? dst)%nat then f else replicate dst (List.hd zero f).

(** [inputs[i, :frame_num, :] = data]: the destination is the first
    [min frame_num dim1] frames of example [i]; [data] must fit it in both
    extents, else numpy raises [ValueError]. *)
Definition assign_frames (t : tensor3) (i frame_num : nat) (data : ndarray)
  : result tensor3 :=
  do old <- of_option IndexError (cells t !! i);
  let n := Nat.min frame_num (dim1 t) in
  if fits (List.length (frames data)) n && fits (ncols data) (dim2 t)
  then
    let rows := if (List.length (frames data) =? n)%nat then frames data
                else replicate n (List.hd [] (frames data)) in
    Ok {| dim1 := dim1 t; dim2 := dim2 t;
          cells := <[i := ((widen (ncols data) (dim2 t) <$> rows) ++ drop n old)%list]>
                     (cells t) |}
  else Err ValueError.

(** *** The instance and the batch *)

(** The label arrays of this instance. *)
Context {pad cell : Type} (arr : LabelArray pad cell).

(** The attributes of [self] that [make_batch] reads.  [input_size] is
    [None] until the attribute exists ([hasattr]). *)
Record Self : Type := {
  df : DataFrame;
  df_sub : DataFrame;
  is_test : bool;
  model_type : string;
  save_format : string;
  num_stack : Z;
  num_skip : Z;
  splice : Z;
  pad_value : pad;
  pad_value_sub : pad;
  sos_index : Z;
  eos_index : Z;
  sos_index_sub : Z;
  eos_index_sub : Z;
  input_size : option Z
}.

Definition with_input_size (self : Self) (v : Z) : Self :=
  {| df := df self; df_sub := df_sub self; is_test := is_test self;
     model_type := model_type self; save_format := save_format self;
     num_stack := num_stack self; num_skip := num_skip self;
     splice := splice self; pad_value := pad_value self;
     pad_value_sub := pad_value_sub self; sos_index := sos_index self;
     eos_index := eos_index self; sos_index_sub := sos_index_sub self;
     eos_index_sub := eos_index_sub self; input_size := Some v |}.

(** The seven values [make_batch] returns. *)
Record Batch : Type := {
  inputs : tensor3;
  labels : list (list cell);
  labels_sub : list (list cell);
  inputs_seq_len : list Z;
  labels_seq_len : list Z;
  labels_seq_len_sub : list Z;
  input_names : list string
}.

Definition set_inputs (b : Batch) (x : tensor3) (len : list Z) : Batch :=
  {| inputs := x; labels := labels b; labels_sub := labels_sub b;
     inputs_seq_len := len; labels_seq_len := labels_seq_len b;
     labels_seq_len_sub := labels_seq_len_sub b;
     input_names := input_names b |}.

Definition set_labels (b : Batch) (m : list (list cell)) (len : list Z)
  : Batch :=
  {| inputs := inputs b; labels := m; labels_sub := labels_sub b;
     inputs_seq_len := inputs_seq_len b; labels_seq_len := len;
     labels_seq_len_sub := labels_seq_len_sub b;
     input_names := input_names b |}.

Definition set_labels_sub (b : Batch) (m : list (list cell)) (len : list Z)
  : Batch :=
  {| inputs := inputs b; labels := labels b; labels_sub := m;
     inputs_seq_len := inputs_seq_len b; labels_seq_len := labels_seq_len b;
     labels_seq_len_sub := len; input_names := input_names b |}.

(** Lines 64-69 and 102-107: the loader is picked by [save_format], and
    only then is the path looked at. *)
Definition load_features (st : Storage) (fmt : string) (path : result string)
  : result ndarray :=
  if String.eqb fmt "numpy"
  then do p <- path; of_option IOError (load_npy st p)
  else if String.eqb fmt "htk"
  then do p <- path; of_option IOError (load_htk st p)
  else Err TypeError.

(** Lines 63-71. *)
Definition ensure_input_size (st : Storage) (self : Self)
  (input_path_list : list string) : result Self :=
  match input_size self with
  | Some _ => Ok self
  | None =>
      do a <- load_features st (save_format self)
                (of_option IndexError (input_path_list !! 0%nat));
      Ok (with_input_size self
            (Z.of_nat (ncols a) * num_stack self * splice self))
  end.

(** [m[i, j] = v] for a Python int [v], on the label array built from
    the pad [p]: the position is found, [v] is converted, the cell is
    written. *)
Definition put_int (p : pad) (m : list (list cell)) (i j : nat) (v : Z)
  : result (list (list cell)) :=
  do row <- of_option IndexError (m !! i);
  do _ <- of_option IndexError (row !! j);
  do c <- store_int arr p v;
  set_item2 m i j c.

(** [m[i, j] = s] for a Python str [s]. *)
Definition put_str (p : pad) (m : list (list cell)) (i j : nat) (s : string)
  : result (list (list cell)) :=
  do row <- of_option IndexError (m !! i);
  do _ <- of_option IndexError (row !! j);
  do c <- store_str arr p s;
  set_item2 m i j c.

(** [m[i, lo:hi] = vs] for a list [vs] of Python ints: the elements are
    converted, then assigned to the slice. *)
Definition put_ints (p : pad) (m : list (list cell)) (i lo hi : nat)
  (vs : list Z) : result (list (list cell)) :=
  do _ <- of_option IndexError (m !! i);
  do cs <- map_result (store_int arr p) vs;
  set_slice2 m i lo hi cs.

(** Lines 119-121: the evaluation branch.  The right-hand sides are read
    from the tables before each assignment. *)
Definition store_transcripts (self : Self) (data_indices : list Z)
  (i_batch : nat) (b : Batch) : result Batch :=
  do k <- of_option IndexError (data_indices !! i_batch);
  do r <- loc (df self) k;
  do m <- put_str (pad_value self) (labels b) i_batch 0 (transcript r);
  do r_sub <- loc (df_sub self) k;
  do m_sub <- put_str (pad_value_sub self) (labels_sub b) i_batch 0
                (transcript r_sub);
  Ok (set_labels_sub (set_labels b m (labels_seq_len b))
        m_sub (labels_seq_len_sub b)).

(** Lines 124-148: the training branch, on the two transcripts of example
    [i_batch]. *)
Definition encode_labels (self : Self) (i_batch : nat) (s s_sub : string)
  (b : Batch) : result Batch :=
  do indices <- parse_indices s;
  do indices_sub <- parse_indices s_sub;
  let label_num := List.length indices in
  let label_num_sub := List.length indices_sub in
  let p := pad_value self in
  let p_sub := pad_value_sub self in
  if String.eqb (model_type self) "hierarchical_attention" then
    do m <- put_int p (labels b) i_batch 0 (sos_index self);
    do m <- put_ints p m i_batch 1 (label_num + 1) indices;
    do m <- put_int p m i_batch (label_num + 1) (eos_index self);
    do len <- set_item_int32 (labels_seq_len b) i_batch
                (Z.of_nat label_num + 2);
    let b := set_labels b m len in
    do m <- put_int p_sub (labels_sub b) i_batch 0 (sos_index_sub self);
    do m <- put_ints p_sub m i_batch 1 (label_num_sub + 1) indices_sub;
    do m <- put_int p_sub m i_batch (label_num_sub + 1) (eos_index_sub self);
    do len <- set_item_int32 (labels_seq_len_sub b) i_batch
                (Z.of_nat label_num_sub + 2);
    Ok (set_labels_sub b m len)
  else if String.eqb (model_type self) "hierarchical_ctc" then
    do m <- put_ints p (labels b) i_batch 0 label_num indices;
    do len <- set_item_int32 (labels_seq_len b) i_batch (Z.of_nat label_num);
    let b := set_labels b m len in
    do m <- put_ints p_sub (labels_sub b) i_batch 0 label_num_sub indices_sub;
    do len <- set_item_int32 (labels_seq_len_sub b) i_batch
                (Z.of_nat label_num_sub);
    Ok (set_labels_sub b m len)
  else Err TypeError.

(** Lines 101-148: one turn of the loop. *)
Definition loop_body (st : Storage) (self : Self) (data_indices : list Z)
  (input_path_list str_indices_list str_indices_list_sub : list string)
  (i_batch : nat) (b : Batch) : result Batch :=
  do data_i <- load_features st (save_format self)
                 (of_option IndexError (input_path_list !! i_batch));
  let data_i := stack_frame data_i (num_stack self) (num_skip self) in
  let frame_num := List.length (frames data_i) in
  let data_i := do_splice data_i (splice self) (num_stack self) in
  do x <- assign_frames (inputs b) i_batch frame_num data_i;
  do len <- set_item_int32 (inputs_seq_len b) i_batch (Z.of_nat frame_num);
  let b := set_inputs b x len in
  if is_test self then store_transcripts self data_indices i_batch b
  else
    do s <- of_option IndexError (str_indices_list !! i_batch);
    do s_sub <- of_option IndexError (str_indices_list_sub !! i_batch);
    encode_labels self i_batch s s_sub b.

(** Lines 73-97: the batch maxima and the freshly allocated arrays.
    [rows] and [rows_sub] are the rows of [df] and [df_sub] at
    [data_indices]; lines 58, 59, 74 and 97 all index [df] by the same
    labels. *)
Definition allocate (self : Self) (data_indices : list Z)
  (rows rows_sub : list Row) : result Batch :=
  do size <- of_option AttributeError (input_size self);
  do max_frame_num <- py_max (frame_num <$> rows);
  do max_frame_num <- py_ceil_div max_frame_num (num_skip self);
  do longest <- py_max ((fun r => Z.of_nat (token_count (transcript r)))
                          <$> rows);
  let max_seq_len := longest + 2 in
  do longest_sub <- py_max ((fun r => Z.of_nat (token_count (transcript r)))
                              <$> rows_sub);
  let max_seq_len_sub := longest_sub + 2 in
  let B := List.length data_indices in
  do x <- np_zeros3 B max_frame_num (size * splice self);
  Ok {| inputs := x;
        labels := replicate B (replicate (Z.to_nat max_seq_len)
                                 (np_fill arr (pad_value self)));
        labels_sub := replicate B (replicate (Z.to_nat max_seq_len_sub)
                                     (np_fill arr (pad_value_sub self)));
        inputs_seq_len := replicate B 0;
        labels_seq_len := replicate B 0;
        labels_seq_len_sub := replicate B 0;
        input_names := (fun r => PyStr.stem (PyStr.basename (input_path r)))
                         <$> rows |}.

(** Lines 73-160, once [self.input_size] exists. *)
Definition build_batch (st : Storage) (self : Self) (data_indices : list Z)
  (rows rows_sub : list Row) : result Batch :=
  do b <- allocate self data_indices rows rows_sub;
  for_each (loop_body st self data_indices (input_path <$> rows)
              (transcript <$> rows) (transcript <$> rows_sub))
    (seq 0 (List.length data_indices)) b.

(** [make_batch]: what the call returns or raises, and [self] afterwards. *)
Definition make_batch (st : Storage) (self : Self) (data_indices : list Z)
  : result Batch * Self :=
  match loc_all (df self) data_indices with
  | Err e => (Err e, self)
  | Ok rows =>
      match loc_all (df_sub self) data_indices with
      | Err e => (Err e, self)
      | Ok rows_sub =>
          match ensure_input_size st self (input_path <$> rows) with
          | Err e => (Err e, self)
          | Ok self' =>
              (build_batch st self' data_indices rows rows_sub, self')
          end
      end
  end.

(** *** Observations on a batch *)

(** What the batch holds for example [i]. *)
Definition example_view (b : Batch) (i : nat)
  : option (list (list sample)) * option Z *
    (option (list cell) * option Z) * (option (list cell) * option Z) :=
  (cells (inputs b) !! i, inputs_seq_len b !! i,
   (labels b !! i, labels_seq_len b !! i),
   (labels_sub b !! i, labels_seq_len_sub b !! i)).

(** A batch of [B] examples with [T] frames of width [W] and label rows of
    [L] and [Lsub] cells. *)
Record shaped (B T W L Lsub : nat) (b : Batch) : Prop := {
  shaped_dim1 : dim1 (inputs b) = T;
  shaped_dim2 : dim2 (inputs b) = W;
  shaped_cells : List.length (cells (inputs b)) = B;
  shaped_frames : Forall (fun m => List.length m = T) (cells (inputs b));
  shaped_labels : List.length (labels b) = B;
  shaped_rows : Forall (fun r => List.length r = L) (labels b);
  shaped_labels_sub : List.length (labels_sub b) = B;
  shaped_rows_sub : Forall (fun r => List.length r = Lsub) (labels_sub b);
  shaped_inputs_seq_len : List.length (inputs_seq_len b) = B;
  shaped_labels_seq_len : List.length (labels_seq_len b) = B;
  shaped_labels_seq_len_sub : List.length (labels_seq_len_sub b) = B
}.

(** What turn [i] of the loop does to the inputs tensor and to
    [inputs_seq_len]: example [i] gets a new block of frames and its frame
    count [fr], which exceeds the allocated time extent only in the
    degenerate case of one frame stretched over none. *)
Definition inputs_step (i : nat) (b b' : Batch) : Prop :=
  exists (fr : nat) (cell : list (list sample)),
    ((fr <= dim1 (inputs b))%nat \/ (fr = 1%nat /\ dim1 (inputs b) = 0%nat)) /\
    List.length cell = dim1 (inputs b) /\
    (i < List.length (inputs_seq_len b))%nat /\
    (i < List.length (cells (inputs b)))%nat /\
    inputs b' = {| dim1 := dim1 (inputs b); dim2 := dim2 (inputs b);
                   cells := <[i := cell]> (cells (inputs b)) |} /\
    inputs_seq_len b' = <[i := Z.of_nat fr]> (inputs_seq_len b) /\
    input_names b' = input_names b.

(** What lines 130-132 (with [att]) or line 141 make of the row [row] of
    one example, for the indices [toks] of its transcript: the cells that
    the markers and the indices are stored as, in front of the old
    cells. *)
Definition encoded (att : bool) (p : pad) (sos eos : Z) (toks : list Z)
  (row row' : list cell) : Prop :=
  exists (cs : list cell) (c_sos c_eos : cell),
    map_result (store_int arr p) toks = Ok cs /\
    (att = true ->
     store_int arr p sos = Ok c_sos /\ store_int arr p eos = Ok c_eos) /\
    row' = written_row att c_sos c_eos cs row.

(** What the training branch needs of one label array: the indices of the
    transcript are stored, the length that is recorded for them is an
    [int32], and for an attention model the two markers are stored too. *)
Definition storable (att : bool) (p : pad) (sos eos : Z) (toks : list Z)
  : Prop :=
  (exists cs, map_result (store_int arr p) toks = Ok cs) /\
  written_len att toks < 2 ^ 31 /\
  (att = true ->
   (exists c, store_int arr p sos = Ok c) /\
   (exists c, store_int arr p eos = Ok c)).

(** What turn [i] does to the label arrays, in the evaluation branch and
    in the training branch. *)
Definition labels_step (self : Self) (data_indices : list Z)
  (strs strs_sub : list string) (i : nat) (b b' : Batch) : Prop :=
  exists row row_sub,
    labels b !! i = Some row /\ labels_sub b !! i = Some row_sub /\
    if is_test self then
      exists k r r_sub v v_sub,
        data_indices !! i = Some k /\
        loc (df self) k = Ok r /\ loc (df_sub self) k = Ok r_sub /\
        store_str arr (pad_value self) (transcript r) = Ok v /\
        store_str arr (pad_value_sub self) (transcript r_sub) = Ok v_sub /\
        (0 < List.length row)%nat /\ (0 < List.length row_sub)%nat /\
        labels b' = <[i := <[0%nat := v]> row]> (labels b) /\
        labels_sub b' = <[i := <[0%nat := v_sub]> row_sub]> (labels_sub b) /\
        labels_seq_len b' = labels_seq_len b /\
        labels_seq_len_sub b' = labels_seq_len_sub b
    else
      exists s s_sub toks toks_sub,
        strs !! i = Some s /\ strs_sub !! i = Some s_sub /\
        parse_indices s = Ok toks /\ parse_indices s_sub = Ok toks_sub /\
        (model_type self = "hierarchical_attention" \/
         model_type self = "hierarchical_ctc") /\
        (i < List.length (labels_seq_len b))%nat /\
        (i < List.length (labels_seq_len_sub b))%nat /\
        let att := String.eqb (model_type self) "hierarchical_attention" in
        exists row' row_sub',
          encoded att (pad_value self) (sos_index self) (eos_index self)
            toks row row' /\
          encoded att (pad_value_sub self) (sos_index_sub self)
            (eos_index_sub self) toks_sub row_sub row_sub' /\
          labels b' = <[i := row']> (labels b) /\
          labels_sub b' = <[i := row_sub']> (labels_sub b) /\
          labels_seq_len b'
          = <[i := written_len att toks]> (labels_seq_len b) /\
          labels_seq_len_sub b'
          = <[i := written_len att toks_sub]> (labels_seq_len_sub b).

(** What a finished batch holds for example [i], whose rows in [df] and
    [df_sub] are [r] and [r_sub]; [T], [L] and [Lsub] are the allocated
    time and label extents. *)
Definition example_result (self : Self) (T L Lsub : nat) (r r_sub : Row)
  (b : Batch) (i : nat) : Prop :=
  (exists fr : nat,
      inputs_seq_len b !! i = Some (Z.of_nat fr) /\
      ((fr <= T)%nat \/ (fr = 1%nat /\ T = 0%nat))) /\
  if is_test self then
    exists v v_sub,
      store_str arr (pad_value self) (transcript r) = Ok v /\
      store_str arr (pad_value_sub self) (transcript r_sub) = Ok v_sub /\
      labels b !! i
      = Some (<[0%nat := v]> (replicate L (np_fill arr (pad_value self)))) /\
      labels_sub b !! i
      = Some (<[0%nat := v_sub]>
                (replicate Lsub (np_fill arr (pad_value_sub self)))) /\
      labels_seq_len b !! i = Some 0 /\
      labels_seq_len_sub b !! i = Some 0
  else
    exists toks toks_sub,
      parse_indices (transcript r) = Ok toks /\
      parse_indices (transcript r_sub) = Ok toks_sub /\
      (model_type self = "hierarchical_attention" \/
       model_type self = "hierarchical_ctc") /\
      let att := String.eqb (model_type self) "hierarchical_attention" in
      exists row row_sub,
        encoded att (pad_value self) (sos_index self) (eos_index self)
          toks (replicate L (np_fill arr (pad_value self))) row /\
        encoded att (pad_value_sub self) (sos_index_sub self)
          (eos_index_sub self) toks_sub
          (replicate Lsub (np_fill arr (pad_value_sub self))) row_sub /\
        labels b !! i = Some row /\ labels_sub b !! i = Some row_sub /\
        labels_seq_len b !! i = Some (written_len att toks) /\
        labels_seq_len_sub b !! i = Some (written_len att toks_sub).

(** [self'] is [self] up to the [input_size] attribute. *)
Definition same_config (self self' : Self) : Prop :=
  df self' = df self /\ df_sub self' = df_sub self /\
  is_test self' = is_test self /\ model_type self' = model_type self /\
  save_format self' = save_format self /\
  num_stack self' = num_stack self /\ num_skip self' = num_skip self /\
  splice self' = splice self /\
  pad_value self' = pad_value self /\ pad_value_sub self' = pad_value_sub self /\
  sos_index self' = sos_index self /\ eos_index self' = eos_index self /\
  sos_index_sub self' = sos_index_sub self /\
  eos_index_sub self' = eos_index_sub self.

End Features.

Arguments ndarray : clear implicits.
Arguments tensor3 : clear implicits.
Arguments Storage : clear implicits.
Arguments Self : clear implicits.
Arguments Batch : clear implicits.

(** *** Sample data: two utterances of width 2, samples written as
    integers *)

Definition feat (rows : list (list Z)) : ndarray Z :=
  {| ncols := 2; frames := rows |}.

Definition sample_storage : Storage Z :=
  {| load_npy := fun p =>
       if String.eqb p "/data/sw1_a.npy" then Some (feat [[1; 2]; [3; 4]; [5; 6]])
       else if String.eqb p "/data/sw2_b.npy" then Some (feat [[7; 8]])
       else None;
     load_htk := fun _ => None |}.

Definition sample_df : DataFrame :=
  [ (0, {| frame_num := 3; input_path := "/data/sw1_a.npy";
           transcript := "5 9 2" |});
    (1, {| frame_num := 1; input_path := "/data/sw2_b.npy";
           transcript := "7" |}) ].

Definition sample_df_sub : DataFrame :=
  [ (0, {| frame_num := 3; input_path := "/data/sw1_a.npy";
           transcript := "11 12 13 14" |});
    (1, {| frame_num := 1; input_path := "/data/sw2_b.npy";
           transcript := "15 16" |}) ].

(** Text transcripts of an evaluation table; the second one happens to be
    a number. *)
Definition eval_df : DataFrame :=
  [ (0, {| frame_num := 3; input_path := "/data/sw1_a.npy";
           transcript := "hello world" |});
    (1, {| frame_num := 1; input_path := "/data/sw2_b.npy";
           transcript := "7" |}) ].

(** The pad index 0. *)
Definition pad0 : int64 := {| int64_val := 0; int64_range := eq_refl |}.

Definition sample_self (test : bool) (model fmt : string) (width : Z)
  : Self int64 :=
  {| df := if test then eval_df else sample_df;
     df_sub := if test then eval_df else sample_df_sub;
     is_test := test; model_type := model; save_format := fmt;
     num_stack := 1; num_skip := 1; splice := width;
     pad_value := pad0; pad_value_sub := pad0;
     sos_index := 1; eos_index := 2; sos_index_sub := 30; eos_index_sub := 31;
     input_size := None |}.

(** The batches the sample calls return. *)
Definition attention_batch : Batch Z Z :=
  {| inputs := {| dim1 := 3; dim2 := 2;
                  cells := [ [[1; 2]; [3; 4]; [5; 6]];
                             [[7; 8]; [0; 0]; [0; 0]] ] |};
     labels := [ [1; 5; 9; 2; 2]; [1; 7; 2; 0; 0] ];
     labels_sub := [ [30; 11; 12; 13; 14; 31]; [30; 15; 16; 31; 0; 0] ];
     inputs_seq_len := [3; 1];
     labels_seq_len := [5; 3];
     labels_seq_len_sub := [6; 4];
     input_names := ["sw1_a"; "sw2_b"] |}.

Definition ctc_batch : Batch Z Z :=
  {| inputs := {| dim1 := 3; dim2 := 2;
                  cells := [ [[7; 8]; [0; 0]; [0; 0]];
                             [[1; 2]; [3; 4]; [5; 6]] ] |};
     labels := [ [7; 0; 0; 0; 0]; [5; 9; 2; 0; 0] ];
     labels_sub := [ [15; 16; 0; 0; 0; 0]; [11; 12; 13; 14; 0; 0] ];
     inputs_seq_len := [1; 3];
     labels_seq_len := [1; 3];
     labels_seq_len_sub := [2; 4];
     input_names := ["sw2_b"; "sw1_a"] |}.

Definition eval_batch : Batch Z Z :=
  {| inputs := {| dim1 := 1; dim2 := 2; cells := [ [[7; 8]] ] |};
     labels := [ [7; 0; 0] ];
     labels_sub := [ [7; 0; 0] ];
     inputs_seq_len := [1];
     labels_seq_len := [0];
     labels_seq_len_sub := [0];
     input_names := ["sw2_b"] |}.

End LoaderHierarchical.


(** ** Further sample instances for the batch builder *)

Module LoaderHierarchicalSamples.

Import LoaderHierarchical.
Local Open Scope string_scope.
Local Open Scope Z_scope.

Definition instance_of (d d_sub : DataFrame) (skip : Z) (size : option Z)
  : Self int64 :=
  {| df := d; df_sub := d_sub; is_test := false;
     model_type := "hierarchical_ctc"; save_format := "numpy";
     num_stack := 1; num_skip := skip; splice := 1;
     pad_value := pad0; pad_value_sub := pad0;
     sos_index := 1; eos_index := 2; sos_index_sub := 30; eos_index_sub := 31;
     input_size := size |}.

(** A table that names a file the storage does not hold. *)
Definition gone_df : DataFrame :=
  [ (0, {| frame_num := 3; input_path := "/data/gone.npy";
           transcript := "5 9 2" |}) ].

(** A transcript with a doubled space. *)
Definition blank_df : DataFrame :=
  [ (0, {| frame_num := 3; input_path := "/data/sw1_a.npy";
           transcript := "5  9" |}) ].

(** A manifest whose frame count is beyond the integers a double holds
    exactly. *)
Definition huge_df : DataFrame :=
  [ (0, {| frame_num := 2 ^ 53 + 1; input_path := "/data/sw2_b.npy";
           transcript := "7" |}) ].

Definition huge_batch : Batch Z Z :=
  {| inputs := {| dim1 := 1; dim2 := 2; cells := [ [[7; 8]] ] |};
     labels := [ [7; 0; 0] ];
     labels_sub := [ [7; 0; 0] ];
     inputs_seq_len := [1];
     labels_seq_len := [1];
     labels_seq_len_sub := [1];
     input_names := ["sw2_b"] |}.

(** A manifest that announces no frame for a file of one frame. *)
Definition empty_df : DataFrame :=
  [ (0, {| frame_num := 0; input_path := "/data/sw2_b.npy";
           transcript := "7" |}) ].

Definition empty_batch : Batch Z Z :=
  {| inputs := {| dim1 := 0; dim2 := 2; cells := [ [] ] |};
     labels := [ [7; 0; 0] ];
     labels_sub := [ [7; 0; 0] ];
     inputs_seq_len := [1];
     labels_seq_len := [1];
     labels_seq_len_sub := [1];
     input_names := ["sw2_b"] |}.

(** Two frames to the group: the sample table with [num_skip = 2]. *)
Definition skip2_batch : Batch Z Z :=
  {| inputs := {| dim1 := 2; dim2 := 2;
                  cells := [ [[1; 2]; [5; 6]]; [[7; 8]; [0; 0]] ] |};
     labels := [ [5; 9; 2; 0; 0]; [7; 0; 0; 0; 0] ];
     labels_sub := [ [11; 12; 13; 14; 0; 0]; [15; 16; 0; 0; 0; 0] ];
     inputs_seq_len := [2; 1];
     labels_seq_len := [3; 1];
     labels_seq_len_sub := [4; 2];
     input_names := ["sw1_a"; "sw2_b"] |}.

(** An evaluation instance whose pad values are [None], so that the label
    arrays hold Python objects. *)
Definition eval_objects : Self unit :=
  {| df := eval_df; df_sub := eval_df; is_test := true;
     model_type := "hierarchical_attention"; save_format := "numpy";
     num_stack := 1; num_skip := 1; splice := 1;
     pad_value := tt; pad_value_sub := tt;
     sos_index := 1; eos_index := 2; sos_index_sub := 30; eos_index_sub := 31;
     input_size := None |}.

Definition eval_objects_batch : Batch Z (pyobj unit) :=
  {| inputs := {| dim1 := 3; dim2 := 2;
                  cells := [ [[1; 2]; [3; 4]; [5; 6]] ] |};
     labels := [ [ObjStr "hello world"; ObjPad tt; ObjPad tt; ObjPad tt] ];
     labels_sub := [ [ObjStr "hello world"; ObjPad tt; ObjPad tt; ObjPad tt] ];
     inputs_seq_len := [3];
     labels_seq_len := [0];
     labels_seq_len_sub := [0];
     input_names := ["sw1_a"] |}.

End LoaderHierarchicalSamples.

(** ** Characters of a string *)

Module PyStrChars.

(** [c in s] for a single character. *)
Fixpoint has_char (c : ascii) (s : string) : bool :=
  match s with
  | EmptyString => false
  | String a s' => Ascii.eqb a c || has_char c s'
  end.

End PyStrChars.

(** ** [examples/csj/s5/exp/visualization/plot_hierarchical_attention_weights.py] *)

Module PlotHierarchicalAttentionWeights.

Local Open Scope string_scope.

(** Line 135: [speaker = batch['input_names'][b].split('_')[0]], the
    directory the picture of utterance [b] is saved under. *)
Definition speaker (input_name : string) : string :=
  List.hd EmptyString (PyStr.split "_" input_name).

End PlotHierarchicalAttentionWeights.

(** * Properties *)

(** ** Strings *)

Lemma split_nonempty sep s : PyStr.split sep s <> [].
Proof.
  destruct s as [|c s]; simpl; [discriminate|].
  destruct (Ascii.eqb c sep); [discriminate|].
  destruct (PyStr.split sep s); discriminate.
Qed.

Lemma split_length_pos sep s : (1 <= List.length (PyStr.split sep s))%nat.
Proof.
  pose proof (split_nonempty sep s) as H.
  destruct (PyStr.split sep s); [congruence | simpl; lia].
Qed.

Example split_transcript :
  PyStr.split " " "5 9 2" = ["5"; "9"; "2"]%string.
Proof. reflexivity. Qed.

Example split_empty : PyStr.split " " "" = [""%string].
Proof. reflexivity. Qed.

Example split_double_space :
  PyStr.split " " "5  9" = ["5"; ""; "9"]%string.
Proof. reflexivity. Qed.

Example int_examples :
  PyStr.int "42" = Some 42%Z /\ PyStr.int " -7 " = Some (-7)%Z /\
  PyStr.int "1_000" = Some 1000%Z /\ PyStr.int "" = None /\
  PyStr.int "1__0" = None /\ PyStr.int "hello world" = None /\
  PyStr.int "٣" = Some 3%Z /\ PyStr.int "１２" = Some 12%Z /\
  PyStr.int (String (ascii_of_nat 194) (String (ascii_of_nat 160) "5"))
  = Some 5%Z /\
  PyStr.int (String (ascii_of_nat 28) "5") = None /\ PyStr.int "²" = None.
Proof. repeat split; reflexivity. Qed.

Example basename_stem :
  PyStr.stem (PyStr.basename "/n/sd8/swbd/sw02001-A_000098-001156.npy")
  = "sw02001-A_000098-001156"%string.
Proof. reflexivity. Qed.

Example contains_eval :
  PyStr.contains "eval" "eval2000_swbd" = true /\
  PyStr.contains "eval" "dev" = false /\
  PyStr.contains "word" "word_freq5" = true /\
  PyStr.contains "word" "character" = false.
Proof. repeat split; reflexivity. Qed.

(** ** The corpus index *)

Module LoadDatasetFacts.

Import LoadDataset.
Local Open Scope string_scope.
Local Open Scope Z_scope.

Section Insertion.

Variable leb : Z * Row -> Z * Row -> bool.
Hypothesis leb_total : forall x y, leb x y = true \/ leb y x = true.

Lemma insert_sorted_perm x (l : DataFrame) : insert_sorted leb x l ≡ₚ x :: l.
Proof.
  induction l as [|y l IH]; simpl; [done|].
  destruct (leb x y); [done|].
  rewrite IH. apply Permutation_swap.
Qed.

Lemma insertion_sort_perm (l : DataFrame) : insertion_sort leb l ≡ₚ l.
Proof.
  induction l as [|x l IH]; simpl; [done|].
  rewrite insert_sorted_perm. by f_equiv.
Qed.

Lemma insert_sorted_head x y (l : DataFrame) :
  leb y x = true ->
  HdRel (fun a b => leb a b = true) y l ->
  HdRel (fun a b => leb a b = true) y (insert_sorted leb x l).
Proof.
  intros Hyx Hhd. destruct l as [|z l]; simpl; [by constructor|].
  destruct (leb x z); constructor; [done|].
  by inversion Hhd.
Qed.

Lemma insert_sorted_sorted x (l : DataFrame) :
  Sorted (fun a b => leb a b = true) l ->
  Sorted (fun a b => leb a b = true) (insert_sorted leb x l).
Proof.
  induction 1 as [|y l Hs IH Hhd]; simpl.
  - repeat constructor.
  - destruct (leb x y) eqn:Hxy.
    + constructor; constructor; done.
    + constructor; [done|].
      apply insert_sorted_head; [|done].
      destruct (leb_total x y); congruence.
Qed.

Lemma insertion_sort_sorted (l : DataFrame) :
  Sorted (fun a b => leb a b = true) (insertion_sort leb l).
Proof.
  induction l as [|x l IH]; simpl; [constructor|].
  by apply insert_sorted_sorted.
Qed.

End Insertion.

Lemma key_leb_total c a x y : key_leb c a x y = true \/ key_leb c a y x = true.
Proof.
  destruct c, a; simpl;
    try (destruct (Z.leb_spec (frame_num x.2) (frame_num y.2));
         [|assert ((frame_num y.2 <=? frame_num x.2) = true) by (apply Z.leb_le; lia)];
         tauto);
    destruct (String.leb_total (input_path x.2) (input_path y.2)); tauto.
Qed.

Lemma stable_sort_spec : sort_values_spec stable_sort.
Proof.
  intros c a d. unfold stable_sort. split.
  - apply insertion_sort_perm.
  - apply insertion_sort_sorted, key_leb_total.
Qed.

Lemma tie_reversing_sort_spec : sort_values_spec tie_reversing_sort.
Proof.
  intros c a d. unfold tie_reversing_sort. split.
  - rewrite insertion_sort_perm. apply reverse_Permutation.
  - apply insertion_sort_sorted, key_leb_total.
Qed.

(** Whatever the sort, the table holds exactly the selected rows. *)
Lemma build_df_perm sv a csv :
  sort_values_spec sv -> build_df sv a csv ≡ₚ select_rows a csv.
Proof.
  intros Hsv. unfold build_df.
  destruct (arg_sort_utt a); apply Hsv.
Qed.

Lemma keep_both_drop_condition lbl x :
  keep_joint (short_limit lbl) x && keep_ceiling x
  = negb (drop_condition lbl x.2).
Proof.
  unfold keep_joint, keep_ceiling, drop_condition.
  rewrite negb_orb. f_equal.
  rewrite Z.ltb_antisym. by rewrite negb_involutive.
Qed.

Lemma filter_twice a (d : DataFrame) :
  List.filter keep_ceiling
    (if PyStr.contains "word" (arg_label_type a)
     then List.filter (keep_joint 3) d else List.filter (keep_joint 24) d)
  = List.filter (fun x => negb (drop_condition (arg_label_type a) x.2)) d.
Proof.
  transitivity
    (List.filter keep_ceiling
       (List.filter (keep_joint (short_limit (arg_label_type a))) d)).
  { unfold short_limit. by destruct (PyStr.contains "word" (arg_label_type a)). }
  induction d as [|x d IH]; simpl; [done|].
  rewrite <- keep_both_drop_condition.
  destruct (keep_joint _ x); simpl; [|done].
  destruct (keep_ceiling x); simpl; by rewrite IH.
Qed.

Lemma remove_inappropriate_eq a (d : DataFrame) :
  remove_inappropriate a d
  = let kept := List.filter
                  (fun x => negb (drop_condition (arg_label_type a) x.2)) d in
    if String.eqb (arg_data_type a) "dev" then take 4000 kept else kept.
Proof. unfold remove_inappropriate. simpl. by rewrite filter_twice. Qed.

Lemma Sorted_weaken {A : Type} (R R' : A -> A -> Prop) (l : list A) :
  (forall x y, R x y -> R' x y) -> Sorted R l -> Sorted R' l.
Proof.
  intros HR. induction 1 as [|x l Hs IH Hhd]; constructor; [done|].
  destruct Hhd; constructor. by apply HR.
Qed.

Lemma dev_is_not_eval : PyStr.contains "eval" "dev" = false.
Proof. reflexivity. Qed.

(** C5 (amended).  Evaluation tables keep every manifest row.  On a
    training table ([data_type] without "eval" and other than "dev") a
    manifest row is missing from the index exactly when it has at most 3
    tokens (label types containing "word") or at most 24 tokens (other
    label types) together with at least 1000 frames, or has more than
    1580 frames.  On "dev" the rows that pass this test are cut to the
    first 4000 of them, in manifest order. *)
Theorem filter_rule sv (a : Args) (csv : list Row) :
  sort_values_spec sv ->
  (PyStr.contains "eval" (arg_data_type a) = true ->
   build_df sv a csv ≡ₚ read_csv csv) /\
  (PyStr.contains "eval" (arg_data_type a) = false ->
   arg_data_type a <> "dev" ->
   forall x, x ∈ read_csv csv ->
     (x ∉ build_df sv a csv <-> drop_condition (arg_label_type a) x.2 = true)) /\
  (arg_data_type a = "dev" ->
   build_df sv a csv ≡ₚ
     take 4000 (List.filter
                  (fun x => negb (drop_condition (arg_label_type a) x.2))
                  (read_csv csv))).
Proof.
  intros Hsv. pose proof (build_df_perm sv a csv Hsv) as Hperm.
  unfold select_rows in Hperm. repeat split.
  - intros Heval. by rewrite Heval in Hperm.
  - intros Hdrop. destruct (drop_condition _ _) eqn:Hc; [done|].
    exfalso. apply Hdrop. rewrite Hperm, H.
    rewrite remove_inappropriate_eq. simpl.
    destruct (String.eqb_spec (arg_data_type a) "dev"); [done|].
    apply list_elem_of_In, filter_In. split; [by apply list_elem_of_In|].
    by rewrite Hc.
  - intros Hc Hin. rewrite Hperm, H in Hin.
    rewrite remove_inappropriate_eq in Hin. simpl in Hin.
    destruct (String.eqb_spec (arg_data_type a) "dev"); [done|].
    apply list_elem_of_In, filter_In in Hin. destruct Hin as [_ Hin].
    by rewrite Hc in Hin.
  - intros Hdev. rewrite Hdev in Hperm. rewrite dev_is_not_eval in Hperm.
    rewrite remove_inappropriate_eq in Hperm. simpl in Hperm.
    by rewrite Hdev in Hperm.
Qed.

Lemma filter_rule_witness :
  sort_values_spec stable_sort /\
  (forall x, x ∈ read_csv small_csv ->
     (x ∉ build_df stable_sort (default_args "train" "word_freq1" true false)
            small_csv
      <-> drop_condition "word_freq1" x.2 = true)).
Proof.
  split; [exact stable_sort_spec|].
  destruct (filter_rule stable_sort
              (default_args "train" "word_freq1" true false) small_csv
              stable_sort_spec) as (_ & Hrule & _).
  apply Hrule; [reflexivity | discriminate].
Defined.

(** The three utterances of the specification's example: 1200 frames with
    two word tokens goes, 1200 frames with four tokens stays, 1600 frames
    goes. *)
Example filter_small_csv :
  build_df stable_sort (default_args "train" "word_freq1" true false) small_csv
  = [ (3, utt 300 "d.npy" "4"); (1, utt 1200 "b.npy" "7 8 9 10") ] /\
  build_df stable_sort (default_args "eval2000_swbd" "word_freq1" true false)
    small_csv
  = [ (3, utt 300 "d.npy" "4"); (0, utt 1200 "a.npy" "7 8");
      (1, utt 1200 "b.npy" "7 8 9 10");
      (2, utt 1600 "c.npy" "1 2 3 4 5 6 7 8 9") ].
Proof. split; reflexivity. Qed.

(** C5 as stated fails on "dev": the 4001st row of a manifest whose rows
    all pass the test is dropped without meeting the drop condition. *)
Lemma dev_drops_beyond_4000 :
  let a := default_args "dev" "word_freq1" true false in
  let x := (4000, utt 100 "x.npy" "1 2 3 4 5") in
  PyStr.contains "eval" (arg_data_type a) = false /\
  x ∈ read_csv long_csv /\
  drop_condition (arg_label_type a) x.2 = false /\
  x ∉ build_df stable_sort a long_csv.
Proof.
  repeat split.
  - apply elem_of_lookup_imap. exists 4000%nat, (utt 100 "x.npy" "1 2 3 4 5").
    split; [reflexivity|]. unfold long_csv.
    apply lookup_replicate_2. lia.
  - intros Hin.
    assert (forallb (fun y => negb (y.1 =? 4000))
              (build_df stable_sort (default_args "dev" "word_freq1" true false)
                 long_csv) = true) as Hall by (vm_compute; reflexivity).
    rewrite forallb_forall in Hall.
    apply list_elem_of_In, Hall in Hin. discriminate.
Qed.

(** With [sort_utt] the index holds the selected rows in ascending order
    of [frame_num], or descending with [reverse] (lines 99-100), whatever
    routine [sort_values] runs. *)
Theorem sort_by_frame_count sv (a : Args) (csv : list Row) :
  sort_values_spec sv -> arg_sort_utt a = true ->
  build_df sv a csv ≡ₚ select_rows a csv /\
  Sorted (frame_order (arg_reverse a)) (build_df sv a csv).
Proof.
  intros Hsv Hsort. split; [by apply build_df_perm|].
  unfold build_df. rewrite Hsort.
  destruct (Hsv by_frame_num (negb (arg_reverse a)) (select_rows a csv))
    as [_ Hs].
  eapply Sorted_weaken; [|exact Hs].
  intros x y. unfold frame_order. destruct (arg_reverse a); simpl; lia.
Qed.

Lemma sort_by_frame_count_witness :
  sort_values_spec stable_sort /\
  arg_sort_utt (default_args "train" "word_freq1" true true) = true /\
  Sorted (frame_order true)
    (build_df stable_sort (default_args "train" "word_freq1" true true)
       small_csv).
Proof.
  split; [exact stable_sort_spec|]. split; [reflexivity|].
  exact (proj2 (sort_by_frame_count stable_sort
                  (default_args "train" "word_freq1" true true) small_csv
                  stable_sort_spec eq_refl)).
Defined.

(** The order of rows with equal [frame_num] (C6) is not settled here.
    Line 100 passes no [kind], so the rows are ordered by the default
    routine of pandas, numpy's 'quicksort'; that routine is not part of
    the sources, pandas lists it among the algorithms that are not
    stable, and what it does with ties depends on the number of rows and
    on the numpy build.  Lines 98-102 decide no more than
    [sort_values_spec], and that contract is met both by a routine that
    keeps two rows of equal [frame_num] in manifest order and by one that
    does not: *)
Example contract_leaves_ties_open :
  sort_values_spec stable_sort /\ sort_values_spec tie_reversing_sort /\
  build_df stable_sort (default_args "train" "word_freq1" true false) tied_csv
  = [ (0, utt 500 "a.npy" "1 2 3 4"); (1, utt 500 "b.npy" "5 6 7 8") ] /\
  build_df tie_reversing_sort (default_args "train" "word_freq1" true false)
    tied_csv
  = [ (1, utt 500 "b.npy" "5 6 7 8"); (0, utt 500 "a.npy" "1 2 3 4") ] /\
  ties_keep_manifest_order
    (build_df stable_sort (default_args "train" "word_freq1" true false)
       tied_csv) /\
  ~ ties_keep_manifest_order
      (build_df tie_reversing_sort
         (default_args "train" "word_freq1" true false) tied_csv).
Proof.
  split; [exact stable_sort_spec|]. split; [exact tie_reversing_sort_spec|].
  split; [reflexivity|]. split; [reflexivity|]. split.
  - intros i j x y Hi Hj Hij _.
    destruct i as [|[|i]], j as [|[|j]]; simpl in Hi, Hj; try lia;
      try discriminate.
    injection Hi as <-. injection Hj as <-. simpl. lia.
  - intros Hstable.
    assert (1 < 0) as Habsurd; [|lia].
    apply (Hstable 0%nat 1%nat (1, utt 500 "b.npy" "5 6 7 8")
             (0, utt 500 "a.npy" "1 2 3 4"));
      [reflexivity | reflexivity | lia | reflexivity].
Qed.

End LoadDatasetFacts.

(** ** The batch builder *)

Module LoaderHierarchicalFacts.

Import LoaderHierarchical LoaderHierarchicalSamples.
Local Open Scope string_scope.
Local Open Scope Z_scope.

(** *** The error monad *)

Lemma bind_Ok {A B : Type} (m : result A) (k : A -> result B) (b : B) :
  bind m k = Ok b <-> exists a, m = Ok a /\ k a = Ok b.
Proof.
  destruct m as [a|e]; simpl; split.
  - eauto.
  - by intros (a' & [= ->] & Hk).
  - discriminate.
  - by intros (a' & [=] & _).
Qed.

(** Splits a successful [do x <- m; k] into its two steps. *)
Tactic Notation "inv_bind" hyp(H) :=
  let a := fresh "a" in
  let Hm := fresh "Hm" in
  apply bind_Ok in H; destruct H as (a & Hm & H).

Tactic Notation "inv_bind" hyp(H) "as" ident(a) ident(Hm) :=
  apply bind_Ok in H; destruct H as (a & Hm & H).

Lemma of_option_Ok {A : Type} (e : exn) (o : option A) (a : A) :
  of_option e o = Ok a <-> o = Some a.
Proof. destruct o; simpl; split; congruence. Qed.

Lemma map_result_length {X Y : Type} (f : X -> result Y) xs ys :
  map_result f xs = Ok ys -> List.length ys = List.length xs.
Proof.
  revert ys. induction xs as [|x xs IH]; intros ys H; simpl in H.
  - by injection H as <-.
  - inv_bind H. inv_bind H. injection H as <-. simpl. f_equal. by apply IH.
Qed.

Lemma map_result_lookup {X Y : Type} (f : X -> result Y) xs ys (i : nat) x :
  map_result f xs = Ok ys -> xs !! i = Some x ->
  exists y, ys !! i = Some y /\ f x = Ok y.
Proof.
  revert ys i. induction xs as [|x' xs IH]; intros ys i H Hx; [done|].
  simpl in H. inv_bind H. inv_bind H. injection H as <-.
  destruct i as [|i]; simpl in *.
  - injection Hx as ->. eauto.
  - eauto.
Qed.

Lemma map_result_nonempty {X Y : Type} (f : X -> result Y) xs ys :
  map_result f xs = Ok ys -> ys <> [] -> xs <> [].
Proof. intros H Hys ->. simpl in H. by injection H as <-. Qed.

(** *** Loops over [range(k, k + n)]

    A loop body that leaves every position other than its own untouched,
    observed through [view], and keeps an invariant [inv]. *)

Section Loops.

Context {S V : Type}.
Variable view : S -> nat -> V.
Variable inv : S -> Prop.
Variable body : nat -> S -> result S.

Hypothesis body_frame :
  forall i s s', inv s -> body i s = Ok s' ->
                 forall j, j <> i -> view s' j = view s j.
Hypothesis body_inv :
  forall i s s', inv s -> body i s = Ok s' -> inv s'.

Lemma for_each_inv (k n : nat) (s s' : S) :
  for_each body (seq k n) s = Ok s' -> inv s -> inv s'.
Proof.
  revert k s. induction n as [|n IH]; intros k s H Hs; simpl in H.
  - by injection H as <-.
  - inv_bind H. eauto.
Qed.

Lemma for_each_frame (k n : nat) (s s' : S) (j : nat) :
  for_each body (seq k n) s = Ok s' -> inv s ->
  (j < k \/ k + n <= j)%nat -> view s' j = view s j.
Proof.
  revert k s. induction n as [|n IH]; intros k s H Hs Hj; simpl in H.
  - by injection H as <-.
  - inv_bind H. rewrite (IH _ _ H) by (eauto || lia).
    apply (body_frame _ _ _ Hs Hm). lia.
Qed.

(** What the loop leaves at position [i] is what turn [i] wrote, and turn
    [i] found there what the loop started with. *)
Lemma for_each_at (k n : nat) (s s' : S) (i : nat) :
  for_each body (seq k n) s = Ok s' -> inv s -> (k <= i < k + n)%nat ->
  exists s1 s2,
    body i s1 = Ok s2 /\ inv s1 /\
    view s1 i = view s i /\ view s' i = view s2 i.
Proof.
  revert k s. induction n as [|n IH]; intros k s H Hs Hi; [lia|].
  simpl in H. inv_bind H.
  destruct (decide (i = k)) as [->|Hne].
  - exists s, a. repeat split; [done..|].
    apply (for_each_frame _ _ _ _ _ H); [by eauto | lia].
  - destruct (IH (Datatypes.S k) a H) as (s1 & s2 & Hb & Hi1 & Hv1 & Hv2);
      [by eauto | lia |].
    exists s1, s2. repeat split; [done..| |done].
    rewrite Hv1. by apply (body_frame _ _ _ Hs Hm).
Qed.

End Loops.

Lemma for_each_first_err {S : Type} (body : nat -> S -> result S)
  (k n : nat) (s : S) (e : exn) :
  body k s = Err e -> for_each body (seq k (Datatypes.S n)) s = Err e.
Proof. simpl. by intros ->. Qed.

(** *** Item and slice assignment *)

Lemma set_item_Ok {X : Type} (row row' : list X) (j : nat) (v : X) :
  set_item row j v = Ok row' <->
  (j < List.length row)%nat /\ row' = <[j := v]> row.
Proof.
  unfold set_item. destruct (Nat.ltb_spec j (List.length row)); split.
  - by intros [= <-].
  - by intros [_ ->].
  - discriminate.
  - lia.
Qed.

Lemma set_item_length {X : Type} (row row' : list X) (j : nat) (v : X) :
  set_item row j v = Ok row' -> List.length row' = List.length row.
Proof. intros (_ & ->)%set_item_Ok. apply length_insert. Qed.

Lemma set_slice_length {X : Type} (row row' : list X) (lo hi : nat) vs :
  set_slice row lo hi vs = Ok row' -> List.length row' = List.length row.
Proof.
  unfold set_slice.
  set (lo' := Nat.min lo (List.length row)).
  set (hi' := Nat.min hi (List.length row)).
  destruct (Nat.eqb_spec (List.length vs) (hi' - lo')) as [Hlen|Hlen].
  - intros [= <-]. rewrite !length_app, length_take, length_drop. lia.
  - destruct vs as [|v [|? ?]]; try discriminate.
    intros [= <-].
    rewrite !length_app, length_take, length_replicate, length_drop. lia.
Qed.

(** Within the row the slice is written as it stands. *)
Lemma set_slice_within {X : Type} (row : list X) (lo : nat) (vs : list X) :
  (lo + List.length vs <= List.length row)%nat ->
  set_slice row lo (lo + List.length vs) vs
  = Ok (take lo row ++ vs ++ drop (lo + List.length vs) row)%list.
Proof.
  intros Hle. unfold set_slice.
  replace (Nat.min lo (List.length row)) with lo by lia.
  replace (Nat.min (lo + List.length vs) (List.length row))
    with (lo + List.length vs)%nat by lia.
  replace (lo + List.length vs - lo)%nat with (List.length vs) by lia.
  by rewrite Nat.eqb_refl.
Qed.

Lemma set_item2_Ok {X : Type} (m m' : list (list X)) (i j : nat) (v : X) :
  set_item2 m i j v = Ok m' <->
  exists row, m !! i = Some row /\ (j < List.length row)%nat /\
              m' = <[i := <[j := v]> row]> m.
Proof.
  unfold set_item2. rewrite bind_Ok. split.
  - intros (row & Hrow%of_option_Ok & H). inv_bind H.
    apply set_item_Ok in Hm as [Hj ->]. injection H as <-. eauto.
  - intros (row & Hrow & Hj & ->). exists row. rewrite Hrow. split; [done|].
    apply bind_Ok. exists (<[j := v]> row). split; [|done].
    by apply set_item_Ok.
Qed.

Lemma set_slice2_Ok {X : Type} (m m' : list (list X)) (i lo hi : nat) vs :
  set_slice2 m i lo hi vs = Ok m' <->
  exists row row', m !! i = Some row /\ set_slice row lo hi vs = Ok row' /\
                   m' = <[i := row']> m.
Proof.
  unfold set_slice2. rewrite bind_Ok. split.
  - intros (row & Hrow%of_option_Ok & H). inv_bind H.
    injection H as <-. eauto.
  - intros (row & row' & Hrow & Hs & ->). exists row. rewrite Hrow.
    split; [done|]. apply bind_Ok. eauto.
Qed.

Lemma set_item2_eq {X : Type} (m : list (list X)) (i j : nat) (v : X) row :
  m !! i = Some row -> (j < List.length row)%nat ->
  set_item2 m i j v = Ok (<[i := <[j := v]> row]> m).
Proof. intros. apply set_item2_Ok. eauto. Qed.

Lemma set_slice2_eq {X : Type} (m : list (list X)) (i lo : nat) vs row :
  m !! i = Some row -> (lo + List.length vs <= List.length row)%nat ->
  set_slice2 m i lo (lo + List.length vs) vs
  = Ok (<[i := (take lo row ++ vs ++ drop (lo + List.length vs) row)%list]> m).
Proof.
  intros Hrow Hle. apply set_slice2_Ok. eexists _, _.
  split; [done|]. split; [|done]. by apply set_slice_within.
Qed.

(** *** A label row, written *)

Lemma set_item_int32_Ok (a a' : list Z) (j : nat) (v : Z) :
  set_item_int32 a j v = Ok a' <->
  (j < List.length a)%nat /\ in_int32 v = true /\ a' = <[j := v]> a.
Proof.
  unfold set_item_int32. split.
  - intros H. inv_bind H as x Hx. apply of_option_Ok in Hx.
    destruct (in_int32 v); [|discriminate].
    apply set_item_Ok in H as [? ->]. done.
  - intros (Hj & -> & ->).
    destruct (lookup_lt_is_Some_2 a j Hj) as [x ->]. simpl.
    by apply set_item_Ok.
Qed.

Lemma written_row_length {X : Type} att (sos eos : X) toks (row : list X) :
  (List.length toks + 2 <= List.length row)%nat ->
  List.length (written_row att sos eos toks row) = List.length row.
Proof.
  intros Hle. unfold written_row. destruct att; simpl;
    rewrite ?length_app; simpl; rewrite length_drop; lia.
Qed.

(** Lines 130-132 on the row of example [i]. *)
Lemma write_attention {X : Type} (m : list (list X)) (i : nat) sos eos toks
  row :
  m !! i = Some row -> (List.length toks + 2 <= List.length row)%nat ->
  (do m1 <- set_item2 m i 0 sos;
   do m2 <- set_slice2 m1 i 1 (List.length toks + 1) toks;
   set_item2 m2 i (List.length toks + 1) eos)
  = Ok (<[i := written_row true sos eos toks row]> m).
Proof.
  intros Hrow Hle. pose proof (lookup_lt_Some _ _ _ Hrow) as Hi.
  destruct row as [|x row]; [simpl in Hle; lia|]. simpl in Hle.
  replace (List.length toks + 1)%nat with (1 + List.length toks)%nat by lia.
  rewrite (set_item2_eq m i 0 sos (x :: row)) by (done || (simpl; lia)).
  simpl bind.
  rewrite (set_slice2_eq _ i 1 toks (sos :: row)); cycle 1.
  { by apply list_lookup_insert_eq. }
  { simpl. lia. }
  simpl bind. rewrite list_insert_insert_eq.
  destruct (lookup_lt_is_Some_2 row (List.length toks)) as [y Hy]; [lia|].
  rewrite (set_item2_eq _ i _ eos (sos :: toks ++ drop (List.length toks) row));
    cycle 1.
  { by apply list_lookup_insert_eq. }
  { simpl. rewrite length_app, length_drop. lia. }
  rewrite list_insert_insert_eq. do 2 f_equal.
  unfold written_row. simpl. f_equal.
  rewrite insert_app_r_alt by lia. rewrite Nat.sub_diag.
  rewrite (drop_S _ _ _ Hy). simpl.
  by replace (List.length toks + 2)%nat
    with (Datatypes.S (Datatypes.S (List.length toks))) by lia.
Qed.

(** Line 141 on the row of example [i]. *)
Lemma write_ctc {X : Type} (m : list (list X)) (i : nat) (sos eos : X) toks
  row :
  m !! i = Some row -> (List.length toks <= List.length row)%nat ->
  set_slice2 m i 0 (List.length toks) toks
  = Ok (<[i := written_row false sos eos toks row]> m).
Proof.
  intros Hrow Hle.
  exact (set_slice2_eq m i 0 toks row Hrow Hle).
Qed.

Lemma parse_indices_length s toks :
  parse_indices s = Ok toks -> List.length toks = token_count s.
Proof. apply map_result_length. Qed.

(** *** Assignments to a label array *)

Section Puts.

Context {pad cell : Type} (arr : LabelArray pad cell).

Lemma put_int_Ok (p : pad) (m m' : list (list cell)) (i j : nat) (v : Z) :
  put_int arr p m i j v = Ok m' <->
  exists c, store_int arr p v = Ok c /\ set_item2 m i j c = Ok m'.
Proof.
  unfold put_int. split.
  - intros H. inv_bind H as row Hrow. inv_bind H as x Hx.
    inv_bind H as c Hc. by exists c.
  - intros (c & Hc & Hset).
    pose proof Hset as (row & Hrow & Hj & _)%set_item2_Ok.
    rewrite Hrow. simpl.
    destruct (lookup_lt_is_Some_2 row j Hj) as [x ->]. simpl.
    by rewrite Hc.
Qed.

Lemma put_str_Ok (p : pad) (m m' : list (list cell)) (i j : nat)
  (s : string) :
  put_str arr p m i j s = Ok m' <->
  exists c, store_str arr p s = Ok c /\ set_item2 m i j c = Ok m'.
Proof.
  unfold put_str. split.
  - intros H. inv_bind H as row Hrow. inv_bind H as x Hx.
    inv_bind H as c Hc. by exists c.
  - intros (c & Hc & Hset).
    pose proof Hset as (row & Hrow & Hj & _)%set_item2_Ok.
    rewrite Hrow. simpl.
    destruct (lookup_lt_is_Some_2 row j Hj) as [x ->]. simpl.
    by rewrite Hc.
Qed.

Lemma put_ints_Ok (p : pad) (m m' : list (list cell)) (i lo hi : nat)
  (vs : list Z) :
  put_ints arr p m i lo hi vs = Ok m' <->
  exists cs, map_result (store_int arr p) vs = Ok cs /\
             set_slice2 m i lo hi cs = Ok m'.
Proof.
  unfold put_ints. split.
  - intros H. inv_bind H as row Hrow. inv_bind H as cs Hcs. by exists cs.
  - intros (cs & Hcs & Hset).
    pose proof Hset as (row & row' & Hrow & _)%set_slice2_Ok.
    rewrite Hrow. simpl. by rewrite Hcs.
Qed.

(** Lines 130-132 on the row of example [i], when they do not raise. *)
Lemma put_attention (p : pad) (m m' : list (list cell)) (i : nat)
  (sos eos : Z) (toks : list Z) (row : list cell) :
  m !! i = Some row -> (List.length toks + 2 <= List.length row)%nat ->
  (do m1 <- put_int arr p m i 0 sos;
   do m2 <- put_ints arr p m1 i 1 (List.length toks + 1) toks;
   put_int arr p m2 i (List.length toks + 1) eos) = Ok m' ->
  exists row', encoded arr true p sos eos toks row row' /\
               m' = <[i := row']> m.
Proof.
  intros Hrow Hle H.
  inv_bind H as m1 H1. inv_bind H as m2 H2.
  apply put_int_Ok in H1 as (c_sos & Hsos & H1).
  apply put_ints_Ok in H2 as (cs & Hcs & H2).
  apply put_int_Ok in H as (c_eos & Heos & H3).
  pose proof (map_result_length _ _ _ Hcs) as Hlen.
  rewrite <- Hlen in Hle, H2, H3.
  pose proof (write_attention m i c_sos c_eos cs row Hrow Hle) as Hw.
  rewrite H1 in Hw. simpl in Hw. rewrite H2 in Hw. simpl in Hw.
  rewrite H3 in Hw. injection Hw as ->.
  eexists. split; [|done]. by exists cs, c_sos, c_eos.
Qed.

(** Line 141 on the row of example [i], when it does not raise. *)
Lemma put_ctc (p : pad) (m m' : list (list cell)) (i : nat)
  (sos eos : Z) (toks : list Z) (row : list cell) :
  m !! i = Some row -> (List.length toks <= List.length row)%nat ->
  put_ints arr p m i 0 (List.length toks) toks = Ok m' ->
  exists row', encoded arr false p sos eos toks row row' /\
               m' = <[i := row']> m.
Proof.
  intros Hrow Hle H.
  apply put_ints_Ok in H as (cs & Hcs & H).
  pose proof (map_result_length _ _ _ Hcs) as Hlen.
  rewrite <- Hlen in Hle, H.
  rewrite (write_ctc m i (np_fill arr p) (np_fill arr p) cs row Hrow Hle)
    in H.
  injection H as <-.
  eexists. split; [|done].
  by exists cs, (np_fill arr p), (np_fill arr p).
Qed.

Lemma encoded_length (att : bool) (p : pad) (sos eos : Z) (toks : list Z)
  (row row' : list cell) :
  (List.length toks + 2 <= List.length row)%nat ->
  encoded arr att p sos eos toks row row' ->
  List.length row' = List.length row.
Proof.
  intros Hle (cs & c_sos & c_eos & Hcs & _ & ->).
  apply written_row_length.
  by rewrite (map_result_length _ _ _ Hcs).
Qed.

End Puts.

(** *** The frame transform keeps its promises on shape *)

Section Transforms.

Context {sample : Type} (zero : sample).

Lemma stack_frame_length (a : ndarray sample) (num_stack num_skip : Z) :
  Z.of_nat (List.length (frames (stack_frame zero a num_stack num_skip)))
  = Z.max 0 (ceil_div (Z.of_nat (List.length (frames a))) num_skip).
Proof. simpl. rewrite length_map, length_seq. lia. Qed.

Lemma stack_frame_ncols (a : ndarray sample) (num_stack num_skip : Z) :
  ncols (stack_frame zero a num_stack num_skip)
  = (ncols a * Z.to_nat num_stack)%nat.
Proof. reflexivity. Qed.

Lemma do_splice_length (a : ndarray sample) (splice num_stack : Z) :
  List.length (frames (do_splice a splice num_stack)) = List.length (frames a).
Proof. simpl. by rewrite length_map, length_seq. Qed.

Lemma do_splice_ncols (a : ndarray sample) (splice num_stack : Z) :
  ncols (do_splice a splice num_stack) = (ncols a * Z.to_nat splice)%nat.
Proof. reflexivity. Qed.

(** [inputs[i, :frame_num, :] = data], when it does not raise. *)
Lemma assign_frames_Ok (t t' : tensor3 sample) (i frame_num : nat)
  (data : ndarray sample) :
  assign_frames zero t i frame_num data = Ok t' ->
  exists old cell,
    cells t !! i = Some old /\
    fits (List.length (frames data)) (Nat.min frame_num (dim1 t)) = true /\
    fits (ncols data) (dim2 t) = true /\
    List.length cell
    = (Nat.min frame_num (dim1 t)
       + (List.length old - Nat.min frame_num (dim1 t)))%nat /\
    t' = {| dim1 := dim1 t; dim2 := dim2 t; cells := <[i := cell]> (cells t) |}.
Proof.
  unfold assign_frames. intros H. inv_bind H.
  apply of_option_Ok in Hm.
  destruct (fits (List.length (frames data)) _) eqn:Hrows; [|discriminate].
  destruct (fits (ncols data) (dim2 t)) eqn:Hcols; [|discriminate].
  simpl in H. injection H as <-. eexists a, _.
  do 3 (split; [done|]). refine (conj _ eq_refl).
  rewrite length_app, length_fmap, length_drop. f_equal.
  destruct (Nat.eqb_spec (List.length (frames data))
              (Nat.min frame_num (dim1 t))); [done|].
  apply length_replicate.
Qed.

Lemma fits_bound (n T : nat) :
  fits n (Nat.min n T) = true -> (n <= T)%nat \/ (n = 1%nat /\ T = 0%nat).
Proof.
  unfold fits. intros [H|H]%orb_true_iff.
  - apply Nat.eqb_eq in H. lia.
  - apply Nat.eqb_eq in H. lia.
Qed.

End Transforms.

(** *** One turn of the loop *)

Section Body.

Context {sample : Type} (zero : sample).
Context {pad cell : Type} (arr : LabelArray pad cell).
Variable st : Storage sample.
Variable self : Self pad.
Variable data_indices : list Z.
Variables input_path_list str_indices_list str_indices_list_sub : list string.
Variables B T W L Lsub : nat.

(** The label extents leave room for every transcript with its two
    markers; [allocate] sees to that. *)
Hypothesis room : forall i s,
  str_indices_list !! i = Some s -> (token_count s + 2 <= L)%nat.
Hypothesis room_sub : forall i s,
  str_indices_list_sub !! i = Some s -> (token_count s + 2 <= Lsub)%nat.

Abbreviation body :=
  (loop_body zero arr st self data_indices input_path_list str_indices_list
     str_indices_list_sub).

Lemma store_transcripts_spec i (b b' : Batch sample cell) :
  is_test self = true ->
  store_transcripts arr self data_indices i b = Ok b' ->
  inputs b' = inputs b /\ inputs_seq_len b' = inputs_seq_len b /\
  input_names b' = input_names b /\
  labels_step arr self data_indices str_indices_list str_indices_list_sub
    i b b'.
Proof.
  intros Htest H. unfold store_transcripts in H.
  inv_bind H as k Hk. apply of_option_Ok in Hk.
  inv_bind H as r Hr.
  inv_bind H as m Hm. apply put_str_Ok in Hm as (v & Hv & Hm).
  apply set_item2_Ok in Hm as (row & Hrow & Hlen & ->).
  inv_bind H as r_sub Hr_sub.
  inv_bind H as m_sub Hm_sub.
  apply put_str_Ok in Hm_sub as (v_sub & Hv_sub & Hm_sub).
  apply set_item2_Ok in Hm_sub as (row_sub & Hrow_sub & Hlen_sub & ->).
  injection H as <-. simpl. repeat split.
  exists row, row_sub. rewrite Htest. simpl.
  do 2 (split; [done|]).
  by exists k, r, r_sub, v, v_sub.
Qed.

Lemma encode_labels_spec i s s_sub (b b' : Batch sample cell) :
  is_test self = false ->
  Forall (fun r => List.length r = L) (labels b) ->
  Forall (fun r => List.length r = Lsub) (labels_sub b) ->
  str_indices_list !! i = Some s -> str_indices_list_sub !! i = Some s_sub ->
  encode_labels arr self i s s_sub b = Ok b' ->
  inputs b' = inputs b /\ inputs_seq_len b' = inputs_seq_len b /\
  input_names b' = input_names b /\
  labels_step arr self data_indices str_indices_list str_indices_list_sub
    i b b'.
Proof.
  intros Htest Hrows Hrows_sub Hs Hs_sub H. unfold encode_labels in H.
  inv_bind H as toks Htoks.
  inv_bind H as toks_sub Htoks_sub.
  cbv zeta in H.
  pose proof (room _ _ Hs) as Hroom.
  pose proof (room_sub _ _ Hs_sub) as Hroom_sub.
  rewrite <- (parse_indices_length _ _ Htoks) in Hroom.
  rewrite <- (parse_indices_length _ _ Htoks_sub) in Hroom_sub.
  assert (forall (m : list (list cell)) (n : nat) row,
            Forall (fun r => List.length r = n) m -> m !! i = Some row ->
            List.length row = n) as Hlen.
  { intros m n row Hall Hrow. by apply (Forall_lookup_1 _ _ _ _ Hall Hrow). }
  destruct (String.eqb_spec (model_type self) "hierarchical_attention")
    as [Hatt|Hnatt].
  - inv_bind H as m1 H1. inv_bind H as m2 H2. inv_bind H as m3 H3.
    inv_bind H as len Hi. apply set_item_int32_Ok in Hi as (Hi & _ & ->).
    inv_bind H as n1 H4. inv_bind H as n2 H5. inv_bind H as n3 H6.
    inv_bind H as len_sub Hi_sub.
    apply set_item_int32_Ok in Hi_sub as (Hi_sub & _ & ->).
    injection H as <-. cbn [labels labels_sub set_labels] in *.
    pose proof H1 as (? & _ & (row & Hrow & _)%set_item2_Ok)%put_int_Ok.
    pose proof H4 as (? & _ & (row_sub & Hrow_sub & _)%set_item2_Ok)%put_int_Ok.
    assert (List.length toks + 2 <= List.length row)%nat as Hfit.
    { rewrite (Hlen _ _ _ Hrows Hrow). lia. }
    assert (List.length toks_sub + 2 <= List.length row_sub)%nat as Hfit_sub.
    { rewrite (Hlen _ _ _ Hrows_sub Hrow_sub). lia. }
    destruct (put_attention arr (pad_value self) (labels b) m3 i
                (sos_index self) (eos_index self) toks row Hrow Hfit)
      as (row' & Henc & ->).
    { rewrite H1. cbn [bind]. rewrite H2. cbn [bind]. exact H3. }
    destruct (put_attention arr (pad_value_sub self) (labels_sub b) n3 i
                (sos_index_sub self) (eos_index_sub self) toks_sub row_sub
                Hrow_sub Hfit_sub)
      as (row_sub' & Henc_sub & ->).
    { rewrite H4. cbn [bind]. rewrite H5. cbn [bind]. exact H6. }
    simpl. repeat split. exists row, row_sub. rewrite Htest.
    do 2 (split; [done|]).
    exists s, s_sub, toks, toks_sub.
    do 4 (split; [done|]). split; [by left|]. do 2 (split; [done|]).
    rewrite Hatt. simpl. by exists row', row_sub'.
  - destruct (String.eqb_spec (model_type self) "hierarchical_ctc")
      as [Hctc|Hnctc]; [|discriminate].
    inv_bind H as m1 H1.
    inv_bind H as len Hi. apply set_item_int32_Ok in Hi as (Hi & _ & ->).
    inv_bind H as n1 H4.
    inv_bind H as len_sub Hi_sub.
    apply set_item_int32_Ok in Hi_sub as (Hi_sub & _ & ->).
    injection H as <-. cbn [labels labels_sub set_labels] in *.
    pose proof H1
      as (? & _ & (row & ? & Hrow & _)%set_slice2_Ok)%put_ints_Ok.
    pose proof H4
      as (? & _ & (row_sub & ? & Hrow_sub & _)%set_slice2_Ok)%put_ints_Ok.
    destruct (put_ctc arr (pad_value self) (labels b) m1 i
                (sos_index self) (eos_index self) toks row Hrow)
      as (row' & Henc & ->); [|done|].
    { rewrite (Hlen _ _ _ Hrows Hrow). lia. }
    destruct (put_ctc arr (pad_value_sub self) (labels_sub b) n1 i
                (sos_index_sub self) (eos_index_sub self) toks_sub row_sub
                Hrow_sub)
      as (row_sub' & Henc_sub & ->); [|done|].
    { rewrite (Hlen _ _ _ Hrows_sub Hrow_sub). lia. }
    simpl. repeat split. exists row, row_sub. rewrite Htest.
    do 2 (split; [done|]).
    exists s, s_sub, toks, toks_sub.
    do 4 (split; [done|]). split; [by right|]. do 2 (split; [done|]).
    assert (String.eqb (model_type self) "hierarchical_attention" = false)
      as -> by (by apply String.eqb_neq).
    simpl. by exists row', row_sub'.
Qed.

(** Lines 101-148 as a whole. *)
Lemma loop_body_spec i (b b' : Batch sample cell) :
  shaped B T W L Lsub b -> body i b = Ok b' ->
  inputs_step i b b' /\
  labels_step arr self data_indices str_indices_list str_indices_list_sub
    i b b'.
Proof.
  intros Hshape H. unfold loop_body in H.
  inv_bind H as raw Hraw.
  set (stacked := stack_frame zero raw (num_stack self) (num_skip self)) in H.
  set (data := do_splice stacked (splice self) (num_stack self)) in H.
  inv_bind H as x Hx. inv_bind H as len Hlen.
  apply set_item_int32_Ok in Hlen as (Hi & _ & ->).
  apply assign_frames_Ok in Hx
    as (old & cell0 & Hold & Hrows & _ & Hcell & ->).
  unfold data in Hrows. rewrite do_splice_length in Hrows.
  assert (List.length old = dim1 (inputs b)) as Hold_len.
  { rewrite (shaped_dim1 _ _ _ _ _ _ Hshape).
    apply (Forall_lookup_1 _ _ _ _ (shaped_frames _ _ _ _ _ _ Hshape) Hold). }
  assert (inputs_step i b
            (set_inputs b
               {| dim1 := dim1 (inputs b); dim2 := dim2 (inputs b);
                  cells := <[i := cell0]> (cells (inputs b)) |}
               (<[i := Z.of_nat (List.length (frames stacked))]>
                  (inputs_seq_len b)))) as Hinputs.
  { exists (List.length (frames stacked)), cell0.
    split; [by apply fits_bound|]. split; [lia|]. split; [done|].
    split; [by apply (lookup_lt_Some _ _ _ Hold)|]. done. }
  destruct (is_test self) eqn:Htest.
  - apply store_transcripts_spec in H as (Hin & Hlen & Hnames & Hlabels);
      [|done].
    split; [|exact Hlabels].
    destruct Hinputs as (fr & cell' & ? & ? & ? & ? & Hx & Hl & Hn).
    exists fr, cell'. rewrite Hin, Hlen, Hnames. by repeat split.
  - inv_bind H as s Hs. inv_bind H as s_sub Hs_sub.
    apply of_option_Ok in Hs, Hs_sub.
    apply (encode_labels_spec i s s_sub) in H
      as (Hin & Hlen & Hnames & Hlabels);
      [|done|apply (shaped_rows _ _ _ _ _ _ Hshape)
       |apply (shaped_rows_sub _ _ _ _ _ _ Hshape)|done..].
    split; [|exact Hlabels].
    destruct Hinputs as (fr & cell' & ? & ? & ? & ? & Hx & Hl & Hn).
    exists fr, cell'. rewrite Hin, Hlen, Hnames. by repeat split.
Qed.

Lemma Forall_insert_length {X : Type} (m : list (list X)) (i n : nat) row :
  Forall (fun r => List.length r = n) m -> List.length row = n ->
  Forall (fun r => List.length r = n) (<[i := row]> m).
Proof.
  intros Hall Hrow. destruct (decide (i < List.length m)%nat).
  - by apply Forall_insert.
  - by rewrite list_insert_ge by lia.
Qed.

(** A turn keeps every extent. *)
Lemma loop_body_shaped i (b b' : Batch sample cell) :
  shaped B T W L Lsub b -> body i b = Ok b' -> shaped B T W L Lsub b'.
Proof.
  intros Hshape H. destruct (loop_body_spec i b b' Hshape H) as [Hin Hlab].
  destruct Hshape as [H1 H2 H3 H4 H5 H6 H7 H8 H9 H10 H11].
  destruct Hin as (fr & cell0 & _ & Hcell & _ & _ & Hx & Hlen & _).
  destruct Hlab as (row & row_sub & Hrow & Hrow_sub & Hlab).
  pose proof (Forall_lookup_1 _ _ _ _ H6 Hrow) as Hrow_len.
  pose proof (Forall_lookup_1 _ _ _ _ H8 Hrow_sub) as Hrow_sub_len.
  simpl in Hrow_len, Hrow_sub_len.
  assert (List.length (labels b') = B /\
          Forall (fun r => List.length r = L) (labels b') /\
          List.length (labels_sub b') = B /\
          Forall (fun r => List.length r = Lsub) (labels_sub b') /\
          List.length (labels_seq_len b') = B /\
          List.length (labels_seq_len_sub b') = B) as (? & ? & ? & ? & ? & ?).
  { destruct (is_test self).
    - destruct Hlab as (k & r & r_sub & v & v_sub & _ & _ & _ & _ & _ & _ & _
                        & -> & -> & -> & ->).
      rewrite !length_insert. repeat split; try done.
      + apply Forall_insert_length; [done|]. by rewrite length_insert.
      + apply Forall_insert_length; [done|]. by rewrite length_insert.
    - destruct Hlab as (s & s_sub & toks & toks_sub & Hs & Hs_sub & Htoks
                        & Htoks_sub & _ & _ & _ & row' & row_sub' & Henc
                        & Henc_sub & -> & -> & -> & ->).
      pose proof (room _ _ Hs) as Hroom.
      pose proof (room_sub _ _ Hs_sub) as Hroom_sub.
      rewrite <- (parse_indices_length _ _ Htoks) in Hroom.
      rewrite <- (parse_indices_length _ _ Htoks_sub) in Hroom_sub.
      rewrite !length_insert. repeat split; try done.
      + apply Forall_insert_length; [done|].
        assert (List.length row' = List.length row) as ->; [|done].
        eapply encoded_length; [|exact Henc]. lia.
      + apply Forall_insert_length; [done|].
        assert (List.length row_sub' = List.length row_sub) as ->; [|done].
        eapply encoded_length; [|exact Henc_sub]. lia. }
  split; try done.
  - by rewrite Hx.
  - by rewrite Hx.
  - rewrite Hx. simpl. by rewrite length_insert.
  - rewrite Hx. simpl. apply Forall_insert_length; [done|]. lia.
  - rewrite Hlen. by rewrite length_insert.
Qed.

(** A turn leaves the other examples alone. *)
Lemma loop_body_frame i (b b' : Batch sample cell) :
  shaped B T W L Lsub b -> body i b = Ok b' ->
  forall j, j <> i -> example_view b' j = example_view b j.
Proof.
  intros Hshape H j Hj.
  destruct (loop_body_spec i b b' Hshape H) as [Hin Hlab].
  destruct Hin as (fr & cell0 & _ & _ & _ & _ & Hx & Hlen & _).
  destruct Hlab as (row & row_sub & _ & _ & Hlab).
  unfold example_view. rewrite Hx, Hlen. simpl.
  rewrite !list_lookup_insert_ne by done.
  destruct (is_test self).
  - destruct Hlab as (k & r & r_sub & v & v_sub & _ & _ & _ & _ & _ & _ & _
                      & -> & -> & -> & ->).
    by rewrite !list_lookup_insert_ne by done.
  - destruct Hlab as (s & s_sub & toks & toks_sub & _ & _ & _ & _ & _ & _ & _
                      & row' & row_sub' & _ & _ & -> & -> & -> & ->).
    by rewrite !list_lookup_insert_ne by done.
Qed.

(** The whole loop: extents are kept, and what example [i] ends up with
    is what its own turn made of the freshly allocated state. *)
Lemma loop_spec (n : nat) (b0 b : Batch sample cell) :
  shaped B T W L Lsub b0 ->
  for_each body (seq 0 n) b0 = Ok b ->
  shaped B T W L Lsub b /\
  forall i, (i < n)%nat ->
    exists b1 b2,
      shaped B T W L Lsub b1 /\ body i b1 = Ok b2 /\
      example_view b1 i = example_view b0 i /\
      example_view b i = example_view b2 i.
Proof.
  intros Hshape H. split.
  - eapply (for_each_inv (shaped B T W L Lsub) body); [|done..].
    intros i s s'. apply loop_body_shaped.
  - intros i Hi.
    destruct (for_each_at example_view (shaped B T W L Lsub) body
                loop_body_frame loop_body_shaped 0 n b0 b i H Hshape)
      as (b1 & b2 & ? & ? & ? & ?); [lia|].
    by exists b1, b2.
Qed.

End Body.

(** *** Maxima and allocation *)

Lemma foldl_max_spec (xs : list Z) (x : Z) :
  is_max (foldl Z.max x xs) (x :: xs).
Proof.
  revert x. induction xs as [|y xs IH]; intros x; simpl.
  - split; [by left | by repeat constructor].
  - destruct (IH (Z.max x y)) as [Hin Hall].
    inversion Hall as [|? ? Hxy Hrest]; subst. split.
    + apply elem_of_cons in Hin as [Heq|Hin].
      * rewrite Heq. destruct (Z.max_spec x y) as [[_ ->]|[_ ->]].
        -- right. by left.
        -- by left.
      * right. by right.
    + repeat constructor; [lia | lia | done].
Qed.

Lemma py_max_Ok (xs : list Z) (m : Z) : py_max xs = Ok m -> is_max m xs.
Proof.
  destruct xs as [|x xs]; [discriminate|]. simpl. intros [= <-].
  apply foldl_max_spec.
Qed.

Lemma py_max_nonempty (xs : list Z) (m : Z) : py_max xs = Ok m -> xs <> [].
Proof. by destruct xs. Qed.

(** The ceiling of the quotient, for a positive divisor. *)
Lemma ceil_div_spec (a b : Z) :
  0 < b -> b * (ceil_div a b - 1) < a <= b * ceil_div a b.
Proof.
  intros Hb. unfold ceil_div.
  pose proof (Z.div_mod (- a) b ltac:(lia)) as Hdm.
  pose proof (Z.mod_pos_bound (- a) b Hb) as Hmod. nia.
Qed.

Lemma ceil_div_unique (a b q : Z) :
  0 < b -> b * (q - 1) < a <= b * q -> ceil_div a b = q.
Proof.
  intros Hb Hq. pose proof (ceil_div_spec a b Hb). nia.
Qed.

Lemma round_half_even_le (n d M : Z) :
  0 < d -> n <= d * M -> round_half_even n d <= M.
Proof.
  intros Hd Hn. unfold round_half_even.
  pose proof (Z.div_mod n d ltac:(lia)) as Hdm.
  pose proof (Z.mod_pos_bound n d Hd) as Hmod.
  destruct (Z.ltb_spec (2 * (n mod d)) d); [nia|].
  assert (n / d + 1 <= M) by nia.
  destruct (Z.ltb_spec d (2 * (n mod d))); [lia|].
  destruct (Z.even (n / d)); lia.
Qed.

Lemma round_half_even_gt (n d M g : Z) :
  0 < d -> d < 2 * g -> d * M + g <= n -> M < round_half_even n d.
Proof.
  intros Hd Hg Hn. unfold round_half_even.
  pose proof (Z.div_mod n d ltac:(lia)) as Hdm.
  pose proof (Z.mod_pos_bound n d Hd) as Hmod.
  assert (M <= n / d) by nia.
  destruct (Z.ltb_spec (2 * (n mod d)) d); [nia|].
  destruct (Z.ltb_spec d (2 * (n mod d))); [lia|].
  assert (M < n / d) by nia.
  destruct (Z.even (n / d)); lia.
Qed.

Lemma round_half_even_exact (n : Z) : round_half_even n 1 = n.
Proof.
  unfold round_half_even. rewrite Z.div_1_r, Z.mod_1_r. reflexivity.
Qed.

(** The quotient is at least [2 ^ log2_quotient]. *)
Lemma log2_quotient_lower (n d : Z) :
  0 < n -> 0 < d ->
  let k := log2_quotient n d in
  (0 <= k -> d * 2 ^ k <= n) /\ (k < 0 -> d <= n * 2 ^ (- k)).
Proof.
  intros Hn Hd. unfold log2_quotient.
  pose proof (Z.log2_spec n Hn) as [Hn1 Hn2].
  pose proof (Z.log2_spec d Hd) as [Hd1 Hd2].
  pose proof (Z.log2_nonneg n). pose proof (Z.log2_nonneg d).
  set (ln := Z.log2 n) in *. set (ld := Z.log2 d) in *.
  destruct (Z.leb_spec 0 (ln - ld)) as [Hk|Hk].
  - destruct (Z.leb_spec (d * 2 ^ (ln - ld)) n) as [Ht|Ht]; simpl.
    + split; [done | lia].
    + split.
      * intros Hk1.
        assert (2 ^ ln = 2 ^ (ln - ld - 1) * 2 ^ (ld + 1)) as Hpow.
        { rewrite <- Z.pow_add_r by lia. f_equal. lia. }
        pose proof (Z.pow_pos_nonneg 2 (ln - ld - 1) ltac:(lia) Hk1).
        nia.
      * intros Hk1. replace (- (ln - ld - 1)) with 1 by lia.
        assert (ln = ld) as Heq by lia. rewrite Heq in *.
        rewrite Z.pow_succ_r in Hd2 by lia. lia.
  - destruct (Z.leb_spec d (n * 2 ^ (- (ln - ld)))) as [Ht|Ht]; simpl.
    + split; [lia | done].
    + split; [lia|]. intros _.
      replace (- (ln - ld - 1)) with (ld + 1 - ln) by lia.
      assert (2 ^ (ld + 1) = 2 ^ ln * 2 ^ (ld + 1 - ln)) as Hpow.
      { rewrite <- Z.pow_add_r by lia. f_equal. lia. }
      pose proof (Z.pow_pos_nonneg 2 (ld + 1 - ln) ltac:(lia) ltac:(lia)).
      nia.
Qed.

(** Below [2 ^ 53] the float quotient has the ceiling of the exact one. *)
Lemma py_ceil_div_exact (a b : Z) :
  0 <= a < 2 ^ 53 -> 0 < b < 2 ^ 53 ->
  py_ceil_div a b = Ok (ceil_div a b).
Proof.
  intros Ha Hb. unfold py_ceil_div, int_true_divide.
  cbv zeta.
  destruct (Z.eqb_spec b 0); [lia|].
  destruct (Z.eqb_spec a 0) as [->|Ha0].
  { unfold math_ceil. cbn. f_equal.
    assert ((b <? 0) = false) as -> by (apply Z.ltb_ge; lia).
    symmetry. apply ceil_div_unique; lia. }
  rewrite (Z.abs_eq a), (Z.abs_eq b) by lia.
  assert ((a <? 0) = false) as -> by (apply Z.ltb_ge; lia).
  assert ((b <? 0) = false) as -> by (apply Z.ltb_ge; lia).
  simpl Bool.eqb. simpl negb.
  destruct (log2_quotient_lower a b ltac:(lia) ltac:(lia)) as [Hlo Hlo'].
  set (k := log2_quotient a b) in *.
  set (e := Z.max (k - 52) (-1074)).
  destruct (Z.leb_spec 0 e) as [He|He].
  - (* the quotient is an integer *)
    assert (e = k - 52) as Hek by lia.
    assert (0 <= k) as Hk by lia.
    specialize (Hlo Hk).
    assert (2 ^ k = 2 ^ e * 2 ^ 52) as Hpow.
    { rewrite <- Z.pow_add_r by lia. f_equal. lia. }
    pose proof (Z.pow_pos_nonneg 2 e ltac:(lia) He) as Hpe.
    assert (b * 2 ^ e < 2) as Hsmall by nia.
    assert (b = 1 /\ 2 ^ e = 1) as [-> Hone] by nia.
    rewrite Hone, Z.mul_1_l, round_half_even_exact.
    rewrite Z.mul_1_r.
    destruct (Z.leb_spec (2 ^ 1024) a) as [Hbig|_].
    { assert (2 ^ 53 < 2 ^ 1024) by (apply Z.pow_lt_mono_r; lia). lia. }
    simpl. unfold math_ceil. simpl.
    destruct (Z.leb_spec 0 e); [|lia].
    rewrite Hone, Z.mul_1_r. f_equal.
    symmetry. apply ceil_div_unique; lia.
  - simpl. unfold math_ceil. simpl.
    destruct (Z.leb_spec 0 e); [lia|]. f_equal.
    set (s := - e) in *.
    assert (0 < s) as Hs by lia.
    pose proof (Z.pow_pos_nonneg 2 s ltac:(lia) ltac:(lia)) as Hps.
    assert (b < 2 * 2 ^ s) as Hb2.
    { destruct (Z.max_spec (k - 52) (-1074)) as [[_ Hmax]|[_ Hmax]];
        fold e in Hmax.
      - (* clamped *)
        assert (s = 1074) as -> by lia.
        assert (2 ^ 53 < 2 ^ 1074) by (apply Z.pow_lt_mono_r; lia). lia.
      - assert (k = 52 - s) as Hk by lia.
        destruct (Z.le_gt_cases 0 k) as [Hk0|Hk0].
        + specialize (Hlo Hk0).
          assert (2 ^ 53 = 2 * 2 ^ k * 2 ^ s) as Hpow.
          { rewrite <- (Z.pow_1_r 2) at 2. rewrite <- !Z.pow_add_r by lia.
            f_equal. lia. }
          pose proof (Z.pow_pos_nonneg 2 k ltac:(lia) Hk0). nia.
        + specialize (Hlo' Hk0).
          assert (2 ^ s = 2 ^ 52 * 2 ^ (- k)) as Hpow.
          { rewrite <- Z.pow_add_r by lia. f_equal. lia. }
          pose proof (Z.pow_pos_nonneg 2 (- k) ltac:(lia) ltac:(lia)). nia. }
    pose proof (ceil_div_spec a b ltac:(lia)) as HN.
    set (N := ceil_div a b) in *.
    apply ceil_div_unique; [done|]. split.
    + apply (round_half_even_gt _ _ _ (2 ^ s)); [lia | lia | nia].
    + apply round_half_even_le; [lia | nia].
Qed.

Lemma py_ceil_div_Ok (a b q : Z) : py_ceil_div a b = Ok q -> b <> 0.
Proof.
  unfold py_ceil_div, int_true_divide.
  by destruct (Z.eqb_spec b 0).
Qed.

Example ceil_div_examples :
  ceil_div 7 3 = 3 /\ ceil_div 6 3 = 2 /\ ceil_div 1 3 = 1 /\ ceil_div 0 3 = 0.
Proof. repeat split; reflexivity. Qed.

(** [math.ceil(7 / 3)], [math.ceil(-7 / 2)], [math.ceil(1 / -2)],
    [math.ceil((2 ** 53 + 1) / 2 ** 53)], [math.ceil(3 / 2 ** 1075)],
    [2 ** 1024 / 1] and [5 / 0] as Python evaluates them. *)
Example py_ceil_div_examples :
  py_ceil_div 7 3 = Ok 3 /\ py_ceil_div (-7) 2 = Ok (-3) /\
  py_ceil_div 1 (-2) = Ok 0 /\
  py_ceil_div (2 ^ 53 + 1) (2 ^ 53) = Ok 1 /\
  py_ceil_div 3 (2 ^ 1075) = Ok 1 /\
  py_ceil_div (2 ^ 1024) 1 = Err OverflowError /\
  py_ceil_div 5 0 = Err ZeroDivisionError.
Proof. repeat split; vm_compute; reflexivity. Qed.

Section Batches.

Context {sample : Type} (zero : sample).
Context {pad cell : Type} (arr : LabelArray pad cell).

Lemma ensure_input_size_same (st : Storage sample) (self self' : Self pad)
  paths :
  ensure_input_size st self paths = Ok self' -> same_config self self'.
Proof.
  unfold ensure_input_size. destruct (input_size self).
  - intros [= <-]. by repeat split.
  - intros H. inv_bind H as a Ha. injection H as <-. by repeat split.
Qed.

Lemma ensure_input_size_set (st : Storage sample) (self self' : Self pad)
  paths :
  ensure_input_size st self paths = Ok self' -> is_Some (input_size self').
Proof.
  unfold ensure_input_size. destruct (input_size self) eqn:Hsize.
  - intros [= <-]. by rewrite Hsize.
  - intros H. inv_bind H as a Ha. injection H as <-. by eexists.
Qed.

Lemma np_zeros3_Ok (B : nat) (T W : Z) (x : tensor3 sample) :
  np_zeros3 zero B T W = Ok x ->
  0 <= T /\ 0 <= W /\
  x = {| dim1 := Z.to_nat T; dim2 := Z.to_nat W;
         cells := replicate B (replicate (Z.to_nat T)
                                 (replicate (Z.to_nat W) zero)) |}.
Proof.
  unfold np_zeros3.
  destruct (Z.ltb_spec T 0); [discriminate|].
  destruct (Z.ltb_spec W 0); [discriminate|]. cbn [orb].
  destruct (2 ^ 63 <=? _); [discriminate|].
  by intros [= <-].
Qed.

(** Lines 73-97: the extents of what is allocated. *)
Lemma allocate_Ok (self : Self pad) (data_indices : list Z) rows rows_sub
  (b : Batch sample cell) :
  allocate zero arr self data_indices rows rows_sub = Ok b ->
  exists size max_fn T longest longest_sub,
    input_size self = Some size /\
    is_max max_fn (frame_num <$> rows) /\
    py_ceil_div max_fn (num_skip self) = Ok T /\
    is_max longest ((fun r => Z.of_nat (token_count (transcript r))) <$> rows) /\
    is_max longest_sub
      ((fun r => Z.of_nat (token_count (transcript r))) <$> rows_sub) /\
    0 <= T /\
    0 <= size * splice self /\
    b = {| inputs :=
             {| dim1 := Z.to_nat T;
                dim2 := Z.to_nat (size * splice self);
                cells := replicate (List.length data_indices)
                           (replicate (Z.to_nat T)
                              (replicate (Z.to_nat (size * splice self))
                                 zero)) |};
           labels := replicate (List.length data_indices)
                       (replicate (Z.to_nat (longest + 2))
                          (np_fill arr (pad_value self)));
           labels_sub := replicate (List.length data_indices)
                           (replicate (Z.to_nat (longest_sub + 2))
                              (np_fill arr (pad_value_sub self)));
           inputs_seq_len := replicate (List.length data_indices) 0;
           labels_seq_len := replicate (List.length data_indices) 0;
           labels_seq_len_sub := replicate (List.length data_indices) 0;
           input_names :=
             (fun r => PyStr.stem (PyStr.basename (input_path r))) <$> rows |}.
Proof.
  unfold allocate. intros H.
  inv_bind H as size Hsize. apply of_option_Ok in Hsize.
  inv_bind H as max_fn Hmax. apply py_max_Ok in Hmax.
  inv_bind H as T Hceil.
  inv_bind H as longest Hlong. apply py_max_Ok in Hlong.
  inv_bind H as longest_sub Hlong_sub. apply py_max_Ok in Hlong_sub.
  inv_bind H as x Hx. injection H as <-.
  apply np_zeros3_Ok in Hx as (HT & HW & ->).
  by exists size, max_fn, T, longest, longest_sub.
Qed.

Lemma allocate_shaped (data_indices : list Z) (T W L Lsub : nat)
  (c c_sub : cell) (names : list string) :
  shaped (List.length data_indices) T W L Lsub
    {| inputs :=
         {| dim1 := T; dim2 := W;
            cells := replicate (List.length data_indices)
                       (replicate T (replicate W zero)) |};
       labels := replicate (List.length data_indices) (replicate L c);
       labels_sub := replicate (List.length data_indices)
                       (replicate Lsub c_sub);
       inputs_seq_len := replicate (List.length data_indices) 0;
       labels_seq_len := replicate (List.length data_indices) 0;
       labels_seq_len_sub := replicate (List.length data_indices) 0;
       input_names := names |}.
Proof.
  split; simpl; rewrite ?length_replicate; try done;
    apply Forall_replicate; by rewrite length_replicate.
Qed.

Lemma loc_all_lookup (d : DataFrame) (data_indices : list Z) rows i k :
  loc_all d data_indices = Ok rows -> data_indices !! i = Some k ->
  exists r, rows !! i = Some r /\ loc d k = Ok r.
Proof. apply map_result_lookup. Qed.

Lemma is_max_room (longest : Z) (rows : list Row) i s :
  is_max longest ((fun r => Z.of_nat (token_count (transcript r))) <$> rows) ->
  (transcript <$> rows) !! i = Some s ->
  (token_count s + 2 <= Z.to_nat (longest + 2))%nat.
Proof.
  intros [_ Hall] Hs. rewrite list_lookup_fmap in Hs.
  destruct (rows !! i) as [r|] eqn:Hr; [|done]. injection Hs as <-.
  rewrite Forall_fmap in Hall.
  pose proof (Forall_lookup_1 _ _ _ _ Hall Hr) as Hle. simpl in Hle. lia.
Qed.

(** The steps of a call that returns. *)
Lemma make_batch_steps (st : Storage sample) (self self' : Self pad)
  (data_indices : list Z) (b : Batch sample cell) :
  make_batch zero arr st self data_indices = (Ok b, self') ->
  exists rows rows_sub b0,
    loc_all (df self) data_indices = Ok rows /\
    loc_all (df_sub self) data_indices = Ok rows_sub /\
    ensure_input_size st self (input_path <$> rows) = Ok self' /\
    allocate zero arr self' data_indices rows rows_sub = Ok b0 /\
    for_each (loop_body zero arr st self' data_indices (input_path <$> rows)
                (transcript <$> rows) (transcript <$> rows_sub))
      (seq 0 (List.length data_indices)) b0 = Ok b.
Proof.
  unfold make_batch. intros H.
  destruct (loc_all (df self) data_indices) as [rows|] eqn:Hrows;
    [|by injection H].
  destruct (loc_all (df_sub self) data_indices) as [rows_sub|] eqn:Hrows_sub;
    [|by injection H].
  destruct (ensure_input_size st self (input_path <$> rows)) as [self1|]
    eqn:Hsize; [|by injection H].
  injection H as H <-. unfold build_batch in H. inv_bind H as b0 Hb0.
  by exists rows, rows_sub, b0.
Qed.

(** What a returned batch holds, example by example.  The time extent is
    what line 75 computes. *)
Lemma make_batch_Ok (st : Storage sample) (self self' : Self pad)
  (data_indices : list Z) (b : Batch sample cell) :
  make_batch zero arr st self data_indices = (Ok b, self') ->
  exists rows rows_sub size max_fn longest longest_sub,
    loc_all (df self) data_indices = Ok rows /\
    loc_all (df_sub self) data_indices = Ok rows_sub /\
    input_size self' = Some size /\
    is_max max_fn (frame_num <$> rows) /\
    num_skip self <> 0 /\
    is_max longest ((fun r => Z.of_nat (token_count (transcript r))) <$> rows) /\
    is_max longest_sub
      ((fun r => Z.of_nat (token_count (transcript r))) <$> rows_sub) /\
    py_ceil_div max_fn (num_skip self) = Ok (Z.of_nat (dim1 (inputs b))) /\
    0 <= size * splice self /\
    shaped (List.length data_indices) (dim1 (inputs b))
      (Z.to_nat (size * splice self))
      (Z.to_nat (longest + 2)) (Z.to_nat (longest_sub + 2)) b /\
    forall i r r_sub,
      rows !! i = Some r -> rows_sub !! i = Some r_sub ->
      example_result arr self (dim1 (inputs b))
        (Z.to_nat (longest + 2)) (Z.to_nat (longest_sub + 2)) r r_sub b i.
Proof.
  intros H.
  destruct (make_batch_steps _ _ _ _ _ H)
    as (rows & rows_sub & b0 & Hrows & Hrows_sub & Hsize & Hb0 & Hloop).
  pose proof (ensure_input_size_same _ _ _ _ Hsize)
    as (Hdf & Hdf_sub & Htest & Hmodel & Hfmt & Hstack & Hskip & Hsplice
        & Hpad & Hpad_sub & Hsos & Heos & Hsos_sub & Heos_sub).
  apply allocate_Ok in Hb0
    as (size & max_fn & T0 & longest & longest_sub & Hsz & Hmax & Hceil
        & Hlong & Hlong_sub & HT & HW & ->).
  rewrite Hskip, Hsplice, Hpad, Hpad_sub in *.
  exists rows, rows_sub, size, max_fn, longest, longest_sub.
  set (T := Z.to_nat T0) in *.
  set (W := Z.to_nat (size * splice self)) in *.
  set (L := Z.to_nat (longest + 2)) in *.
  set (Lsub := Z.to_nat (longest_sub + 2)) in *.
  match type of Hloop with
  | for_each _ _ ?x = _ => set (b0 := x) in *
  end.
  assert (shaped (List.length data_indices) T W L Lsub b0) as Hshape0
    by apply allocate_shaped.
  destruct (loop_spec zero arr st self' data_indices (input_path <$> rows)
              (transcript <$> rows) (transcript <$> rows_sub)
              (List.length data_indices) T W L Lsub
              (fun i s => is_max_room longest rows i s Hlong)
              (fun i s => is_max_room longest_sub rows_sub i s Hlong_sub)
              _ b0 b Hshape0 Hloop) as [Hshape Hat].
  rewrite (shaped_dim1 _ _ _ _ _ _ Hshape).
  do 4 (split; [done|]).
  split; [by apply py_ceil_div_Ok in Hceil|].
  do 2 (split; [done|]).
  split; [unfold T; by rewrite Z2Nat.id|].
  do 2 (split; [done|]).
  intros i r r_sub Hr Hr_sub.
  assert (i < List.length data_indices)%nat as Hi.
  { rewrite <- (map_result_length _ _ _ Hrows).
    by apply (lookup_lt_Some _ _ _ Hr). }
  destruct (Hat i Hi) as (b1 & b2 & Hshape1 & Hbody & Hv1 & Hv2).
  destruct (loop_body_spec zero arr st self' data_indices _ _ _ _ _ _ _ _
              (fun i s => is_max_room longest rows i s Hlong)
              (fun i s => is_max_room longest_sub rows_sub i s Hlong_sub)
              i b1 b2 Hshape1 Hbody) as [Hin Hlab].
  unfold example_view in Hv1, Hv2.
  assert (inputs_seq_len b !! i = inputs_seq_len b2 !! i) as Hl2
    by congruence.
  assert (labels b !! i = labels b2 !! i) as Hlab2 by congruence.
  assert (labels_sub b !! i = labels_sub b2 !! i) as Hsub2 by congruence.
  assert (labels_seq_len b !! i = labels_seq_len b2 !! i) as Hlen2
    by congruence.
  assert (labels_seq_len_sub b !! i = labels_seq_len_sub b2 !! i) as Hlens2
    by congruence.
  assert (labels b1 !! i
          = Some (replicate L (np_fill arr (pad_value self)))) as Hlab1.
  { transitivity (labels b0 !! i); [congruence|].
    by apply lookup_replicate_2. }
  assert (labels_sub b1 !! i
          = Some (replicate Lsub (np_fill arr (pad_value_sub self))))
    as Hsub1.
  { transitivity (labels_sub b0 !! i); [congruence|].
    by apply lookup_replicate_2. }
  assert (labels_seq_len b1 !! i = Some 0) as Hlen1.
  { transitivity (labels_seq_len b0 !! i); [congruence|].
    by apply lookup_replicate_2. }
  assert (labels_seq_len_sub b1 !! i = Some 0) as Hlens1.
  { transitivity (labels_seq_len_sub b0 !! i); [congruence|].
    by apply lookup_replicate_2. }
  clear Hv1 Hv2. split.
  - destruct Hin as (fr & cell0 & Hfr & _ & Hilen & _ & _ & Hlen & _).
    exists fr. split.
    + rewrite Hl2, Hlen. by apply list_lookup_insert_eq.
    + by rewrite (shaped_dim1 _ _ _ _ _ _ Hshape1) in Hfr.
  - destruct Hlab as (row & row_sub & Hrow & Hrow_sub & Hlab).
    rewrite Hlab1 in Hrow. injection Hrow as <-.
    rewrite Hsub1 in Hrow_sub. injection Hrow_sub as <-.
    pose proof (lookup_lt_Some _ _ _ Hlab1) as Hi1.
    pose proof (lookup_lt_Some _ _ _ Hsub1) as Hi1_sub.
    rewrite Htest in Hlab. destruct (is_test self).
    + destruct Hlab as (k & r' & r_sub' & v & v_sub & Hk & Hr' & Hr_sub'
                        & Hv & Hv_sub & _ & _ & El & Els & Elen & Elens).
      destruct (loc_all_lookup _ _ _ _ _ Hrows Hk) as (r0 & Hr0 & Hloc).
      destruct (loc_all_lookup _ _ _ _ _ Hrows_sub Hk)
        as (r0_sub & Hr0_sub & Hloc_sub).
      rewrite Hdf in Hr'. rewrite Hdf_sub in Hr_sub'.
      assert (r' = r) as -> by congruence.
      assert (r_sub' = r_sub) as -> by congruence.
      rewrite ?Hpad, ?Hpad_sub in *.
      exists v, v_sub. do 2 (split; [done|]).
      rewrite Hlab2, Hsub2, Hlen2, Hlens2, El, Els, Elen, Elens.
      rewrite !list_lookup_insert_eq by done. done.
    + destruct Hlab as (s & s_sub & toks & toks_sub & Hs & Hs_sub & Htoks
                        & Htoks_sub & Hfamily & Hilen & Hilen_sub
                        & row' & row_sub' & Henc & Henc_sub
                        & El & Els & Elen & Elens).
      rewrite list_lookup_fmap, Hr in Hs. injection Hs as <-.
      rewrite list_lookup_fmap, Hr_sub in Hs_sub. injection Hs_sub as <-.
      rewrite Hmodel, ?Hsos, ?Heos, ?Hsos_sub, ?Heos_sub, ?Hpad, ?Hpad_sub
        in *.
      exists toks, toks_sub. do 3 (split; [done|]).
      exists row', row_sub'. do 2 (split; [done|]).
      rewrite Hlab2, Hsub2, Hlen2, Hlens2, El, Els, Elen, Elens.
      rewrite !list_lookup_insert_eq by done. done.
Qed.

End Batches.

(** *** The two kinds of label array *)

Lemma int64_store_int (p : int64) (v c : Z) :
  store_int int64_array p v = Ok c <-> in_int64 v = true /\ c = v.
Proof.
  simpl. destruct (in_int64 v); split; try done.
  - by intros [= ->].
  - by intros [_ ->].
  - by intros [? _].
Qed.

Lemma int64_store_ints (p : int64) (vs cs : list Z) :
  map_result (store_int int64_array p) vs = Ok cs ->
  cs = vs /\ Forall (fun v => in_int64 v = true) vs.
Proof.
  revert cs. induction vs as [|v vs IH]; intros cs H; simpl in H.
  - by injection H as <-.
  - destruct (in_int64 v) eqn:Hv; [|done]. simpl in H.
    inv_bind H as cs' Hcs. injection H as <-.
    destruct (IH cs' Hcs) as [-> Hall]. by split; [|constructor].
Qed.


(** *** The claims about [make_batch] *)

Lemma written_row_pad {X : Type} att (sos eos pad : X) toks (L j : nat) :
  (List.length toks + 2 <= L)%nat ->
  written_len att toks <= Z.of_nat j -> (j < L)%nat ->
  written_row att sos eos toks (replicate L pad) !! j = Some pad.
Proof.
  intros Hroom Hj HL. unfold written_row, written_len in *. destruct att.
  - rewrite (app_comm_cons toks), lookup_app_r by (simpl; lia).
    simpl. destruct (j - Datatypes.S (List.length toks))%nat as [|n] eqn:Hn;
      [lia|].
    simpl. rewrite lookup_drop. apply lookup_replicate_2. lia.
  - rewrite lookup_app_r by lia. rewrite lookup_drop.
    apply lookup_replicate_2. lia.
Qed.

Section Claims.

Context {sample : Type} (zero : sample).
Context {pad cell : Type} (arr : LabelArray pad cell).
Variable st : Storage sample.

(** What a batch of a table that is not an evaluation table holds for
    example [i], in whatever kind of array: the cells that the array
    makes of the markers and of the indices ([store_int]), and the
    recorded lengths. *)
Lemma labels_stored (self self' : Self pad) (data_indices : list Z)
  (b : Batch sample cell) (i : nat) (k : Z) (r r_sub : Row) :
  make_batch zero arr st self data_indices = (Ok b, self') ->
  is_test self = false ->
  data_indices !! i = Some k ->
  loc (df self) k = Ok r -> loc (df_sub self) k = Ok r_sub ->
  exists toks toks_sub cs cs_sub,
    parse_indices (transcript r) = Ok toks /\
    List.length toks = token_count (transcript r) /\
    parse_indices (transcript r_sub) = Ok toks_sub /\
    List.length toks_sub = token_count (transcript r_sub) /\
    map_result (store_int arr (pad_value self)) toks = Ok cs /\
    map_result (store_int arr (pad_value_sub self)) toks_sub = Ok cs_sub /\
    (model_type self = "hierarchical_attention" ->
     exists c_sos c_eos c_sos_sub c_eos_sub rest rest_sub,
       store_int arr (pad_value self) (sos_index self) = Ok c_sos /\
       store_int arr (pad_value self) (eos_index self) = Ok c_eos /\
       store_int arr (pad_value_sub self) (sos_index_sub self)
       = Ok c_sos_sub /\
       store_int arr (pad_value_sub self) (eos_index_sub self)
       = Ok c_eos_sub /\
       labels b !! i = Some (c_sos :: cs ++ c_eos :: rest)%list /\
       labels_seq_len b !! i = Some (Z.of_nat (List.length toks) + 2) /\
       labels_sub b !! i
       = Some (c_sos_sub :: cs_sub ++ c_eos_sub :: rest_sub)%list /\
       labels_seq_len_sub b !! i
       = Some (Z.of_nat (List.length toks_sub) + 2)) /\
    (model_type self = "hierarchical_ctc" ->
     exists rest rest_sub,
       labels b !! i = Some (cs ++ rest)%list /\
       labels_seq_len b !! i = Some (Z.of_nat (List.length toks)) /\
       labels_sub b !! i = Some (cs_sub ++ rest_sub)%list /\
       labels_seq_len_sub b !! i = Some (Z.of_nat (List.length toks_sub))).
Proof.
  intros H Htest Hk Hr Hr_sub.
  destruct (make_batch_Ok zero arr st self self' data_indices b H)
    as (rows & rows_sub & size & max_fn & longest & longest_sub & Hrows
        & Hrows_sub & _ & _ & _ & _ & _ & _ & _ & _ & Hex).
  destruct (loc_all_lookup _ _ _ _ _ Hrows Hk) as (r' & Hi & Hr').
  destruct (loc_all_lookup _ _ _ _ _ Hrows_sub Hk) as (r_sub' & Hi_sub & Hrs').
  assert (r' = r) as -> by congruence.
  assert (r_sub' = r_sub) as -> by congruence.
  destruct (Hex i r r_sub Hi Hi_sub) as [_ Hlab].
  rewrite Htest in Hlab.
  destruct Hlab as (toks & toks_sub & Htoks & Htoks_sub & _ & row & row_sub
                    & Henc & Henc_sub & Hl & Hls & Hn & Hns).
  destruct Henc as (cs & c_sos & c_eos & Hcs & Hmarks & ->).
  destruct Henc_sub as (cs_sub & c_sos_sub & c_eos_sub & Hcs_sub & Hmarks_sub
                        & ->).
  exists toks, toks_sub, cs, cs_sub.
  split; [done|]. split; [by apply parse_indices_length|].
  split; [done|]. split; [by apply parse_indices_length|].
  do 2 (split; [done|]).
  split; intros Hmodel; rewrite Hmodel in Hl, Hls, Hn, Hns, Hmarks, Hmarks_sub;
    simpl in *.
  - destruct (Hmarks eq_refl) as [Hsos Heos].
    destruct (Hmarks_sub eq_refl) as [Hsos_sub Heos_sub].
    exists c_sos, c_eos, c_sos_sub, c_eos_sub.
    eexists _, _. by repeat split.
  - eexists _, _. by repeat split.
Qed.

End Claims.

(** C1.  On a table that is not an evaluation table, the batch holds for
    every example [i], whose main transcript parses to the [n] indices
    [toks]: with [model_type = 'hierarchical_attention'], the row
    [sos, toks, eos] in positions [0 .. n+1] of [labels[i]] and
    [labels_seq_len[i] = n + 2]; with [model_type = 'hierarchical_ctc'],
    [toks] in positions [0 .. n-1] and [labels_seq_len[i] = n].  The
    sub-task arrays hold the same for the sub-task transcript and its own
    markers.  [n] is the number of pieces of the raw transcript.  This is
    stated first for the integer arrays that integer pad indices give,
    which hold the indices themselves, then for any kind of label array,
    which holds each index as it stores a Python int ([store_int]). *)
Theorem labels_encoding {sample : Type} (zero : sample)
  (st : Storage sample) :
  (forall (self self' : Self int64) (data_indices : list Z)
          (b : Batch sample Z) (i : nat) (k : Z) (r r_sub : Row),
     make_batch zero int64_array st self data_indices = (Ok b, self') ->
     is_test self = false ->
     data_indices !! i = Some k ->
     loc (df self) k = Ok r -> loc (df_sub self) k = Ok r_sub ->
     exists toks toks_sub,
       parse_indices (transcript r) = Ok toks /\
       List.length toks = token_count (transcript r) /\
       parse_indices (transcript r_sub) = Ok toks_sub /\
       List.length toks_sub = token_count (transcript r_sub) /\
       (model_type self = "hierarchical_attention" ->
        exists rest rest_sub,
          labels b !! i
          = Some (sos_index self :: toks ++ eos_index self :: rest)%list /\
          labels_seq_len b !! i = Some (Z.of_nat (List.length toks) + 2) /\
          labels_sub b !! i
          = Some (sos_index_sub self :: toks_sub ++ eos_index_sub self
                    :: rest_sub)%list /\
          labels_seq_len_sub b !! i
          = Some (Z.of_nat (List.length toks_sub) + 2)) /\
       (model_type self = "hierarchical_ctc" ->
        exists rest rest_sub,
          labels b !! i = Some (toks ++ rest)%list /\
          labels_seq_len b !! i = Some (Z.of_nat (List.length toks)) /\
          labels_sub b !! i = Some (toks_sub ++ rest_sub)%list /\
          labels_seq_len_sub b !! i
          = Some (Z.of_nat (List.length toks_sub)))) /\
  (forall (pad cell : Type) (arr : LabelArray pad cell)
          (self self' : Self pad) (data_indices : list Z)
          (b : Batch sample cell) (i : nat) (k : Z) (r r_sub : Row),
     make_batch zero arr st self data_indices = (Ok b, self') ->
     is_test self = false ->
     data_indices !! i = Some k ->
     loc (df self) k = Ok r -> loc (df_sub self) k = Ok r_sub ->
     exists toks toks_sub cs cs_sub,
       parse_indices (transcript r) = Ok toks /\
       List.length toks = token_count (transcript r) /\
       parse_indices (transcript r_sub) = Ok toks_sub /\
       List.length toks_sub = token_count (transcript r_sub) /\
       map_result (store_int arr (pad_value self)) toks = Ok cs /\
       map_result (store_int arr (pad_value_sub self)) toks_sub = Ok cs_sub /\
       (model_type self = "hierarchical_attention" ->
        exists c_sos c_eos c_sos_sub c_eos_sub rest rest_sub,
          store_int arr (pad_value self) (sos_index self) = Ok c_sos /\
          store_int arr (pad_value self) (eos_index self) = Ok c_eos /\
          store_int arr (pad_value_sub self) (sos_index_sub self)
          = Ok c_sos_sub /\
          store_int arr (pad_value_sub self) (eos_index_sub self)
          = Ok c_eos_sub /\
          labels b !! i = Some (c_sos :: cs ++ c_eos :: rest)%list /\
          labels_seq_len b !! i = Some (Z.of_nat (List.length toks) + 2) /\
          labels_sub b !! i
          = Some (c_sos_sub :: cs_sub ++ c_eos_sub :: rest_sub)%list /\
          labels_seq_len_sub b !! i
          = Some (Z.of_nat (List.length toks_sub) + 2)) /\
       (model_type self = "hierarchical_ctc" ->
        exists rest rest_sub,
          labels b !! i = Some (cs ++ rest)%list /\
          labels_seq_len b !! i = Some (Z.of_nat (List.length toks)) /\
          labels_sub b !! i = Some (cs_sub ++ rest_sub)%list /\
          labels_seq_len_sub b !! i = Some (Z.of_nat (List.length toks_sub)))).
Proof.
  split.
  - intros self self' data_indices b i k r r_sub H Htest Hk Hr Hr_sub.
    destruct (labels_stored zero int64_array st self self' data_indices b
                i k r r_sub H Htest Hk Hr Hr_sub)
      as (toks & toks_sub & cs & cs_sub & Htoks & Hn & Htoks_sub & Hn_sub
          & Hcs & Hcs_sub & Hatt & Hctc).
    apply int64_store_ints in Hcs as [-> _].
    apply int64_store_ints in Hcs_sub as [-> _].
    exists toks, toks_sub. do 4 (split; [done|]). split.
    + intros Hmodel.
      destruct (Hatt Hmodel)
        as (c_sos & c_eos & c_sos_sub & c_eos_sub & rest & rest_sub
            & Hsos & Heos & Hsos_sub & Heos_sub & Hrest).
      apply int64_store_int in Hsos as [_ ->].
      apply int64_store_int in Heos as [_ ->].
      apply int64_store_int in Hsos_sub as [_ ->].
      apply int64_store_int in Heos_sub as [_ ->].
      by exists rest, rest_sub.
    + exact Hctc.
  - intros pad cell arr. apply labels_stored.
Qed.

Lemma labels_encoding_witness :
  let self := sample_self false "hierarchical_attention" "numpy" 1 in
  let r := {| frame_num := 3; input_path := "/data/sw1_a.npy";
              transcript := "5 9 2" |} in
  let r_sub := {| frame_num := 3; input_path := "/data/sw1_a.npy";
                  transcript := "11 12 13 14" |} in
  make_batch 0 int64_array sample_storage self [0; 1]
  = (Ok attention_batch, with_input_size self 2) /\
  exists toks toks_sub,
    parse_indices (transcript r) = Ok toks /\
    List.length toks = token_count (transcript r) /\
    parse_indices (transcript r_sub) = Ok toks_sub /\
    List.length toks_sub = token_count (transcript r_sub) /\
    (model_type self = "hierarchical_attention" ->
     exists rest rest_sub,
       labels attention_batch !! 0%nat
       = Some (sos_index self :: toks ++ eos_index self :: rest)%list /\
       labels_seq_len attention_batch !! 0%nat
       = Some (Z.of_nat (List.length toks) + 2) /\
       labels_sub attention_batch !! 0%nat
       = Some (sos_index_sub self :: toks_sub ++ eos_index_sub self
                 :: rest_sub)%list /\
       labels_seq_len_sub attention_batch !! 0%nat
       = Some (Z.of_nat (List.length toks_sub) + 2)) /\
    (model_type self = "hierarchical_ctc" ->
     exists rest rest_sub,
       labels attention_batch !! 0%nat = Some (toks ++ rest)%list /\
       labels_seq_len attention_batch !! 0%nat
       = Some (Z.of_nat (List.length toks)) /\
       labels_sub attention_batch !! 0%nat = Some (toks_sub ++ rest_sub)%list /\
       labels_seq_len_sub attention_batch !! 0%nat
       = Some (Z.of_nat (List.length toks_sub))).
Proof.
  split; [reflexivity|].
  apply (proj1 (labels_encoding 0 sample_storage)
           (sample_self false "hierarchical_attention" "numpy" 1)
           (with_input_size
              (sample_self false "hierarchical_attention" "numpy" 1) 2)
           [0; 1] attention_batch 0%nat 0);
    reflexivity.
Defined.

(** The example of the specification: "5 9 2" with SOS 1, EOS 2 and pad 0,
    next to a one-token transcript. *)
Example attention_labels :
  labels attention_batch = [ [1; 5; 9; 2; 2]; [1; 7; 2; 0; 0] ] /\
  labels_seq_len attention_batch = [5; 3] /\
  make_batch 0 int64_array sample_storage
    (sample_self false "hierarchical_ctc" "numpy" 1) [1; 0]
  = (Ok ctc_batch,
     with_input_size (sample_self false "hierarchical_ctc" "numpy" 1) 2) /\
  labels ctc_batch = [ [7; 0; 0; 0; 0]; [5; 9; 2; 0; 0] ] /\
  labels_seq_len ctc_batch = [1; 3].
Proof. repeat split; reflexivity. Qed.

Section Extents.

Context {sample : Type} (zero : sample).
Context {pad cell : Type} (arr : LabelArray pad cell).
Variable st : Storage sample.

(** C2 (amended).  A call that returns a batch was given a non-empty
    subset, and the extents it allocated are: for the time axis of
    [inputs], [math.ceil] of the double-precision quotient of the largest
    manifest [frame_num] of the subset by [num_skip], which is the
    ceiling of the exact quotient when that [frame_num] is from 0 to
    below [2 ^ 53] and [num_skip] is positive and below [2 ^ 53]; for the
    rows of [labels] and of [labels_sub], the largest raw token count of
    the subset in that task plus 2.  Nothing here depends on [model_type]
    or on [is_test]. *)
Theorem batch_maxima (self self' : Self pad) (data_indices : list Z)
  (b : Batch sample cell) :
  make_batch zero arr st self data_indices = (Ok b, self') ->
  exists rows rows_sub max_fn longest longest_sub,
    data_indices <> [] /\
    loc_all (df self) data_indices = Ok rows /\
    loc_all (df_sub self) data_indices = Ok rows_sub /\
    is_max max_fn (frame_num <$> rows) /\
    is_max longest ((fun r => Z.of_nat (token_count (transcript r))) <$> rows) /\
    is_max longest_sub
      ((fun r => Z.of_nat (token_count (transcript r))) <$> rows_sub) /\
    num_skip self <> 0 /\
    py_ceil_div max_fn (num_skip self) = Ok (Z.of_nat (dim1 (inputs b))) /\
    (0 <= max_fn < 2 ^ 53 -> 0 < num_skip self < 2 ^ 53 ->
     num_skip self * (Z.of_nat (dim1 (inputs b)) - 1) < max_fn
     <= num_skip self * Z.of_nat (dim1 (inputs b))) /\
    List.length (cells (inputs b)) = List.length data_indices /\
    Forall (fun m => List.length m = dim1 (inputs b)) (cells (inputs b)) /\
    List.length (labels b) = List.length data_indices /\
    Forall (fun row => Z.of_nat (List.length row) = longest + 2) (labels b) /\
    List.length (labels_sub b) = List.length data_indices /\
    Forall (fun row => Z.of_nat (List.length row) = longest_sub + 2)
      (labels_sub b).
Proof.
  intros H.
  destruct (make_batch_Ok zero arr st self self' data_indices b H)
    as (rows & rows_sub & size & max_fn & longest & longest_sub & Hrows
        & Hrows_sub & _ & Hmax & Hskip & Hlong & Hlong_sub & HT & _
        & Hshape & _).
  exists rows, rows_sub, max_fn, longest, longest_sub.
  destruct Hshape as [H1 H2 H3 H4 H5 H6 H7 H8 _ _ _].
  assert (forall xs : list Row,
            forall m, is_max m ((fun r => Z.of_nat (token_count (transcript r)))
                                  <$> xs) -> 0 <= m) as Hpos.
  { intros xs m [Hin _]. apply list_elem_of_fmap in Hin as (r & -> & _). lia. }
  split.
  { intros ->. simpl in Hrows. injection Hrows as <-.
    destruct Hmax as [Hin _]. by apply elem_of_nil in Hin. }
  do 6 (split; [done|]).
  split; [done|].
  split.
  { intros Hfn Hsk. rewrite (py_ceil_div_exact _ _ Hfn Hsk) in HT.
    injection HT as HT. rewrite <- HT. apply ceil_div_spec. lia. }
  split; [done|]. split; [done|]. split; [done|].
  split.
  { eapply Forall_impl; [exact H6|]. intros row ->. simpl.
    pose proof (Hpos _ _ Hlong). lia. }
  split; [done|].
  eapply Forall_impl; [exact H8|]. intros row ->. simpl.
  pose proof (Hpos _ _ Hlong_sub). lia.
Qed.

End Extents.

Lemma batch_maxima_witness :
  let self := instance_of sample_df sample_df_sub 2 None in
  make_batch 0 int64_array sample_storage self [0; 1]
  = (Ok skip2_batch, with_input_size self 2) /\
  exists rows rows_sub max_fn longest longest_sub,
    [0; 1] <> [] /\
    loc_all (df self) [0; 1] = Ok rows /\
    loc_all (df_sub self) [0; 1] = Ok rows_sub /\
    is_max max_fn (frame_num <$> rows) /\
    is_max longest ((fun r => Z.of_nat (token_count (transcript r))) <$> rows) /\
    is_max longest_sub
      ((fun r => Z.of_nat (token_count (transcript r))) <$> rows_sub) /\
    num_skip self <> 0 /\
    py_ceil_div max_fn (num_skip self)
    = Ok (Z.of_nat (dim1 (inputs skip2_batch))) /\
    (0 <= max_fn < 2 ^ 53 -> 0 < num_skip self < 2 ^ 53 ->
     num_skip self * (Z.of_nat (dim1 (inputs skip2_batch)) - 1) < max_fn
     <= num_skip self * Z.of_nat (dim1 (inputs skip2_batch))) /\
    List.length (cells (inputs skip2_batch)) = List.length [0; 1] /\
    Forall (fun m => List.length m = dim1 (inputs skip2_batch))
      (cells (inputs skip2_batch)) /\
    List.length (labels skip2_batch) = List.length [0; 1] /\
    Forall (fun row => Z.of_nat (List.length row) = longest + 2)
      (labels skip2_batch) /\
    List.length (labels_sub skip2_batch) = List.length [0; 1] /\
    Forall (fun row => Z.of_nat (List.length row) = longest_sub + 2)
      (labels_sub skip2_batch).
Proof.
  split; [reflexivity|].
  apply (batch_maxima 0 int64_array sample_storage
           (instance_of sample_df sample_df_sub 2 None)
           (with_input_size (instance_of sample_df sample_df_sub 2 None) 2)
           [0; 1] skip2_batch).
  reflexivity.
Defined.

(** With 3 frames at most and [num_skip = 2] the time extent is 2; the
    frame-synchronous batch has rows of 3 + 2 and 4 + 2 cells although
    nothing is written past 3 and 4: the two cells are reserved whatever
    the family. *)
Example time_extent_and_reserved_cells :
  dim1 (inputs skip2_batch) = 2%nat /\
  2 * (2 - 1) < 3 <= 2 * 2 /\
  List.length <$> labels ctc_batch = [5; 5]%nat /\
  List.length <$> labels_sub ctc_batch = [6; 6]%nat.
Proof. repeat split; try reflexivity; lia. Qed.

(** C2 as stated fails beyond the integers that a double holds exactly:
    with a manifest [frame_num] of [2 ^ 53 + 1] and [num_skip = 2 ^ 53]
    line 75 computes [math.ceil(1.0) = 1], and the batch has a time
    extent of 1, while the ceiling of the quotient is 2. *)
Lemma time_extent_is_a_float_ceiling :
  let self := instance_of huge_df huge_df (2 ^ 53) None in
  make_batch 0 int64_array sample_storage self [0]
  = (Ok huge_batch, with_input_size self 2) /\
  is_max (2 ^ 53 + 1)
    (frame_num <$> [ {| frame_num := 2 ^ 53 + 1;
                        input_path := "/data/sw2_b.npy";
                        transcript := "7" |} ]) /\
  dim1 (inputs huge_batch) = 1%nat /\
  ceil_div (2 ^ 53 + 1) (num_skip self) = 2 /\
  ~ (2 ^ 53 + 1 <= num_skip self * Z.of_nat (dim1 (inputs huge_batch))).
Proof.
  split; [lazy; reflexivity|].
  split; [split; [by left | by repeat constructor]|].
  split; [reflexivity|]. split; [reflexivity|].
  simpl. lia.
Qed.

Section Padding.

Context {sample : Type} (zero : sample).
Context {pad cell : Type} (arr : LabelArray pad cell).
Variable st : Storage sample.

(** C3 (amended).  In every batch [make_batch] returns: the frame count
    recorded for an example does not exceed the allocated time extent,
    provided that extent is not zero; on a table that is not an
    evaluation table every cell [labels[i, j]] with
    [j >= labels_seq_len[i]] holds the main-task pad value, and every
    cell [labels_sub[i, j]] with [j >= labels_seq_len_sub[i]] holds the
    sub-task pad value; on an evaluation table both recorded label
    lengths are 0, the cells at positions [j >= 1] hold the pad values,
    and position 0 holds the transcript as the array stores a string
    ([store_str]). *)
Theorem padding_invariant (self self' : Self pad) (data_indices : list Z)
  (b : Batch sample cell) :
  make_batch zero arr st self data_indices = (Ok b, self') ->
  (forall i n, inputs_seq_len b !! i = Some n ->
               (0 < dim1 (inputs b))%nat -> n <= Z.of_nat (dim1 (inputs b))) /\
  (is_test self = false ->
   forall i row len (j : nat),
     labels b !! i = Some row -> labels_seq_len b !! i = Some len ->
     len <= Z.of_nat j -> (j < List.length row)%nat ->
     row !! j = Some (np_fill arr (pad_value self))) /\
  (is_test self = false ->
   forall i row len (j : nat),
     labels_sub b !! i = Some row -> labels_seq_len_sub b !! i = Some len ->
     len <= Z.of_nat j -> (j < List.length row)%nat ->
     row !! j = Some (np_fill arr (pad_value_sub self))) /\
  (is_test self = true ->
   forall i row row_sub,
     labels b !! i = Some row -> labels_sub b !! i = Some row_sub ->
     labels_seq_len b !! i = Some 0 /\ labels_seq_len_sub b !! i = Some 0 /\
     forall j : nat, (1 <= j)%nat ->
       ((j < List.length row)%nat ->
        row !! j = Some (np_fill arr (pad_value self))) /\
       ((j < List.length row_sub)%nat ->
        row_sub !! j = Some (np_fill arr (pad_value_sub self)))) /\
  (is_test self = true ->
   forall i k r r_sub,
     data_indices !! i = Some k ->
     loc (df self) k = Ok r -> loc (df_sub self) k = Ok r_sub ->
     exists row row_sub c c_sub,
       labels b !! i = Some row /\ labels_sub b !! i = Some row_sub /\
       store_str arr (pad_value self) (transcript r) = Ok c /\
       store_str arr (pad_value_sub self) (transcript r_sub) = Ok c_sub /\
       row !! 0%nat = Some c /\ row_sub !! 0%nat = Some c_sub).
Proof.
  intros H.
  destruct (make_batch_Ok zero arr st self self' data_indices b H)
    as (rows & rows_sub & size & max_fn & longest & longest_sub & Hrows
        & Hrows_sub & _ & _ & _ & Hlong & Hlong_sub & _ & _ & Hshape & Hex).
  assert (forall i, (i < List.length data_indices)%nat ->
            exists r r_sub, rows !! i = Some r /\ rows_sub !! i = Some r_sub)
    as Hrow_at.
  { intros i Hi.
    destruct (lookup_lt_is_Some_2 rows i) as [r Hr];
      [by rewrite (map_result_length _ _ _ Hrows)|].
    destruct (lookup_lt_is_Some_2 rows_sub i) as [r_sub Hr_sub];
      [by rewrite (map_result_length _ _ _ Hrows_sub)|].
    by exists r, r_sub. }
  assert (forall xs : list Row,
            forall m, is_max m ((fun r => Z.of_nat (token_count (transcript r)))
                                  <$> xs) -> 0 <= m) as Hpos.
  { intros xs m [Hin _]. apply list_elem_of_fmap in Hin as (r & -> & _). lia. }
  destruct Hshape as [H1 _ _ _ H5 _ H7 _ H9 _ _].
  split; [|split; [|split; [|split]]].
  - intros i n Hn HT.
    destruct (Hrow_at i) as (r & r_sub & Hr & Hr_sub);
      [rewrite <- H9; by apply (lookup_lt_Some _ _ _ Hn)|].
    destruct (Hex i r r_sub Hr Hr_sub) as [(fr & Hfr & Hbound) _].
    rewrite Hn in Hfr. injection Hfr as ->. lia.
  - intros Htest i row len j Hrow Hlen Hj Hjrow.
    destruct (Hrow_at i) as (r & r_sub & Hr & Hr_sub);
      [rewrite <- H5; by apply (lookup_lt_Some _ _ _ Hrow)|].
    destruct (Hex i r r_sub Hr Hr_sub) as [_ Hlab]. rewrite Htest in Hlab.
    destruct Hlab as (toks & toks_sub & Htoks & _ & _ & row' & row_sub'
                      & Henc & _ & Hl & _ & Hn & _).
    rewrite Hrow in Hl. injection Hl as <-.
    rewrite Hlen in Hn. injection Hn as ->.
    destruct Henc as (cs & c_sos & c_eos & Hcs & _ & ->).
    pose proof (map_result_length _ _ _ Hcs) as Hcslen.
    assert (List.length cs + 2 <= Z.to_nat (longest + 2))%nat as Hroom.
    { rewrite Hcslen, (parse_indices_length _ _ Htoks).
      apply (is_max_room longest rows i); [done|].
      by rewrite list_lookup_fmap, Hr. }
    rewrite written_row_length in Hjrow by (by rewrite length_replicate).
    rewrite length_replicate in Hjrow.
    apply written_row_pad; [done| |done].
    unfold written_len in *. rewrite Hcslen. done.
  - intros Htest i row len j Hrow Hlen Hj Hjrow.
    destruct (Hrow_at i) as (r & r_sub & Hr & Hr_sub);
      [rewrite <- H7; by apply (lookup_lt_Some _ _ _ Hrow)|].
    destruct (Hex i r r_sub Hr Hr_sub) as [_ Hlab]. rewrite Htest in Hlab.
    destruct Hlab as (toks & toks_sub & _ & Htoks & _ & row' & row_sub'
                      & _ & Henc & _ & Hl & _ & Hn).
    rewrite Hrow in Hl. injection Hl as <-.
    rewrite Hlen in Hn. injection Hn as ->.
    destruct Henc as (cs & c_sos & c_eos & Hcs & _ & ->).
    pose proof (map_result_length _ _ _ Hcs) as Hcslen.
    assert (List.length cs + 2 <= Z.to_nat (longest_sub + 2))%nat as Hroom.
    { rewrite Hcslen, (parse_indices_length _ _ Htoks).
      apply (is_max_room longest_sub rows_sub i); [done|].
      by rewrite list_lookup_fmap, Hr_sub. }
    rewrite written_row_length in Hjrow by (by rewrite length_replicate).
    rewrite length_replicate in Hjrow.
    apply written_row_pad; [done| |done].
    unfold written_len in *. rewrite Hcslen. done.
  - intros Htest i row row_sub Hrow Hrow_sub.
    destruct (Hrow_at i) as (r & r_sub & Hr & Hr_sub);
      [rewrite <- H5; by apply (lookup_lt_Some _ _ _ Hrow)|].
    destruct (Hex i r r_sub Hr Hr_sub) as [_ Hlab]. rewrite Htest in Hlab.
    destruct Hlab as (v & v_sub & _ & _ & Hl & Hls & Hn & Hns).
    rewrite Hrow in Hl. injection Hl as ->.
    rewrite Hrow_sub in Hls. injection Hls as ->.
    do 2 (split; [done|]). intros j Hj.
    rewrite !length_insert, !length_replicate.
    split; intros HjL; rewrite list_lookup_insert_ne by lia;
      by apply lookup_replicate_2.
  - intros Htest i k r r_sub Hk Hr Hr_sub.
    destruct (loc_all_lookup _ _ _ _ _ Hrows Hk) as (r' & Hi & Hr').
    destruct (loc_all_lookup _ _ _ _ _ Hrows_sub Hk)
      as (r_sub' & Hi_sub & Hrs').
    assert (r' = r) as -> by congruence.
    assert (r_sub' = r_sub) as -> by congruence.
    destruct (Hex i r r_sub Hi Hi_sub) as [_ Hlab]. rewrite Htest in Hlab.
    destruct Hlab as (v & v_sub & Hv & Hv_sub & Hl & Hls & _).
    eexists _, _, v, v_sub. do 4 (split; [done|]).
    pose proof (Hpos _ _ Hlong). pose proof (Hpos _ _ Hlong_sub).
    split; apply list_lookup_insert_eq; rewrite length_replicate; lia.
Qed.

End Padding.

Lemma padding_invariant_witness :
  let self := sample_self false "hierarchical_attention" "numpy" 1 in
  make_batch 0 int64_array sample_storage self [0; 1]
  = (Ok attention_batch, with_input_size self 2) /\
  (forall i row len (j : nat),
     labels attention_batch !! i = Some row ->
     labels_seq_len attention_batch !! i = Some len ->
     len <= Z.of_nat j -> (j < List.length row)%nat ->
     row !! j = Some (np_fill int64_array (pad_value self))).
Proof.
  split; [reflexivity|].
  destruct (padding_invariant 0 int64_array sample_storage
              (sample_self false "hierarchical_attention" "numpy" 1)
              (with_input_size
                 (sample_self false "hierarchical_attention" "numpy" 1) 2)
              [0; 1] attention_batch eq_refl) as (_ & Hpad & _).
  exact (Hpad eq_refl).
Defined.

(** C3 as stated fails in two places.  On an evaluation table line 119
    writes position 0 of [labels[i]] while [labels_seq_len[i]] stays at
    the 0 it was allocated with, so the cell at [j = 0 >=
    labels_seq_len[i]] is not the pad value: it is the transcript in an
    array of objects, and the number the transcript reads as in an
    integer array.  And when the manifest announces no frame for the
    subset, the time extent is 0 and a file of one frame is stretched
    over the empty destination of line 116 without an error, so
    [inputs_seq_len[i] = 1] exceeds the time extent. *)
Lemma eval_labels_break_padding :
  (make_batch 0 object_array sample_storage eval_objects [0]
   = (Ok eval_objects_batch, with_input_size eval_objects 2) /\
   exists row len (j : nat),
     labels eval_objects_batch !! 0%nat = Some row /\
     labels_seq_len eval_objects_batch !! 0%nat = Some len /\
     len <= Z.of_nat j /\ (j < List.length row)%nat /\
     row !! j = Some (ObjStr "hello world") /\
     row !! j <> Some (np_fill object_array (pad_value eval_objects))) /\
  (let self := sample_self true "hierarchical_ctc" "numpy" 1 in
   make_batch 0 int64_array sample_storage self [1]
   = (Ok eval_batch, with_input_size self 2) /\
   exists row len (j : nat),
     labels eval_batch !! 0%nat = Some row /\
     labels_seq_len eval_batch !! 0%nat = Some len /\
     len <= Z.of_nat j /\ (j < List.length row)%nat /\
     row !! j <> Some (np_fill int64_array (pad_value self))) /\
  (let self := instance_of empty_df empty_df 1 None in
   make_batch 0 int64_array sample_storage self [0]
   = (Ok empty_batch, with_input_size self 2) /\
   exists n,
     inputs_seq_len empty_batch !! 0%nat = Some n /\
     ~ n <= Z.of_nat (dim1 (inputs empty_batch))).
Proof.
  split; [|split].
  - split; [reflexivity|].
    exists [ObjStr "hello world"; ObjPad tt; ObjPad tt; ObjPad tt], 0, 0%nat.
    repeat split; try done. simpl. lia.
  - split; [reflexivity|].
    exists [7; 0; 0], 0, 0%nat. repeat split; try done. simpl. lia.
  - split; [reflexivity|].
    exists 1. split; [reflexivity|]. simpl. lia.
Qed.

Section Errors.

Context {sample : Type} (zero : sample).
Context {pad cell : Type} (arr : LabelArray pad cell).
Variable st : Storage sample.

Lemma load_features_format (fmt : string) (path : result string)
  (a : ndarray sample) :
  load_features st fmt path = Ok a -> fmt = "numpy" \/ fmt = "htk".
Proof.
  unfold load_features.
  destruct (String.eqb_spec fmt "numpy"); [by left|].
  destruct (String.eqb_spec fmt "htk"); [by right|]. discriminate.
Qed.

(** C8.  Whatever the subset and the files: with a [save_format] other
    than 'numpy' and 'htk', and, on a table that is not an evaluation
    table, with a [model_type] other than 'hierarchical_attention' and
    'hierarchical_ctc', [make_batch] raises and returns no batch.  Nothing
    in [make_batch] catches the exception. *)
Theorem configuration_errors_raise (self : Self pad) (data_indices : list Z) :
  (save_format self <> "numpy" /\ save_format self <> "htk") \/
  (is_test self = false /\
   model_type self <> "hierarchical_attention" /\
   model_type self <> "hierarchical_ctc") ->
  exists e, (make_batch zero arr st self data_indices).1 = Err e.
Proof.
  intros Hbad.
  destruct (make_batch zero arr st self data_indices) as [[b|e] self'] eqn:H;
    [exfalso | by exists e].
  destruct (make_batch_Ok zero arr st self self' data_indices b H)
    as (rows & rows_sub & size & max_fn & longest & longest_sub & Hrows
        & Hrows_sub & _ & Hmax & _ & _ & Hlong_sub & _ & _ & _ & Hex).
  destruct (make_batch_steps zero arr st self self' data_indices b H)
    as (rows' & rows_sub' & b0 & Hrows' & _ & Hsize & _ & Hloop).
  assert (rows' = rows) as -> by congruence.
  pose proof (ensure_input_size_same _ _ _ _ Hsize)
    as (_ & _ & _ & _ & Hfmt & _).
  destruct rows as [|r rows].
  { destruct Hmax as [Hin _]. by apply elem_of_nil in Hin. }
  destruct rows_sub as [|r_sub rows_sub].
  { destruct Hlong_sub as [Hin _]. by apply elem_of_nil in Hin. }
  destruct Hbad as [[Hnpy Hhtk]|(Htest & Hatt & Hctc)].
  - pose proof (map_result_length _ _ _ Hrows) as Hlen. simpl in Hlen.
    destruct data_indices as [|k ks]; [done|]. simpl in Hloop.
    inv_bind Hloop as b1 Hbody. unfold loop_body in Hbody.
    inv_bind Hbody as raw Hraw.
    apply load_features_format in Hraw. rewrite Hfmt in Hraw.
    by destruct Hraw.
  - destruct (Hex 0%nat r r_sub eq_refl eq_refl) as [_ Hlab].
    rewrite Htest in Hlab.
    destruct Hlab as (toks & toks_sub & _ & _ & [?|?] & _); done.
Qed.

End Errors.

Lemma configuration_errors_raise_witness :
  let self := sample_self false "ctc" "numpy" 1 in
  ((save_format self <> "numpy" /\ save_format self <> "htk") \/
   (is_test self = false /\
    model_type self <> "hierarchical_attention" /\
    model_type self <> "hierarchical_ctc")) /\
  exists e, (make_batch 0 int64_array sample_storage self [0]).1 = Err e.
Proof.
  assert (let self := sample_self false "ctc" "numpy" 1 in
          (save_format self <> "numpy" /\ save_format self <> "htk") \/
          (is_test self = false /\
           model_type self <> "hierarchical_attention" /\
           model_type self <> "hierarchical_ctc")) as Hbad.
  { right. repeat split; discriminate. }
  split; [exact Hbad|].
  exact (configuration_errors_raise 0 int64_array sample_storage
           (sample_self false "ctc" "numpy" 1) [0] Hbad).
Defined.

(** On the sample data the exception is the [TypeError] of lines 148 and
    69; an evaluation table does not look at [model_type]. *)
Example configuration_errors_are_TypeError :
  (make_batch 0 int64_array sample_storage
     (sample_self false "ctc" "numpy" 1) [0]).1
  = Err TypeError /\
  (make_batch 0 int64_array sample_storage
     (sample_self false "hierarchical_ctc" "hdf5" 1) [0]).1
  = Err TypeError /\
  (make_batch 0 int64_array sample_storage
     (sample_self true "ctc" "hdf5" 1) [1]).1
  = Err TypeError /\
  (make_batch 0 int64_array sample_storage
     (sample_self true "ctc" "numpy" 1) [1]).1
  = Ok eval_batch.
Proof. repeat split; reflexivity. Qed.

Section State.

Context {sample : Type} (zero : sample).
Context {pad cell : Type} (arr : LabelArray pad cell).
Variable st : Storage sample.

Lemma ensure_input_size_cached (self : Self pad) paths v :
  input_size self = Some v -> ensure_input_size st self paths = Ok self.
Proof. unfold ensure_input_size. by intros ->. Qed.

Lemma ensure_input_size_Ok (self self' : Self pad) paths :
  ensure_input_size st self paths = Ok self' ->
  (exists v, input_size self = Some v /\ self' = self) \/
  (input_size self = None /\
   exists a,
     load_features st (save_format self)
       (of_option IndexError (paths !! 0%nat)) = Ok a /\
     self' = with_input_size self
               (Z.of_nat (ncols a) * num_stack self * splice self)).
Proof.
  unfold ensure_input_size. destruct (input_size self) as [v|].
  - intros [= <-]. left. by exists v.
  - intros H. inv_bind H as a Ha. injection H as <-. right.
    split; [done|]. by exists a.
Qed.

(** The state after a call: [self], or [self] with the attribute set. *)
Lemma make_batch_state (self : Self pad) (data_indices : list Z) :
  (make_batch zero arr st self data_indices).2 = self \/
  exists rows rows_sub self',
    loc_all (df self) data_indices = Ok rows /\
    loc_all (df_sub self) data_indices = Ok rows_sub /\
    ensure_input_size st self (input_path <$> rows) = Ok self' /\
    make_batch zero arr st self data_indices
    = (build_batch zero arr st self' data_indices rows rows_sub, self').
Proof.
  unfold make_batch.
  destruct (loc_all (df self) data_indices) as [rows|]; [|by left].
  destruct (loc_all (df_sub self) data_indices) as [rows_sub|]; [|by left].
  destruct (ensure_input_size st self (input_path <$> rows)) as [self'|] eqn:H;
    [|by left].
  right. by exists rows, rows_sub, self'.
Qed.

(** C9.  Calling [make_batch] again with the same [data_indices], on the
    instance as the first call left it and with the same files, returns
    the same seven values, or raises the same exception. *)
Theorem make_batch_deterministic (self : Self pad) (data_indices : list Z) :
  (make_batch zero arr st
     (make_batch zero arr st self data_indices).2 data_indices).1
  = (make_batch zero arr st self data_indices).1.
Proof.
  destruct (make_batch_state self data_indices)
    as [->|(rows & rows_sub & self' & Hrows & Hrows_sub & Hsize & Hcall)];
    [done|].
  rewrite Hcall. simpl.
  pose proof (ensure_input_size_same _ _ _ _ Hsize)
    as (Hdf & Hdf_sub & _).
  destruct (ensure_input_size_set _ _ _ _ Hsize) as [v Hv].
  unfold make_batch at 1.
  by rewrite Hdf, Hdf_sub, Hrows, Hrows_sub,
    (ensure_input_size_cached self' _ v Hv).
Qed.



End State.


(** The first call on the sample instance sets [input_size] to 2; the
    second leaves the instance alone and returns the same batch.  A call
    that does not find its subset sets nothing. *)
Example make_batch_twice :
  let self := sample_self false "hierarchical_attention" "numpy" 1 in
  let first := make_batch 0 int64_array sample_storage self [0; 1] in
  let second := make_batch 0 int64_array sample_storage first.2 [0; 1] in
  input_size first.2 = Some 2 /\ second.2 = first.2 /\
  second.1 = Ok attention_batch /\ first.1 = Ok attention_batch /\
  make_batch 0 int64_array sample_storage self [5] = (Err KeyError, self).
Proof. repeat split; reflexivity. Qed.

Section Width.

Context {sample : Type} (zero : sample).
Context {pad cell : Type} (arr : LabelArray pad cell).
Variable st : Storage sample.

(** The feature extent of [inputs] is line 86's
    [self.input_size * self.splice]. *)
Lemma inputs_width (self self' : Self pad) (data_indices : list Z)
  (b : Batch sample cell) :
  make_batch zero arr st self data_indices = (Ok b, self') ->
  exists size,
    input_size self' = Some size /\
    Z.of_nat (dim2 (inputs b)) = size * splice self.
Proof.
  intros H.
  destruct (make_batch_Ok zero arr st self self' data_indices b H)
    as (rows & rows_sub & size & max_fn & longest & longest_sub & _ & _
        & Hsize & _ & _ & _ & _ & _ & HW & Hshape & _).
  exists size. split; [done|].
  rewrite (shaped_dim2 _ _ _ _ _ _ Hshape). lia.
Qed.

Lemma load_features_Ok (fmt : string) (path : result string)
  (a : ndarray sample) :
  load_features st fmt path = Ok a ->
  exists p, path = Ok p /\ (load_npy st p = Some a \/ load_htk st p = Some a).
Proof.
  unfold load_features. intros H.
  destruct (String.eqb fmt "numpy").
  - inv_bind H as p Hp. apply of_option_Ok in H. exists p. auto.
  - destruct (String.eqb fmt "htk"); [|done].
    inv_bind H as p Hp. apply of_option_Ok in H. exists p. auto.
Qed.

Lemma fits_product (n p : nat) :
  (2 <= n)%nat -> (2 <= p)%nat -> fits n (n * p) = false.
Proof.
  intros Hn Hp. unfold fits. apply orb_false_iff.
  split; apply Nat.eqb_neq; nia.
Qed.

(** With [splice] above one, a fresh instance never returns a batch: the
    array allocated for the inputs is [splice] times wider than the
    transformed features assigned to it. *)
Lemma splice_above_one_raises (self : Self pad) (data_indices : list Z) :
  input_size self = None ->
  2 <= splice self -> 1 <= num_stack self ->
  (forall p a, load_npy st p = Some a \/ load_htk st p = Some a ->
               (1 <= ncols a)%nat) ->
  exists e, (make_batch zero arr st self data_indices).1 = Err e.
Proof.
  intros Hnone Hsplice Hstack Hwide.
  destruct (make_batch zero arr st self data_indices) as [[b|e] self'] eqn:H;
    [exfalso | by exists e].
  destruct (make_batch_steps zero arr st self self' data_indices b H)
    as (rows & rows_sub & b0 & Hrows & _ & Hsize & Hb0 & Hloop).
  apply ensure_input_size_Ok in Hsize
    as [(v & Hv & _)|(_ & a & Ha & ->)]; [congruence|].
  apply allocate_Ok in Hb0
    as (size & max_fn & T & longest & longest_sub & Hsz & Hmax & _ & _ & _
        & _ & _ & ->).
  simpl in Hsz. injection Hsz as <-.
  destruct data_indices as [|k ks].
  { simpl in Hrows. injection Hrows as <-.
    destruct Hmax as [Hin _]. by apply elem_of_nil in Hin. }
  simpl in Hloop. inv_bind Hloop as b1 Hbody.
  unfold loop_body in Hbody. inv_bind Hbody as raw Hraw.
  simpl in Hraw. rewrite Ha in Hraw. injection Hraw as <-.
  inv_bind Hbody as x Hx.
  apply assign_frames_Ok in Hx as (_ & _ & _ & _ & Hcols & _).
  simpl in Hcols.
  destruct (load_features_Ok _ _ _ Ha) as (p & _ & Hload).
  pose proof (Hwide p a Hload) as Hn.
  replace (Z.to_nat (Z.of_nat (ncols a) * num_stack self * splice self
                     * splice self))
    with (ncols a * Z.to_nat (num_stack self) * Z.to_nat (splice self)
          * Z.to_nat (splice self))%nat in Hcols
    by (rewrite !Z2Nat.inj_mul by nia; by rewrite Nat2Z.id).
  rewrite fits_product in Hcols; [done|nia|lia].
Qed.

End Width.

Lemma splice_above_one_raises_witness :
  let self := sample_self false "hierarchical_ctc" "numpy" 3 in
  input_size self = None /\ 2 <= splice self /\ 1 <= num_stack self /\
  exists e, (make_batch 0 int64_array sample_storage self [0]).1 = Err e.
Proof.
  do 3 (split; [done|]).
  apply (splice_above_one_raises 0 int64_array sample_storage
           (sample_self false "hierarchical_ctc" "numpy" 3) [0]);
    [done..|].
  intros p a. simpl.
  destruct (String.eqb p "/data/sw1_a.npy");
    [intros [[= <-]|[=]]; simpl; lia|].
  destruct (String.eqb p "/data/sw2_b.npy");
    [intros [[= <-]|[=]]; simpl; lia|].
  by intros [?|?].
Defined.

(** C4 (defect in the code).  With width-2 features, [num_stack = 1] and
    [splice = 3] the first call caches [input_size = 2 * 1 * 3 = 6], the
    width of the transformed features; line 86 then allocates
    [input_size * splice = 18] columns, not 6, and the assignment of the
    6-column array at line 116 raises [ValueError]. *)
Theorem inputs_width_takes_splice_twice :
  let self := sample_self false "hierarchical_ctc" "numpy" 3 in
  let first := feat [[1; 2]; [3; 4]; [5; 6]] in
  let data :=
    do_splice (stack_frame 0 first (num_stack self) (num_skip self))
      (splice self) (num_stack self) in
  load_npy sample_storage "/data/sw1_a.npy" = Some first /\
  ncols data = 6%nat /\
  (make_batch 0 int64_array sample_storage self [0]).2
  = with_input_size self 6 /\
  (do b0 <- allocate 0 int64_array (with_input_size self 6) [0]
              (snd <$> take 1 sample_df) (snd <$> take 1 sample_df_sub);
   Ok (dim2 (inputs b0))) = Ok 18%nat /\
  (make_batch 0 int64_array sample_storage self [0]).1 = Err ValueError.
Proof. repeat split; reflexivity. Qed.

Section Evaluation.

Context {sample : Type} (zero : sample).
Context {pad cell : Type} (arr : LabelArray pad cell).
Variable st : Storage sample.


End Evaluation.




End LoaderHierarchicalFacts.

(** ** More on the batch builder: errors and edge cases *)

Module LoaderHierarchicalEdges.

Import LoaderHierarchical LoaderHierarchicalSamples LoaderHierarchicalFacts.
Local Open Scope string_scope.
Local Open Scope Z_scope.

Lemma loc_Ok_elem (d : DataFrame) (k : Z) (r : Row) :
  loc d k = Ok r -> (k, r) ∈ d.
Proof.
  induction d as [|[k' r'] d IH]; simpl; [done|].
  destruct (Z.eqb_spec k' k) as [->|Hne].
  - intros [= ->]. by left.
  - intros H. right. by apply IH.
Qed.

Lemma loc_Err (d : DataFrame) (k : Z) (e : exn) :
  loc d k = Err e -> e = KeyError /\ k ∉ d.*1.
Proof.
  induction d as [|[k' r'] d IH]; simpl.
  - intros [= <-]. split; [done|]. apply not_elem_of_nil.
  - destruct (Z.eqb_spec k' k) as [->|Hne]; [done|].
    intros [-> Hnot]%IH. split; [done|].
    apply not_elem_of_cons. by split.
Qed.

Lemma loc_missing (d : DataFrame) (k : Z) :
  k ∉ d.*1 -> loc d k = Err KeyError.
Proof.
  intros Hnot. destruct (loc d k) as [r|e] eqn:Hk.
  - exfalso. apply Hnot. apply loc_Ok_elem in Hk.
    apply list_elem_of_fmap. by exists (k, r).
  - by apply loc_Err in Hk as [-> _].
Qed.

Lemma loc_all_Ok_labels (d : DataFrame) (data_indices : list Z) rows k :
  loc_all d data_indices = Ok rows -> k ∈ data_indices -> k ∈ d.*1.
Proof.
  intros Hrows [i Hi]%list_elem_of_lookup.
  destruct (loc_all_lookup _ _ _ _ _ Hrows Hi) as (r & _ & Hr).
  apply loc_Ok_elem in Hr. apply list_elem_of_fmap. by exists (k, r).
Qed.

Lemma loc_all_Err (d : DataFrame) (data_indices : list Z) (e : exn) :
  loc_all d data_indices = Err e -> e = KeyError.
Proof.
  unfold loc_all. induction data_indices as [|k ks IH]; simpl; [done|].
  destruct (loc d k) as [r|e'] eqn:Hk; simpl.
  - destruct (map_result (loc d) ks) as [rs|e'']; simpl; [done|].
    intros [= <-]. by apply IH.
  - intros [= <-]. by apply loc_Err in Hk as [-> _].
Qed.

Lemma loc_all_missing (d : DataFrame) (data_indices : list Z) (k : Z) :
  k ∈ data_indices -> k ∉ d.*1 -> loc_all d data_indices = Err KeyError.
Proof.
  intros Hin Hnot. destruct (loc_all d data_indices) as [rows|e] eqn:Hrows.
  - by destruct (Hnot (loc_all_Ok_labels _ _ _ _ Hrows Hin)).
  - by rewrite (loc_all_Err _ _ _ Hrows).
Qed.

Section Edges.

Context {sample : Type} (zero : sample).
Context {pad cell : Type} (arr : LabelArray pad cell).
Variable st : Storage sample.

(** An index that is not a label of [df], or of [df_sub], is a [KeyError]
    at lines 58-61; nothing has been loaded or cached by then. *)
Theorem missing_label_is_KeyError (self : Self pad) (data_indices : list Z)
  (k : Z) :
  k ∈ data_indices ->
  k ∉ (df self).*1 \/ k ∉ (df_sub self).*1 ->
  make_batch zero arr st self data_indices = (Err KeyError, self).
Proof.
  intros Hin Hmissing. unfold make_batch.
  destruct (loc_all (df self) data_indices) as [rows|e] eqn:Hrows.
  - destruct Hmissing as [Hnot|Hnot].
    + by destruct (Hnot (loc_all_Ok_labels _ _ _ _ Hrows Hin)).
    + by rewrite (loc_all_missing _ _ _ Hin Hnot).
  - by rewrite (loc_all_Err _ _ _ Hrows).
Qed.

(** An empty subset never yields a batch and leaves the instance as it
    was: on an instance that has no [input_size] yet the call stops at
    line 65 or 67 on [input_path_list[0]] ([IndexError]), or at line 69
    when [save_format] is unknown ([TypeError]); afterwards it stops at
    line 74 on [max] of nothing ([ValueError]). *)
Theorem empty_subset_raises (self : Self pad) :
  make_batch zero arr st self []
  = (Err match input_size self with
         | Some _ => ValueError
         | None =>
             if String.eqb (save_format self) "numpy" then IndexError
             else if String.eqb (save_format self) "htk" then IndexError
             else TypeError
         end, self).
Proof.
  unfold make_batch, ensure_input_size, load_features. simpl.
  destruct (input_size self) as [v|] eqn:Hv.
  - unfold build_batch, allocate. rewrite Hv. done.
  - destruct (String.eqb (save_format self) "numpy"); [done|].
    by destruct (String.eqb (save_format self) "htk").
Qed.

End Edges.

Lemma missing_label_is_KeyError_witness :
  let self := sample_self false "hierarchical_ctc" "numpy" 1 in
  5 ∈ [0; 5] /\ (5 ∉ (df self).*1 \/ 5 ∉ (df_sub self).*1) /\
  make_batch 0 int64_array sample_storage self [0; 5] = (Err KeyError, self).
Proof.
  assert (5 ∈ [0; 5]) as Hin by (right; left).
  assert (5 ∉ (df (sample_self false "hierarchical_ctc" "numpy" 1)).*1)
    as Hnot.
  { simpl. rewrite !not_elem_of_cons. repeat split; [done..|].
    apply not_elem_of_nil. }
  split; [exact Hin|]. split; [by left|].
  exact (missing_label_is_KeyError 0 int64_array sample_storage
           (sample_self false "hierarchical_ctc" "numpy" 1) [0; 5] 5
           Hin (or_introl Hnot)).
Defined.

(** *** What each turn of the loop loaded and wrote *)

Section Turns.

Context {sample : Type} (zero : sample).
Context {pad cell : Type} (arr : LabelArray pad cell).
Variable st : Storage sample.

Lemma store_transcripts_inputs (self : Self pad) (data_indices : list Z) i
  (b b' : Batch sample cell) :
  store_transcripts arr self data_indices i b = Ok b' ->
  inputs b' = inputs b /\ inputs_seq_len b' = inputs_seq_len b /\
  input_names b' = input_names b.
Proof.
  unfold store_transcripts. intros H.
  inv_bind H as k Hk. inv_bind H as r Hr. inv_bind H as m Hm.
  inv_bind H as r_sub Hr_sub. inv_bind H as m_sub Hm_sub.
  by injection H as <-.
Qed.

Lemma encode_labels_inputs (self : Self pad) i s s_sub
  (b b' : Batch sample cell) :
  encode_labels arr self i s s_sub b = Ok b' ->
  inputs b' = inputs b /\ inputs_seq_len b' = inputs_seq_len b /\
  input_names b' = input_names b.
Proof.
  unfold encode_labels. intros H.
  inv_bind H as toks Htoks. inv_bind H as toks_sub Htoks_sub.
  destruct (String.eqb (model_type self) "hierarchical_attention").
  - inv_bind H as m1 H1. inv_bind H as m2 H2. inv_bind H as m3 H3.
    inv_bind H as len Hlen.
    inv_bind H as n1 H4. inv_bind H as n2 H5. inv_bind H as n3 H6.
    inv_bind H as len_sub Hlen_sub. by injection H as <-.
  - destruct (String.eqb (model_type self) "hierarchical_ctc"); [|done].
    inv_bind H as m1 H1. inv_bind H as len Hlen.
    inv_bind H as n1 H4. inv_bind H as len_sub Hlen_sub.
    by injection H as <-.
Qed.

(** Lines 101-117 of a turn that does not raise. *)
Lemma loop_body_inputs (self : Self pad) (data_indices : list Z)
  (paths strs strs_sub : list string) i (b b' : Batch sample cell) :
  loop_body zero arr st self data_indices paths strs strs_sub i b = Ok b' ->
  exists raw,
    load_features st (save_format self) (of_option IndexError (paths !! i))
    = Ok raw /\
    let stacked := stack_frame zero raw (num_stack self) (num_skip self) in
    let data := do_splice stacked (splice self) (num_stack self) in
    assign_frames zero (inputs b) i (List.length (frames stacked)) data
    = Ok (inputs b') /\
    set_item_int32 (inputs_seq_len b) i
      (Z.of_nat (List.length (frames stacked)))
    = Ok (inputs_seq_len b') /\
    input_names b' = input_names b.
Proof.
  unfold loop_body. intros H.
  inv_bind H as raw Hraw. inv_bind H as x Hx. inv_bind H as len Hlen.
  exists raw. split; [done|]. simpl.
  destruct (is_test self).
  - apply store_transcripts_inputs in H as (-> & -> & ->). done.
  - inv_bind H as s Hs. inv_bind H as s_sub Hs_sub.
    apply encode_labels_inputs in H as (-> & -> & ->). done.
Qed.

(** A call that returns: for each example, the turn of the loop that
    wrote it started from the freshly allocated cells of that example. *)
Lemma make_batch_turns (self self' : Self pad) (data_indices : list Z)
  (b : Batch sample cell) :
  make_batch zero arr st self data_indices = (Ok b, self') ->
  exists rows rows_sub,
    loc_all (df self) data_indices = Ok rows /\
    loc_all (df_sub self) data_indices = Ok rows_sub /\
    same_config self self' /\
    forall i, (i < List.length data_indices)%nat ->
      exists b1 b2,
        loop_body zero arr st self' data_indices (input_path <$> rows)
          (transcript <$> rows) (transcript <$> rows_sub) i b1 = Ok b2 /\
        dim1 (inputs b1) = dim1 (inputs b) /\
        dim2 (inputs b1) = dim2 (inputs b) /\
        cells (inputs b1) !! i
        = Some (replicate (dim1 (inputs b))
                  (replicate (dim2 (inputs b)) zero)) /\
        cells (inputs b) !! i = cells (inputs b2) !! i /\
        inputs_seq_len b !! i = inputs_seq_len b2 !! i.
Proof.
  intros H.
  destruct (make_batch_steps zero arr st _ _ _ _ H)
    as (rows & rows_sub & b0 & Hrows & Hrows_sub & Hsize & Hb0 & Hloop).
  pose proof (ensure_input_size_same _ _ _ _ Hsize) as Hsame.
  exists rows, rows_sub. do 3 (split; [done|]).
  apply allocate_Ok in Hb0
    as (size & max_fn & T0 & longest & longest_sub & Hsz & Hmax & Hceil
        & Hlong & Hlong_sub & HT & HW & ->).
  set (T := Z.to_nat T0) in *.
  set (W := Z.to_nat (size * splice self')) in *.
  set (L := Z.to_nat (longest + 2)) in *.
  set (Lsub := Z.to_nat (longest_sub + 2)) in *.
  match type of Hloop with
  | for_each _ _ ?x = _ => set (b0 := x) in *
  end.
  assert (shaped (List.length data_indices) T W L Lsub b0) as Hshape0
    by apply allocate_shaped.
  destruct (loop_spec zero arr st self' data_indices (input_path <$> rows)
              (transcript <$> rows) (transcript <$> rows_sub)
              (List.length data_indices) T W L Lsub
              (fun i s => is_max_room longest rows i s Hlong)
              (fun i s => is_max_room longest_sub rows_sub i s Hlong_sub)
              _ b0 b Hshape0 Hloop) as [Hshape Hat].
  intros i Hi.
  destruct (Hat i Hi) as (b1 & b2 & Hshape1 & Hbody & Hv1 & Hv2).
  exists b1, b2. split; [done|].
  rewrite (shaped_dim1 _ _ _ _ _ _ Hshape), (shaped_dim2 _ _ _ _ _ _ Hshape).
  split; [apply (shaped_dim1 _ _ _ _ _ _ Hshape1)|].
  split; [apply (shaped_dim2 _ _ _ _ _ _ Hshape1)|].
  unfold example_view in Hv1, Hv2.
  split; [|split; congruence].
  transitivity (cells (inputs b0) !! i); [congruence|].
  by apply lookup_replicate_2.
Qed.

(** The file of every example of a returned batch was loaded. *)
Lemma make_batch_loaded (self self' : Self pad) (data_indices : list Z)
  (b : Batch sample cell) i k r :
  make_batch zero arr st self data_indices = (Ok b, self') ->
  data_indices !! i = Some k -> loc (df self) k = Ok r ->
  exists raw,
    load_features st (save_format self) (Ok (input_path r)) = Ok raw /\
    let stacked := stack_frame zero raw (num_stack self) (num_skip self) in
    let data := do_splice stacked (splice self) (num_stack self) in
    exists t,
      dim1 t = dim1 (inputs b) /\ dim2 t = dim2 (inputs b) /\
      cells t !! i
      = Some (replicate (dim1 (inputs b)) (replicate (dim2 (inputs b)) zero)) /\
      (exists t', assign_frames zero t i (List.length (frames stacked)) data
                  = Ok t' /\ cells (inputs b) !! i = cells t' !! i) /\
      inputs_seq_len b !! i = Some (Z.of_nat (List.length (frames stacked))).
Proof.
  intros H Hk Hr.
  destruct (make_batch_turns _ _ _ _ H)
    as (rows & rows_sub & Hrows & _ & Hsame & Hturn).
  destruct Hsame as (_ & _ & _ & _ & Hfmt & Hstack & Hskip & Hsplice & _).
  destruct (loc_all_lookup _ _ _ _ _ Hrows Hk) as (r' & Hi & Hr').
  assert (r' = r) as -> by congruence.
  destruct (Hturn i (lookup_lt_Some _ _ _ Hk))
    as (b1 & b2 & Hbody & Hd1 & Hd2 & Hc1 & Hc & Hl).
  apply loop_body_inputs in Hbody as (raw & Hraw & Hx & Hlen & _).
  rewrite list_lookup_fmap, Hi in Hraw. simpl in Hraw.
  rewrite Hfmt in Hraw. cbv zeta in Hx, Hlen.
  rewrite Hstack, Hskip, Hsplice in Hx. rewrite Hstack, Hskip in Hlen.
  exists raw. split; [done|]. cbv zeta.
  exists (inputs b1). do 3 (split; [done|]). split.
  - eexists. split; [exact Hx|done].
  - apply set_item_int32_Ok in Hlen as (Hi_len & _ & Hlen). rewrite Hl, Hlen.
    by apply list_lookup_insert_eq.
Qed.

End Turns.

Section NoPartialBatch.

Context {sample : Type} (zero : sample).
Context {pad cell : Type} (arr : LabelArray pad cell).
Variable st : Storage sample.

(** No partial batches: when the feature file of any utterance of the
    subset cannot be read, in whatever position it comes, the call raises
    and returns no batch. *)
Theorem unreadable_file_raises (self : Self pad) (data_indices : list Z)
  (i : nat) (k : Z) (r : Row) :
  data_indices !! i = Some k -> loc (df self) k = Ok r ->
  load_npy st (input_path r) = None -> load_htk st (input_path r) = None ->
  exists e, (make_batch zero arr st self data_indices).1 = Err e.
Proof.
  intros Hk Hr Hnpy Hhtk.
  destruct (make_batch zero arr st self data_indices) as [[b|e] self'] eqn:H;
    [exfalso | by exists e].
  destruct (make_batch_loaded zero arr st _ _ _ _ _ _ _ H Hk Hr)
    as (raw & Hraw & _).
  apply load_features_Ok in Hraw as (p & [= <-] & [Hload|Hload]); congruence.
Qed.

Lemma parse_indices_piece (s : string) (toks : list Z) (w : string) :
  parse_indices s = Ok toks -> w ∈ PyStr.split " " s ->
  exists v, PyStr.int w = Some v.
Proof.
  intros Htoks [j Hj]%list_elem_of_lookup.
  destruct (map_result_lookup _ _ _ _ _ Htoks Hj) as (v & _ & Hv).
  apply of_option_Ok in Hv. by exists v.
Qed.

(** On a table that is not an evaluation table every piece between single
    spaces of every transcript of the subset, main and sub, must read as
    an integer: a word, or the empty piece that a doubled, leading or
    trailing space or an empty transcript leaves, makes the call raise. *)
Theorem non_integer_token_raises (self : Self pad) (data_indices : list Z)
  (i : nat) (k : Z) (r r_sub : Row) (w : string) :
  is_test self = false ->
  data_indices !! i = Some k ->
  loc (df self) k = Ok r -> loc (df_sub self) k = Ok r_sub ->
  w ∈ PyStr.split " " (transcript r) \/ w ∈ PyStr.split " " (transcript r_sub) ->
  PyStr.int w = None ->
  exists e, (make_batch zero arr st self data_indices).1 = Err e.
Proof.
  intros Htest Hk Hr Hr_sub Hw Hint.
  destruct (make_batch zero arr st self data_indices) as [[b|e] self'] eqn:H;
    [exfalso | by exists e].
  destruct (make_batch_Ok zero arr st self self' data_indices b H)
    as (rows & rows_sub & size & max_fn & longest & longest_sub & Hrows
        & Hrows_sub & _ & _ & _ & _ & _ & _ & _ & _ & Hex).
  destruct (loc_all_lookup _ _ _ _ _ Hrows Hk) as (r' & Hi & Hr').
  destruct (loc_all_lookup _ _ _ _ _ Hrows_sub Hk) as (r_sub' & Hi_sub & Hrs').
  assert (r' = r) as -> by congruence.
  assert (r_sub' = r_sub) as -> by congruence.
  destruct (Hex i r r_sub Hi Hi_sub) as [_ Hlab]. rewrite Htest in Hlab.
  destruct Hlab as (toks & toks_sub & Htoks & Htoks_sub & _).
  destruct Hw as [Hw|Hw].
  - destruct (parse_indices_piece _ _ _ Htoks Hw) as [v Hv]. congruence.
  - destruct (parse_indices_piece _ _ _ Htoks_sub Hw) as [v Hv]. congruence.
Qed.

(** With [num_skip = 0] no batch is ever returned; once the subset has
    been found and [input_size] exists, the exception is the
    [ZeroDivisionError] of line 75 and the instance is left as it was. *)
Theorem zero_skip_raises (self : Self pad) (data_indices : list Z) :
  num_skip self = 0 ->
  (exists e, (make_batch zero arr st self data_indices).1 = Err e) /\
  (forall v rows rows_sub,
     input_size self = Some v -> data_indices <> [] ->
     loc_all (df self) data_indices = Ok rows ->
     loc_all (df_sub self) data_indices = Ok rows_sub ->
     make_batch zero arr st self data_indices = (Err ZeroDivisionError, self)).
Proof.
  intros Hskip. split.
  - destruct (make_batch zero arr st self data_indices) as [[b|e] self'] eqn:H;
      [exfalso | by exists e].
    destruct (make_batch_Ok zero arr st self self' data_indices b H)
      as (rows & rows_sub & size & max_fn & longest & longest_sub & _ & _ & _
          & _ & Hne & _).
    done.
  - intros v rows rows_sub Hv Hne Hrows Hrows_sub.
    unfold make_batch. rewrite Hrows, Hrows_sub.
    rewrite (ensure_input_size_cached st self _ v Hv).
    unfold build_batch, allocate. rewrite Hv. simpl.
    destruct rows as [|r rows].
    { apply map_result_length in Hrows. by destruct data_indices. }
    simpl. unfold py_ceil_div. by rewrite Hskip.
Qed.

End NoPartialBatch.

Lemma unreadable_file_raises_witness :
  load_npy sample_storage "/data/gone.npy" = None /\
  load_htk sample_storage "/data/gone.npy" = None /\
  exists e,
    (make_batch 0 int64_array sample_storage
       (instance_of gone_df gone_df 1 None) [0]).1
    = Err e.
Proof.
  do 2 (split; [reflexivity|]).
  by apply (unreadable_file_raises 0 int64_array sample_storage
              (instance_of gone_df gone_df 1 None) [0] 0%nat 0
              {| frame_num := 3; input_path := "/data/gone.npy";
                 transcript := "5 9 2" |}).
Defined.

Lemma non_integer_token_raises_witness :
  PyStr.split " " "5  9" = ["5"; ""; "9"] /\ PyStr.int "" = None /\
  exists e,
    (make_batch 0 int64_array sample_storage
       (instance_of blank_df blank_df 1 None) [0]).1
    = Err e.
Proof.
  do 2 (split; [reflexivity|]).
  apply (non_integer_token_raises 0 int64_array sample_storage
           (instance_of blank_df blank_df 1 None) [0] 0%nat 0
           {| frame_num := 3; input_path := "/data/sw1_a.npy";
              transcript := "5  9" |}
           {| frame_num := 3; input_path := "/data/sw1_a.npy";
              transcript := "5  9" |} "");
    [reflexivity..| |reflexivity].
  left. simpl. right. by left.
Defined.

Lemma zero_skip_raises_witness :
  num_skip (instance_of sample_df sample_df_sub 0 (Some 2)) = 0 /\
  make_batch 0 int64_array sample_storage
    (instance_of sample_df sample_df_sub 0 (Some 2)) [0]
  = (Err ZeroDivisionError, instance_of sample_df sample_df_sub 0 (Some 2)).
Proof.
  split; [reflexivity|].
  eapply (proj2 (zero_skip_raises 0 int64_array sample_storage
                   (instance_of sample_df sample_df_sub 0 (Some 2)) [0]
                   eq_refl));
    [reflexivity | done | reflexivity | reflexivity].
Defined.

Section Contents.

Context {sample : Type} (zero : sample).
Context {pad cell : Type} (arr : LabelArray pad cell).
Variable st : Storage sample.



(** [inputs_seq_len[i]] is the number of frames the utterance has after
    [stack_frame] (lines 110-117): the ceiling of its frame count over
    [num_skip], by what the specification says of [stack_frame]. *)
Theorem inputs_seq_len_counts_stacked_frames (self self' : Self pad)
  (data_indices : list Z) (b : Batch sample cell) (i : nat) (k : Z) (r : Row)
  (raw : ndarray sample) :
  make_batch zero arr st self data_indices = (Ok b, self') ->
  data_indices !! i = Some k -> loc (df self) k = Ok r ->
  load_features st (save_format self) (Ok (input_path r)) = Ok raw ->
  inputs_seq_len b !! i
  = Some (Z.of_nat
            (List.length
               (frames (stack_frame zero raw (num_stack self)
                          (num_skip self))))) /\
  (0 < num_skip self ->
   inputs_seq_len b !! i
   = Some (ceil_div (Z.of_nat (List.length (frames raw))) (num_skip self))).
Proof.
  intros H Hk Hr Hraw.
  destruct (make_batch_loaded zero arr st _ _ _ _ _ _ _ H Hk Hr)
    as (raw' & Hraw' & t & _ & _ & _ & _ & Hlen).
  assert (raw' = raw) as -> by congruence.
  split; [exact Hlen|]. intros Hskip.
  rewrite Hlen, stack_frame_length. f_equal.
  pose proof (ceil_div_spec (Z.of_nat (List.length (frames raw)))
                (num_skip self) Hskip).
  nia.
Qed.


End Contents.


Lemma inputs_seq_len_counts_stacked_frames_witness :
  let self := sample_self false "hierarchical_attention" "numpy" 1 in
  make_batch 0 int64_array sample_storage self [0; 1]
  = (Ok attention_batch, with_input_size self 2) /\
  inputs_seq_len attention_batch !! 0%nat = Some (ceil_div 3 1).
Proof.
  split; [reflexivity|].
  refine (proj2 (inputs_seq_len_counts_stacked_frames 0 int64_array sample_storage
            (sample_self false "hierarchical_attention" "numpy" 1)
            (with_input_size
               (sample_self false "hierarchical_attention" "numpy" 1) 2)
            [0; 1] attention_batch 0%nat 0
            {| frame_num := 3; input_path := "/data/sw1_a.npy";
               transcript := "5 9 2" |}
            (feat [[1; 2]; [3; 4]; [5; 6]])
            eq_refl eq_refl eq_refl eq_refl) _).
  simpl. lia.
Defined.

(** *** Display names *)

Import PyStrChars.

Lemma split_pieces_lack_sep (sep : ascii) (s w : string) :
  w ∈ PyStr.split sep s -> has_char sep w = false.
Proof.
  revert w. induction s as [|a s IH]; intros w; simpl.
  - by intros ->%list_elem_of_singleton.
  - destruct (Ascii.eqb a sep) eqn:Ha.
    + intros [->|Hw]%elem_of_cons; [done | by apply IH].
    + destruct (PyStr.split sep s) as [|w0 ws] eqn:Hs.
      * intros ->%list_elem_of_singleton. simpl. by rewrite Ha.
      * intros [->|Hw]%elem_of_cons.
        -- simpl. rewrite Ha. apply IH. by left.
        -- apply IH. by right.
Qed.

Lemma split_pieces_chars (sep c : ascii) (s w : string) :
  w ∈ PyStr.split sep s -> has_char c w = true -> has_char c s = true.
Proof.
  revert w. induction s as [|a s IH]; intros w; simpl.
  - by intros ->%list_elem_of_singleton.
  - destruct (Ascii.eqb a sep) eqn:Ha.
    + intros [->|Hw]%elem_of_cons; [done|].
      intros Hc. rewrite (IH w Hw Hc). apply orb_true_r.
    + destruct (PyStr.split sep s) as [|w0 ws] eqn:Hs.
      * intros ->%list_elem_of_singleton. simpl.
        destruct (Ascii.eqb a c); [done|]. done.
      * intros [->|Hw]%elem_of_cons; simpl.
        -- destruct (Ascii.eqb a c); [done|]. simpl.
           apply IH. by left.
        -- intros Hc. rewrite (IH w (list_elem_of_further _ _ _ Hw) Hc).
           apply orb_true_r.
Qed.

Lemma last_elem_of {X : Type} (l : list X) (d : X) :
  l <> [] -> List.last l d ∈ l.
Proof.
  induction l as [|x [|y l] IH]; [done| |]; intros _.
  - by left.
  - right. by apply IH.
Qed.

Lemma basename_no_slash (p : string) :
  has_char "/" (PyStr.basename p) = false.
Proof.
  apply (split_pieces_lack_sep "/" p). apply last_elem_of, split_nonempty.
Qed.

(** The display name of a path has neither a slash nor a dot. *)
Lemma stem_basename_plain (p : string) :
  has_char "/" (PyStr.stem (PyStr.basename p)) = false /\
  has_char "." (PyStr.stem (PyStr.basename p)) = false.
Proof.
  assert (PyStr.stem (PyStr.basename p)
          ∈ PyStr.split "." (PyStr.basename p)) as Hin.
  { unfold PyStr.stem.
    pose proof (split_nonempty "." (PyStr.basename p)) as Hne.
    destruct (PyStr.split "." (PyStr.basename p)); [done | by left]. }
  split; [|by apply (split_pieces_lack_sep "." _ _ Hin)].
  destruct (has_char "/" (PyStr.stem (PyStr.basename p))) eqn:Hslash; [|done].
  rewrite <- (basename_no_slash p).
  symmetry. by apply (split_pieces_chars "." "/" _ _ Hin).
Qed.

Section Names.

Context {sample : Type} (zero : sample).
Context {pad cell : Type} (arr : LabelArray pad cell).
Variable st : Storage sample.

Lemma for_each_names
  (body : nat -> Batch sample cell -> result (Batch sample cell))
  (k n : nat) (b b' : Batch sample cell) :
  (forall i s s', body i s = Ok s' -> input_names s' = input_names s) ->
  for_each body (seq k n) b = Ok b' -> input_names b' = input_names b.
Proof.
  intros Hbody. revert k b. induction n as [|n IH]; intros k b H; simpl in H.
  - by injection H as <-.
  - inv_bind H as b1 Hb1. rewrite (IH _ _ H). by apply (Hbody k).
Qed.

(** [input_names] lists, in the order of [data_indices], the file name of
    each utterance's [input_path] cut at its first dot (lines 95-97);
    such a name contains no slash and no dot. *)
Theorem input_names_are_file_stems (self self' : Self pad)
  (data_indices : list Z) (b : Batch sample cell) :
  make_batch zero arr st self data_indices = (Ok b, self') ->
  List.length (input_names b) = List.length data_indices /\
  forall i k r,
    data_indices !! i = Some k -> loc (df self) k = Ok r ->
    input_names b !! i = Some (PyStr.stem (PyStr.basename (input_path r))) /\
    has_char "/" (PyStr.stem (PyStr.basename (input_path r))) = false /\
    has_char "." (PyStr.stem (PyStr.basename (input_path r))) = false.
Proof.
  intros H.
  destruct (make_batch_steps zero arr st _ _ _ _ H)
    as (rows & rows_sub & b0 & Hrows & Hrows_sub & Hsize & Hb0 & Hloop).
  apply allocate_Ok in Hb0
    as (? & ? & ? & ? & ? & _ & _ & _ & _ & _ & _ & _ & ->).
  apply for_each_names in Hloop; cycle 1.
  { intros i s s' Hbody.
    by apply loop_body_inputs in Hbody as (_ & _ & _ & _ & ->). }
  simpl in Hloop. rewrite Hloop. split.
  - rewrite length_fmap. apply (map_result_length _ _ _ Hrows).
  - intros i k r Hk Hr.
    destruct (loc_all_lookup _ _ _ _ _ Hrows Hk) as (r' & Hi & Hr').
    assert (r' = r) as -> by congruence.
    split; [by rewrite list_lookup_fmap, Hi|]. apply stem_basename_plain.
Qed.

End Names.

Lemma input_names_are_file_stems_witness :
  let self := sample_self false "hierarchical_attention" "numpy" 1 in
  make_batch 0 int64_array sample_storage self [0; 1]
  = (Ok attention_batch, with_input_size self 2) /\
  List.length (input_names attention_batch) = 2%nat.
Proof.
  split; [reflexivity|].
  exact (proj1 (input_names_are_file_stems 0 int64_array sample_storage
                  (sample_self false "hierarchical_attention" "numpy" 1)
                  (with_input_size
                     (sample_self false "hierarchical_attention" "numpy" 1) 2)
                  [0; 1] attention_batch eq_refl)).
Defined.

(** *** When a batch is returned *)

Lemma for_each_Ok {S : Type} (inv : S -> Prop)
  (body : nat -> S -> result S) (k n : nat) (s : S) :
  (forall i s, (k <= i < k + n)%nat -> inv s ->
               exists s', body i s = Ok s' /\ inv s') ->
  inv s -> exists s', for_each body (seq k n) s = Ok s' /\ inv s'.
Proof.
  revert k s. induction n as [|n IH]; intros k s Hbody Hs; simpl.
  - by exists s.
  - destruct (Hbody k s) as (s1 & -> & Hs1); [lia | done |]. simpl.
    apply IH; [|done]. intros i s2 Hi. apply Hbody. lia.
Qed.

Lemma ceil_div_mono (a a' b : Z) :
  0 < b -> a <= a' -> ceil_div a b <= ceil_div a' b.
Proof.
  intros Hb Hle.
  pose proof (ceil_div_spec a b Hb). pose proof (ceil_div_spec a' b Hb). nia.
Qed.

Lemma ceil_div_nonneg (a b : Z) : 0 < b -> 0 <= a -> 0 <= ceil_div a b.
Proof. intros Hb Ha. pose proof (ceil_div_spec a b Hb). nia. Qed.

Lemma ceil_div_le_self (a b : Z) : 0 <= a -> 1 <= b -> ceil_div a b <= a.
Proof. intros Ha Hb. pose proof (ceil_div_spec a b ltac:(lia)). nia. Qed.

Section Returns.

Context {sample : Type} (zero : sample).
Context {pad cell : Type} (arr : LabelArray pad cell).
Variable st : Storage sample.

(** Lines 130-132 and whatever follows them, for markers and indices that
    the array can store. *)
Lemma bind_put_attention {X : Type} (p : pad) (m : list (list cell))
  (i : nat) (sos eos : Z) (toks : list Z) (row cs : list cell)
  (c_sos c_eos : cell) (K : list (list cell) -> result X) :
  m !! i = Some row -> (List.length toks + 2 <= List.length row)%nat ->
  map_result (store_int arr p) toks = Ok cs ->
  store_int arr p sos = Ok c_sos -> store_int arr p eos = Ok c_eos ->
  (do m1 <- put_int arr p m i 0 sos;
   do m2 <- put_ints arr p m1 i 1 (List.length toks + 1) toks;
   do m3 <- put_int arr p m2 i (List.length toks + 1) eos;
   K m3)
  = K (<[i := written_row true c_sos c_eos cs row]> m).
Proof.
  intros Hrow Hle Hcs Hsos Heos.
  pose proof (map_result_length _ _ _ Hcs) as Hlen.
  pose proof (write_attention m i c_sos c_eos cs row Hrow ltac:(lia)) as Hw.
  rewrite Hlen in Hw.
  destruct (set_item2 m i 0 c_sos) as [m1|] eqn:H1; simpl in Hw; [|done].
  destruct (set_slice2 m1 i 1 (List.length toks + 1) cs) as [m2|] eqn:H2;
    simpl in Hw; [|done].
  rewrite (proj2 (put_int_Ok arr p m m1 i 0 sos)) by eauto.
  cbn [bind].
  rewrite (proj2 (put_ints_Ok arr p m1 m2 i 1 _ toks)) by eauto.
  cbn [bind].
  rewrite (proj2 (put_int_Ok arr p m2 _ i _ eos)) by eauto.
  done.
Qed.

(** Line 141, for indices that the array can store. *)
Lemma put_ctc_returns (p : pad) (m : list (list cell)) (i : nat)
  (toks : list Z) (row cs : list cell) :
  m !! i = Some row -> (List.length toks <= List.length row)%nat ->
  map_result (store_int arr p) toks = Ok cs ->
  put_ints arr p m i 0 (List.length toks) toks
  = Ok (<[i := written_row false (np_fill arr p) (np_fill arr p) cs row]> m).
Proof.
  intros Hrow Hle Hcs.
  pose proof (map_result_length _ _ _ Hcs) as Hlen.
  apply put_ints_Ok. exists cs. split; [done|].
  rewrite <- Hlen. apply write_ctc; [done | lia].
Qed.

Lemma assign_frames_fits (t : tensor3 sample) (i frame_num : nat)
  (data : ndarray sample) old :
  cells t !! i = Some old ->
  frame_num = List.length (frames data) ->
  (frame_num <= dim1 t)%nat -> ncols data = dim2 t ->
  exists t', assign_frames zero t i frame_num data = Ok t'.
Proof.
  intros Hold -> Hfr Hcols. unfold assign_frames. rewrite Hold.
  cbn [of_option bind].
  replace (Nat.min (List.length (frames data)) (dim1 t))
    with (List.length (frames data)) by lia.
  rewrite Hcols. unfold fits. rewrite !Nat.eqb_refl. by eexists.
Qed.

Lemma in_int32_of_nat (n : nat) (k : Z) :
  0 <= k -> Z.of_nat n + k < 2 ^ 31 -> in_int32 (Z.of_nat n + k) = true.
Proof.
  intros Hk Hn. unfold in_int32. apply andb_true_intro. split.
  - apply Z.leb_le. lia.
  - by apply Z.ltb_lt.
Qed.

(** The training branch succeeds when both transcripts parse, the rows
    have room for them and the arrays can store them. *)
Lemma encode_labels_Ok (self : Self pad) (i : nat) (s s_sub : string)
  (b : Batch sample cell) toks toks_sub row row_sub (att : bool) :
  parse_indices s = Ok toks -> parse_indices s_sub = Ok toks_sub ->
  labels b !! i = Some row -> labels_sub b !! i = Some row_sub ->
  (List.length toks + 2 <= List.length row)%nat ->
  (List.length toks_sub + 2 <= List.length row_sub)%nat ->
  (i < List.length (labels_seq_len b))%nat ->
  (i < List.length (labels_seq_len_sub b))%nat ->
  model_type self
  = (if att then "hierarchical_attention" else "hierarchical_ctc") ->
  storable arr att (pad_value self) (sos_index self) (eos_index self) toks ->
  storable arr att (pad_value_sub self) (sos_index_sub self)
    (eos_index_sub self) toks_sub ->
  exists b', encode_labels arr self i s s_sub b = Ok b'.
Proof.
  intros Htoks Htoks_sub Hrow Hrow_sub Hroom Hroom_sub Hi Hi_sub Hmodel
    ([cs Hcs] & Hlen & Hmark) ([cs_sub Hcs_sub] & Hlen_sub & Hmark_sub).
  unfold written_len in Hlen, Hlen_sub.
  unfold encode_labels. rewrite Htoks, Htoks_sub. cbn [bind]. cbv zeta.
  assert (forall (v : list Z) (n : nat) (k : Z),
            (i < List.length v)%nat -> 0 <= k ->
            Z.of_nat n + k < 2 ^ 31 ->
            set_item_int32 v i (Z.of_nat n + k)
            = Ok (<[i := Z.of_nat n + k]> v)) as Hset.
  { intros v n k Hv Hk Hn. apply set_item_int32_Ok.
    split; [done|]. split; [|done]. by apply in_int32_of_nat. }
  rewrite Hmodel. destruct att; simpl String.eqb; cbv iota.
  - destruct (Hmark eq_refl) as [[c_sos Hsos] [c_eos Heos]].
    destruct (Hmark_sub eq_refl) as [[c_sos' Hsos'] [c_eos' Heos']].
    rewrite (bind_put_attention (pad_value self) (labels b) i _ _ toks row
               cs c_sos c_eos) by done.
    rewrite (Hset _ _ 2 Hi) by lia. cbn [bind labels_sub set_labels].
    rewrite (bind_put_attention (pad_value_sub self) (labels_sub b) i _ _
               toks_sub row_sub cs_sub c_sos' c_eos') by done.
    rewrite (Hset _ _ 2) by (simpl; lia). cbn [bind]. by eexists.
  - rewrite (put_ctc_returns (pad_value self) (labels b) i toks row cs)
      by (done || lia).
    cbn [bind].
    rewrite <- (Z.add_0_r (Z.of_nat (List.length toks))).
    rewrite (Hset _ _ 0 Hi) by lia. cbn [bind labels_sub set_labels].
    rewrite (put_ctc_returns (pad_value_sub self) (labels_sub b) i toks_sub
               row_sub cs_sub) by (done || lia).
    cbn [bind].
    rewrite <- (Z.add_0_r (Z.of_nat (List.length toks_sub))).
    rewrite (Hset _ _ 0) by (simpl; lia). cbn [bind]. by eexists.
Qed.

(** A turn of the loop on a training table succeeds when the file loads,
    its transformed features fit the allocated block, the transcripts
    parse and the arrays can store what the turn writes. *)
Lemma loop_body_Ok (self : Self pad) (data_indices : list Z)
  (paths strs strs_sub : list string) (B T W L Lsub : nat) (i : nat)
  (b : Batch sample cell) p raw s s_sub toks toks_sub (att : bool) :
  shaped B T W L Lsub b -> (i < B)%nat ->
  paths !! i = Some p ->
  load_features st (save_format self) (Ok p) = Ok raw ->
  let stacked := stack_frame zero raw (num_stack self) (num_skip self) in
  let data := do_splice stacked (splice self) (num_stack self) in
  (List.length (frames stacked) <= T)%nat -> ncols data = W ->
  Z.of_nat (List.length (frames stacked)) < 2 ^ 31 ->
  is_test self = false ->
  strs !! i = Some s -> strs_sub !! i = Some s_sub ->
  parse_indices s = Ok toks -> parse_indices s_sub = Ok toks_sub ->
  (List.length toks + 2 <= L)%nat -> (List.length toks_sub + 2 <= Lsub)%nat ->
  model_type self
  = (if att then "hierarchical_attention" else "hierarchical_ctc") ->
  storable arr att (pad_value self) (sos_index self) (eos_index self) toks ->
  storable arr att (pad_value_sub self) (sos_index_sub self)
    (eos_index_sub self) toks_sub ->
  exists b',
    loop_body zero arr st self data_indices paths strs strs_sub i b = Ok b'.
Proof.
  intros Hshape Hi Hp Hraw stacked data Hfr Hcols Hint Htest Hs Hs_sub Htoks
    Htoks_sub Hroom Hroom_sub Hmodel Hstore Hstore_sub.
  destruct Hshape as [H1 H2 H3 H4 H5 H6 H7 H8 H9 H10 H11].
  destruct (lookup_lt_is_Some_2 (cells (inputs b)) i) as [old Hold]; [lia|].
  destruct (assign_frames_fits (inputs b) i (List.length (frames stacked))
              data old Hold) as [x Hx].
  { unfold data. by rewrite do_splice_length. }
  { lia. }
  { by rewrite H2. }
  destruct (lookup_lt_is_Some_2 (labels b) i) as [row Hrow]; [lia|].
  destruct (lookup_lt_is_Some_2 (labels_sub b) i) as [row_sub Hrow_sub];
    [lia|].
  pose proof (Forall_lookup_1 _ _ _ _ H6 Hrow) as Hrow_len.
  pose proof (Forall_lookup_1 _ _ _ _ H8 Hrow_sub) as Hrow_sub_len.
  simpl in Hrow_len, Hrow_sub_len.
  destruct (encode_labels_Ok self i s s_sub
              (set_inputs b x
                 (<[i := Z.of_nat (List.length (frames stacked))]>
                    (inputs_seq_len b)))
              toks toks_sub row row_sub att) as [b' Hb'];
    [done | done | exact Hrow | exact Hrow_sub | lia | lia
    | simpl; lia | simpl; lia | done | done | done |].
  exists b'. unfold loop_body. rewrite Hp. cbn [of_option].
  rewrite Hraw. cbn [bind]. fold stacked. fold data.
  rewrite Hx. cbn [bind].
  rewrite (proj2 (set_item_int32_Ok (inputs_seq_len b)
                    (<[i := Z.of_nat (List.length (frames stacked))]>
                       (inputs_seq_len b))
                    i (Z.of_nat (List.length (frames stacked))))); cycle 1.
  { split; [lia|]. split; [|done].
    rewrite <- (Z.add_0_r (Z.of_nat _)). apply in_int32_of_nat; lia. }
  cbn [bind]. rewrite Htest, Hs, Hs_sub. cbn [bind of_option]. exact Hb'.
Qed.

End Returns.

Lemma py_max_total (xs : list Z) :
  xs <> [] -> exists m, py_max xs = Ok m /\ is_max m xs.
Proof.
  destruct xs as [|x xs]; [done|]. intros _.
  exists (foldl Z.max x xs). split; [done|]. apply foldl_max_spec.
Qed.

Lemma extent_max (x : Z) : 0 <= x -> (if x =? 0 then 1 else x) = Z.max 1 x.
Proof. intros Hx. destruct (Z.eqb_spec x 0); lia. Qed.

Section ReturnsBatch.

Context {sample : Type} (zero : sample).
Context {pad cell : Type} (arr : LabelArray pad cell).
Variable st : Storage sample.

(** Lines 73-97 succeed on a non-empty subset, with a [num_skip] and
    frame counts that a double holds exactly, and extents that make an
    array of fewer than [2 ^ 63] bytes. *)
Lemma allocate_returns (self : Self pad) (data_indices : list Z)
  (rows rows_sub : list Row) (size : Z) :
  input_size self = Some size ->
  rows <> [] -> rows_sub <> [] ->
  Forall (fun r =>
            0 <= frame_num r < 2 ^ 53 /\
            4 * Z.max 1 (Z.of_nat (List.length data_indices))
            * Z.max 1 (frame_num r) * Z.max 1 (size * splice self)
            < 2 ^ 63) rows ->
  1 <= num_skip self < 2 ^ 53 -> 0 <= size * splice self ->
  exists b0 max_fn longest longest_sub,
    allocate zero arr self data_indices rows rows_sub = Ok b0 /\
    is_max max_fn (frame_num <$> rows) /\
    is_max longest ((fun r => Z.of_nat (token_count (transcript r))) <$> rows) /\
    is_max longest_sub
      ((fun r => Z.of_nat (token_count (transcript r))) <$> rows_sub) /\
    shaped (List.length data_indices)
      (Z.to_nat (ceil_div max_fn (num_skip self)))
      (Z.to_nat (size * splice self))
      (Z.to_nat (longest + 2)) (Z.to_nat (longest_sub + 2)) b0.
Proof.
  intros Hsize Hrows Hsub Hfn Hskip HW.
  destruct (py_max_total (frame_num <$> rows)) as (max_fn & Hmax & Hismax).
  { by destruct rows. }
  destruct (py_max_total
              ((fun r => Z.of_nat (token_count (transcript r))) <$> rows))
    as (longest & Hlong & Hislong).
  { by destruct rows. }
  destruct (py_max_total
              ((fun r => Z.of_nat (token_count (transcript r))) <$> rows_sub))
    as (longest_sub & Hlong_sub & Hislong_sub).
  { by destruct rows_sub. }
  assert (0 <= max_fn < 2 ^ 53 /\
          4 * Z.max 1 (Z.of_nat (List.length data_indices))
          * Z.max 1 max_fn * Z.max 1 (size * splice self) < 2 ^ 63)
    as [Hmax_fn Hbytes].
  { destruct Hismax as [Hin _].
    apply list_elem_of_fmap in Hin as (r & -> & Hr).
    rewrite Forall_forall in Hfn. exact (Hfn r Hr). }
  pose proof (ceil_div_nonneg max_fn (num_skip self) ltac:(lia) ltac:(lia))
    as HT.
  pose proof (ceil_div_le_self max_fn (num_skip self) ltac:(lia) ltac:(lia))
    as HT'.
  eexists _, max_fn, longest, longest_sub.
  split; [|do 3 (split; [done|]); apply allocate_shaped].
  unfold allocate. rewrite Hsize. cbn [of_option bind].
  rewrite Hmax. cbn [bind].
  rewrite py_ceil_div_exact by lia. cbn [bind].
  rewrite Hlong. cbn [bind]. rewrite Hlong_sub. cbn [bind].
  unfold np_zeros3. cbv zeta.
  destruct (Z.ltb_spec (ceil_div max_fn (num_skip self)) 0); [lia|].
  destruct (Z.ltb_spec (size * splice self) 0); [lia|].
  rewrite !extent_max by lia.
  destruct (Z.leb_spec (2 ^ 63)
              (4 * Z.max 1 (Z.of_nat (List.length data_indices))
               * Z.max 1 (ceil_div max_fn (num_skip self))
               * Z.max 1 (size * splice self))) as [Hbig|_].
  { assert (4 * Z.max 1 (Z.of_nat (List.length data_indices))
            * Z.max 1 (ceil_div max_fn (num_skip self))
            * Z.max 1 (size * splice self)
            <= 4 * Z.max 1 (Z.of_nat (List.length data_indices))
               * Z.max 1 max_fn * Z.max 1 (size * splice self)).
    { apply Z.mul_le_mono_nonneg_r; [lia|].
      apply Z.mul_le_mono_nonneg_l; lia. }
    lia. }
  cbn [orb bind]. reflexivity.
Qed.

(** A batch is returned.  On an instance without [input_size], with
    [splice = 1], a positive [num_stack] and a [num_skip] from 1 to
    [2 ^ 53 - 1], for a non-empty subset found in both tables of a training
    table whose files all load with one common width and no more frames
    than the manifest says, with frame counts below [2 ^ 31] and input
    extents that make an array of fewer than [2 ^ 63] bytes, and whose
    transcripts all parse to indices that the label arrays can store,
    [make_batch] returns a batch and sets [input_size] to that width times
    [num_stack] times [splice]. *)
Theorem make_batch_returns (self : Self pad) (data_indices : list Z)
  (rows rows_sub : list Row) (files : list (ndarray sample)) (w : nat) :
  data_indices <> [] ->
  loc_all (df self) data_indices = Ok rows ->
  loc_all (df_sub self) data_indices = Ok rows_sub ->
  Forall2 (fun r a =>
             load_features st (save_format self) (Ok (input_path r)) = Ok a /\
             ncols a = w /\
             Z.of_nat (List.length (frames a)) <= frame_num r < 2 ^ 31 /\
             4 * Z.of_nat (List.length data_indices)
             * Z.max 1 (frame_num r)
             * Z.max 1 (Z.of_nat w * num_stack self) < 2 ^ 63) rows files ->
  input_size self = None ->
  splice self = 1 -> 1 <= num_stack self -> 1 <= num_skip self < 2 ^ 53 ->
  is_test self = false ->
  model_type self = "hierarchical_attention" \/
  model_type self = "hierarchical_ctc" ->
  let att := String.eqb (model_type self) "hierarchical_attention" in
  Forall (fun r =>
            exists toks,
              parse_indices (transcript r) = Ok toks /\
              storable arr att (pad_value self) (sos_index self)
                (eos_index self) toks) rows ->
  Forall (fun r =>
            exists toks,
              parse_indices (transcript r) = Ok toks /\
              storable arr att (pad_value_sub self) (sos_index_sub self)
                (eos_index_sub self) toks) rows_sub ->
  exists b,
    make_batch zero arr st self data_indices
    = (Ok b, with_input_size self
               (Z.of_nat w * num_stack self * splice self)).
Proof.
  intros Hne Hrows Hrows_sub Hfiles Hnone Hsplice Hstack Hskip Htest Hmodel
    att Hparse Hparse_sub.
  assert (model_type self
          = (if att then "hierarchical_attention" else "hierarchical_ctc"))
    as Hatt.
  { unfold att. by destruct Hmodel as [-> | ->]. }
  clearbody att.
  pose proof (map_result_length _ _ _ Hrows) as Hlen.
  pose proof (map_result_length _ _ _ Hrows_sub) as Hlen_sub.
  destruct rows as [|r0 rows'] eqn:Erows.
  { destruct data_indices; [done | simpl in Hlen; lia]. }
  destruct files as [|a0 files']; [by inversion Hfiles|].
  pose proof Hfiles as Hfiles0.
  apply Forall2_cons in Hfiles0 as [(Hload0 & Hw0 & Hfn0 & _) _].
  rewrite <- Erows in *.
  set (self1 := with_input_size self
                  (Z.of_nat w * num_stack self * splice self)).
  assert (ensure_input_size st self (input_path <$> rows) = Ok self1) as Hens.
  { unfold ensure_input_size. rewrite Hnone, Erows. simpl.
    rewrite Hload0. simpl. by rewrite Hw0. }
  unfold make_batch. rewrite Hrows, Hrows_sub, Hens.
  destruct (allocate_returns self1 data_indices rows rows_sub
              (Z.of_nat w * num_stack self * splice self))
    as (b0 & max_fn & longest & longest_sub & Hb0 & Hmax & Hlong & Hlong_sub
        & Hshape0).
  { done. }
  { by rewrite Erows. }
  { intros ->. destruct data_indices; [done | simpl in Hlen_sub; lia]. }
  { rewrite Forall_forall. intros r Hr.
    apply list_elem_of_lookup in Hr as [i Hr].
    destruct (Forall2_lookup_l _ _ _ _ _ Hfiles Hr)
      as (a & _ & _ & _ & Hfn & Hbytes).
    split; [lia|].
    change (splice self1) with (splice self). rewrite Hsplice.
    rewrite !Z.mul_1_r.
    rewrite (Z.max_r 1 (Z.of_nat (List.length data_indices))); [done|].
    destruct data_indices; [done | simpl; lia]. }
  { done. }
  { change (splice self1) with (splice self). nia. }
  simpl in Hshape0.
  set (T := Z.to_nat (ceil_div max_fn (num_skip self))) in *.
  set (W := Z.to_nat (Z.of_nat w * num_stack self * splice self
                      * splice self)) in *.
  set (L := Z.to_nat (longest + 2)) in *.
  set (Lsub := Z.to_nat (longest_sub + 2)) in *.
  unfold build_batch. rewrite Hb0. cbn [bind].
  destruct (for_each_Ok (shaped (List.length data_indices) T W L Lsub)
              (loop_body zero arr st self1 data_indices (input_path <$> rows)
                 (transcript <$> rows) (transcript <$> rows_sub))
              0 (List.length data_indices) b0) as (b & Hb & _);
    [|done|by exists b; rewrite Hb].
  intros i s Hi Hs.
  destruct (lookup_lt_is_Some_2 rows i) as [r Hr]; [lia|].
  destruct (lookup_lt_is_Some_2 rows_sub i) as [r_sub Hr_sub]; [lia|].
  destruct (Forall2_lookup_l _ _ _ _ _ Hfiles Hr)
    as (a & Ha & Hload & Hw & Hfn & _).
  destruct (Forall_lookup_1 _ _ _ _ Hparse Hr) as (toks & Htoks & Hstore).
  destruct (Forall_lookup_1 _ _ _ _ Hparse_sub Hr_sub)
    as (toks_sub & Htoks_sub & Hstore_sub).
  assert (r ∈ rows) as Hin by (by eapply list_elem_of_lookup_2).
  assert (frame_num r <= max_fn) as Hle_max.
  { destruct Hmax as [_ Hall]. rewrite Forall_fmap, Forall_forall in Hall.
    exact (Hall r Hin). }
  pose proof (ceil_div_nonneg (Z.of_nat (List.length (frames a)))
                (num_skip self) ltac:(lia) ltac:(lia)) as Hceil0.
  pose proof (ceil_div_le_self (Z.of_nat (List.length (frames a)))
                (num_skip self) ltac:(lia) ltac:(lia)) as Hceil1.
  assert (List.length
            (frames (stack_frame zero a (num_stack self1) (num_skip self1)))
          <= T)%nat as Hfit.
  { change (num_skip self1) with (num_skip self).
    apply Nat2Z.inj_le. rewrite stack_frame_length. unfold T.
    rewrite Z2Nat.id by (apply ceil_div_nonneg; lia).
    pose proof (ceil_div_mono (Z.of_nat (List.length (frames a))) max_fn
                  (num_skip self) ltac:(lia) ltac:(lia)).
    lia. }
  assert (Z.of_nat
            (List.length
               (frames (stack_frame zero a (num_stack self1)
                          (num_skip self1)))) < 2 ^ 31) as Hint.
  { change (num_skip self1) with (num_skip self).
    rewrite stack_frame_length. lia. }
  assert (ncols (do_splice
                   (stack_frame zero a (num_stack self1) (num_skip self1))
                   (splice self1) (num_stack self1)) = W) as Hwidth.
  { rewrite do_splice_ncols, stack_frame_ncols.
    change (splice self1) with (splice self).
    change (num_stack self1) with (num_stack self).
    unfold W. rewrite Hw, Hsplice.
    rewrite !Z2Nat.inj_mul by lia. rewrite Nat2Z.id.
    change (Z.to_nat 1) with 1%nat. lia. }
  assert (List.length toks + 2 <= L)%nat as Hroom.
  { rewrite (parse_indices_length _ _ Htoks).
    apply (is_max_room longest rows i); [done|].
    by rewrite list_lookup_fmap, Hr. }
  assert (List.length toks_sub + 2 <= Lsub)%nat as Hroom_sub.
  { rewrite (parse_indices_length _ _ Htoks_sub).
    apply (is_max_room longest_sub rows_sub i); [done|].
    by rewrite list_lookup_fmap, Hr_sub. }
  destruct (loop_body_Ok zero arr st self1 data_indices (input_path <$> rows)
              (transcript <$> rows) (transcript <$> rows_sub)
              (List.length data_indices) T W L Lsub i s (input_path r) a
              (transcript r) (transcript r_sub) toks toks_sub att Hs)
    as [s' Hs'];
    [lia | by rewrite list_lookup_fmap, Hr | exact Hload | exact Hfit
    | exact Hwidth | exact Hint | exact Htest
    | by rewrite list_lookup_fmap, Hr
    | by rewrite list_lookup_fmap, Hr_sub | done | done | done | done
    | exact Hatt | exact Hstore | exact Hstore_sub |].
  exists s'. split; [done|].
  eapply (loop_body_shaped zero arr st self1 data_indices); [| |done|done].
  - intros j t. apply (is_max_room longest rows j t Hlong).
  - intros j t. apply (is_max_room longest_sub rows_sub j t Hlong_sub).
Qed.

End ReturnsBatch.

Lemma make_batch_returns_witness :
  exists b,
    make_batch 0 int64_array sample_storage
      (sample_self false "hierarchical_attention" "numpy" 1) [0; 1]
    = (Ok b, with_input_size
               (sample_self false "hierarchical_attention" "numpy" 1) 2).
Proof.
  apply (make_batch_returns 0 int64_array sample_storage
           (sample_self false "hierarchical_attention" "numpy" 1) [0; 1]
           [ {| frame_num := 3; input_path := "/data/sw1_a.npy";
                transcript := "5 9 2" |};
             {| frame_num := 1; input_path := "/data/sw2_b.npy";
                transcript := "7" |} ]
           [ {| frame_num := 3; input_path := "/data/sw1_a.npy";
                transcript := "11 12 13 14" |};
             {| frame_num := 1; input_path := "/data/sw2_b.npy";
                transcript := "15 16" |} ]
           [ feat [[1; 2]; [3; 4]; [5; 6]]; feat [[7; 8]] ] 2%nat).
  - discriminate.
  - reflexivity.
  - reflexivity.
  - repeat constructor; simpl; lia.
  - reflexivity.
  - reflexivity.
  - simpl; lia.
  - simpl; lia.
  - reflexivity.
  - by left.
  - repeat constructor; eexists; (split; [vm_compute; reflexivity|]);
      (split; [by eexists|]); (split; [reflexivity|]);
      intros _; split; by eexists.
  - repeat constructor; eexists; (split; [vm_compute; reflexivity|]);
      (split; [by eexists|]); (split; [reflexivity|]);
      intros _; split; by eexists.
Defined.

End LoaderHierarchicalEdges.

(** ** The corpus index: labels, bookkeeping and sizes *)

Module LoadDatasetEdges.

Import LoadDataset LoadDatasetFacts.
Local Open Scope string_scope.
Local Open Scope Z_scope.

Lemma read_csv_labels (csv : list Row) :
  (read_csv csv).*1 = Z.of_nat <$> seq 0 (List.length csv).
Proof.
  unfold read_csv. rewrite fmap_imap.
  apply (imap_seq_0 csv Z.of_nat).
Qed.

Lemma read_csv_NoDup (csv : list Row) : NoDup (read_csv csv).*1.
Proof.
  rewrite read_csv_labels. apply NoDup_fmap_2; [apply _ | apply NoDup_seq].
Qed.

Lemma read_csv_elem_of (csv : list Row) (k : Z) (r : Row) :
  (k, r) ∈ read_csv csv -> 0 <= k /\ csv !! Z.to_nat k = Some r.
Proof.
  unfold read_csv. intros (i & r' & Heq & Hi)%elem_of_lookup_imap.
  injection Heq as -> ->. split; [lia|]. by rewrite Nat2Z.id.
Qed.

Lemma filter_sublist {X : Type} (f : X -> bool) (l : list X) :
  List.filter f l `sublist_of` l.
Proof.
  induction l as [|x l IH]; simpl; [constructor|].
  destruct (f x); by constructor.
Qed.

(** Filtering and truncating only remove rows. *)
Lemma select_rows_sublist (a : Args) (csv : list Row) :
  select_rows a csv `sublist_of` read_csv csv.
Proof.
  unfold select_rows.
  destruct (negb (PyStr.contains "eval" (arg_data_type a))); [|done].
  unfold remove_inappropriate. cbv zeta.
  assert (List.filter keep_ceiling
            (if PyStr.contains "word" (arg_label_type a)
             then List.filter (keep_joint 3) (read_csv csv)
             else List.filter (keep_joint 24) (read_csv csv))
          `sublist_of` read_csv csv) as Hsub.
  { etrans; [apply filter_sublist|].
    destruct (PyStr.contains "word" (arg_label_type a));
      apply filter_sublist. }
  destruct (String.eqb (arg_data_type a) "dev"); [|done].
  etrans; [apply sublist_take | done].
Qed.

Lemma build_df_labels_NoDup sv (a : Args) (csv : list Row) :
  sort_values_spec sv -> NoDup (build_df sv a csv).*1.
Proof.
  intros Hsv. rewrite (build_df_perm sv a csv Hsv).
  eapply sublist_NoDup; [apply read_csv_NoDup|].
  apply fmap_sublist, select_rows_sublist.
Qed.

(** The index is never reset.  Label [k] of the table the instance ends up
    with is line [k] of the manifest (counted from 0) and carries that
    line's fields unchanged, whatever was filtered out and however the
    rows were sorted; no label occurs twice. *)
Theorem labels_are_manifest_lines sv (a : Args) (csv : list Row) :
  sort_values_spec sv ->
  NoDup (df (__init__ sv a csv)).*1 /\
  forall k r, (k, r) ∈ df (__init__ sv a csv) ->
    0 <= k /\ csv !! Z.to_nat k = Some r.
Proof.
  intros Hsv. pose proof (build_df_perm sv a csv Hsv) as Hperm.
  pose proof (select_rows_sublist a csv) as Hsub.
  cbn [df __init__]. split; [by apply build_df_labels_NoDup|].
  intros k r Hin. rewrite Hperm in Hin.
  apply read_csv_elem_of. by eapply elem_of_sublist.
Qed.

Lemma labels_are_manifest_lines_witness :
  sort_values_spec stable_sort /\
  forall k r,
    (k, r) ∈ df (__init__ stable_sort
                   (default_args "train" "word_freq1" true false) small_csv) ->
    0 <= k /\ small_csv !! Z.to_nat k = Some r.
Proof.
  split; [exact stable_sort_spec|].
  exact (proj2 (labels_are_manifest_lines stable_sort
                  (default_args "train" "word_freq1" true false) small_csv
                  stable_sort_spec)).
Defined.

(** [rest] is the set of the table's labels and has one element for each
    of its rows (line 105). *)
Theorem rest_counts_rows sv (a : Args) (csv : list Row) :
  sort_values_spec sv ->
  size (rest (__init__ sv a csv))
  = List.length (df (__init__ sv a csv)) /\
  forall k, k ∈ rest (__init__ sv a csv) <->
            exists r, (k, r) ∈ df (__init__ sv a csv).
Proof.
  intros Hsv.
  pose proof (build_df_labels_NoDup sv a csv Hsv) as Hnodup.
  cbn [rest df __init__]. split.
  - rewrite size_list_to_set by done. by rewrite length_fmap.
  - intros k. rewrite elem_of_list_to_set, list_elem_of_fmap. split.
    + intros ([k' r] & -> & Hin). by exists r.
    + intros (r & Hin). by exists (k, r).
Qed.

Lemma rest_counts_rows_witness :
  sort_values_spec stable_sort /\
  size (rest (__init__ stable_sort
                (default_args "train" "word_freq1" true false) small_csv))
  = 2%nat.
Proof.
  split; [exact stable_sort_spec|].
  exact (proj1 (rest_counts_rows stable_sort
                  (default_args "train" "word_freq1" true false) small_csv
                  stable_sort_spec)).
Defined.

(** The table never has more rows than the manifest, and on "dev" never
    more than 4000. *)
Theorem table_size_bounds sv (a : Args) (csv : list Row) :
  sort_values_spec sv ->
  (List.length (df (__init__ sv a csv)) <= List.length csv)%nat /\
  (arg_data_type a = "dev" ->
   (List.length (df (__init__ sv a csv)) <= 4000)%nat).
Proof.
  intros Hsv. pose proof (build_df_perm sv a csv Hsv) as Hperm.
  cbn [df __init__]. rewrite Hperm. split.
  - etrans; [apply sublist_length, select_rows_sublist|].
    unfold read_csv. by rewrite length_imap.
  - intros Hdev. unfold select_rows, remove_inappropriate.
    rewrite Hdev. rewrite dev_is_not_eval. cbn [negb]. cbv zeta.
    change (String.eqb "dev" "dev") with true. cbv iota.
    rewrite length_take. lia.
Qed.

Lemma table_size_bounds_witness :
  sort_values_spec stable_sort /\
  (List.length (df (__init__ stable_sort
                      (default_args "dev" "word_freq1" true false) long_csv))
   <= 4000)%nat.
Proof.
  split; [exact stable_sort_spec|].
  exact (proj2 (table_size_bounds stable_sort
                  (default_args "dev" "word_freq1" true false) long_csv
                  stable_sort_spec) eq_refl).
Defined.

(** Without [sort_utt] the table is still sorted: by [input_path],
    ascending, whatever [reverse] and [shuffle] say (lines 99-102). *)
Theorem path_order_without_sort_utt sv (a : Args) (csv : list Row) :
  sort_values_spec sv -> arg_sort_utt a = false ->
  build_df sv a csv ≡ₚ select_rows a csv /\
  Sorted (fun x y => String.leb (input_path x.2) (input_path y.2) = true)
    (build_df sv a csv).
Proof.
  intros Hsv Hsort. split; [by apply build_df_perm|].
  unfold build_df. rewrite Hsort.
  exact (proj2 (Hsv by_input_path true (select_rows a csv))).
Qed.

Lemma path_order_without_sort_utt_witness :
  sort_values_spec stable_sort /\
  Sorted (fun x y => String.leb (input_path x.2) (input_path y.2) = true)
    (build_df stable_sort (default_args "train" "word_freq1" false true)
       small_csv).
Proof.
  split; [exact stable_sort_spec|].
  exact (proj2 (path_order_without_sort_utt stable_sort
                  (default_args "train" "word_freq1" false true) small_csv
                  stable_sort_spec eq_refl)).
Defined.

(** Which utterances the instance holds depends on the manifest,
    [data_type] and [label_type] only: two constructions that agree on
    these hold the same labelled rows and the same [rest], whatever their
    sorting options and sorting routines. *)
Theorem selection_ignores_sorting sv sv' (a a' : Args) (csv : list Row) :
  sort_values_spec sv -> sort_values_spec sv' ->
  arg_data_type a = arg_data_type a' ->
  arg_label_type a = arg_label_type a' ->
  df (__init__ sv a csv) ≡ₚ df (__init__ sv' a' csv) /\
  rest (__init__ sv a csv) = rest (__init__ sv' a' csv).
Proof.
  intros Hsv Hsv' Htype Hlabel.
  assert (build_df sv a csv ≡ₚ build_df sv' a' csv) as Hperm.
  { rewrite (build_df_perm sv a csv Hsv), (build_df_perm sv' a' csv Hsv').
    unfold select_rows, remove_inappropriate.
    by rewrite Htype, Hlabel. }
  cbn [df rest __init__]. split; [done|].
  apply list_to_set_perm_L. by apply fmap_Permutation.
Qed.

Lemma selection_ignores_sorting_witness :
  sort_values_spec stable_sort /\ sort_values_spec tie_reversing_sort /\
  rest (__init__ stable_sort
          (default_args "train" "word_freq1" true false) small_csv)
  = rest (__init__ tie_reversing_sort
            (default_args "train" "word_freq1" false true) small_csv).
Proof.
  split; [exact stable_sort_spec|]. split; [exact tie_reversing_sort_spec|].
  exact (proj2 (selection_ignores_sorting stable_sort tie_reversing_sort
                  (default_args "train" "word_freq1" true false)
                  (default_args "train" "word_freq1" false true) small_csv
                  stable_sort_spec tie_reversing_sort_spec eq_refl eq_refl)).
Defined.

End LoadDatasetEdges.

(** ** The speaker directory of the attention plots *)

Module PlotHierarchicalAttentionWeightsFacts.

Import PyStrChars PlotHierarchicalAttentionWeights.
Local Open Scope string_scope.

(** The speaker is the part of the display name before its first
    underscore: it has no underscore, and the name is the speaker followed
    by nothing or by an underscore and the rest.  A name without an
    underscore is its own speaker. *)
Theorem speaker_is_prefix_before_underscore (input_name : string) :
  has_char "_" (speaker input_name) = false /\
  (input_name = speaker input_name \/
   exists t, input_name = speaker input_name +:+ String "_" t).
Proof.
  unfold speaker. induction input_name as [|c s [IHc IHs]]; simpl.
  - split; [done | by left].
  - destruct (Ascii.eqb_spec c "_") as [->|Hc]; simpl.
    + split; [done|]. right. by exists s.
    + pose proof (split_nonempty "_" s) as Hne.
      destruct (PyStr.split "_" s) as [|w ws]; [done|]. simpl in *.
      split.
      * rewrite IHc. by destruct (Ascii.eqb_spec c "_").
      * destruct IHs as [->|(t & ->)]; [by left|]. right. by exists t.
Qed.

End PlotHierarchicalAttentionWeightsFacts.
